(** * GLSCLP: the title builder and the item-specifics pipeline

  A shallow embedding of [src/title_builder.py] and [src/pipeline.py]:
  the optional-field normaliser, the two serial formatters, the
  80-character title assembler with its drop loop, and the layered
  item-specifics derivation.

  Conventions of the embedding.
  - A Python [str] is a Rocq [string]; every character is read as the
    Unicode code point of the same number (0..255), and the character
    classes below are Python's on that range.
  - A parsed JSON document is a [value]; a [dict] is an association list
    in insertion order, read with [dget] and written with [dset]
    (replace in place, else append), as a Python dict behaves.
  - A Python exception is the [Raise] case of [result].
  - [int] on a text follows the interpreter's default cap of 4300 digits
    ([sys.get_int_max_str_digits()]): a longer run of digits raises
    ValueError.  A number printed with [str] is one that [int] or
    [json.loads] produced, hence within the cap, and is printed exactly. *)

From Stdlib Require Import ZArith NArith Bool List Lia Sorting.Sorted.
From Stdlib Require Import Strings.String Strings.Ascii.
From Stdlib Require Import Numbers.DecimalString Numbers.DecimalN Numbers.DecimalZ.
Import ListNotations.

Open Scope bool_scope.
Open Scope string_scope.

(* ================================================================== *)
(** ** Python strings *)
(* ================================================================== *)

Module PyStr.

Definition code (c : ascii) : N := N_of_ascii c.

Definition in_range (lo hi : N) (c : ascii) : bool :=
  (lo <=? code c)%N && (code c <=? hi)%N.

(** [str.isspace] on one character, which is also what [str.strip] with no
    argument removes and what [\s] matches in a [str] pattern:
    U+0009..U+000D, U+001C..U+0020, U+0085 and U+00A0. *)
Definition isspace (c : ascii) : bool :=
  in_range 9 13 c || in_range 28 32 c || (code c =? 133)%N || (code c =? 160)%N.

(** [\d] in a [str] pattern: the decimal digits. *)
Definition isdecimal (c : ascii) : bool := in_range 48 57 c.

(** [str.isdigit] on one character: the decimal digits and the
    superscripts U+00B2, U+00B3, U+00B9, which [int] does not read. *)
Definition isdigit_char (c : ascii) : bool :=
  isdecimal c || (code c =? 178)%N || (code c =? 179)%N || (code c =? 185)%N.

(** [\w] in a [str] pattern: alphanumerics and the underscore. *)
Definition isword (c : ascii) : bool :=
  in_range 48 57 c || in_range 65 90 c || (code c =? 95)%N || in_range 97 122 c
  || (code c =? 170)%N || (code c =? 178)%N || (code c =? 179)%N
  || (code c =? 181)%N || (code c =? 185)%N || (code c =? 186)%N
  || in_range 188 190 c || in_range 192 214 c || in_range 216 246 c
  || in_range 248 255 c.

(** [str.lower] on one character. *)
Definition lower_char (c : ascii) : ascii :=
  if in_range 65 90 c || in_range 192 214 c || in_range 216 222 c
  then ascii_of_N (code c + 32) else c.

Fixpoint lower (s : string) : string :=
  match s with
  | EmptyString => EmptyString
  | String c r => String (lower_char c) (lower r)
  end.

Definition is_empty (s : string) : bool :=
  match s with EmptyString => true | _ => false end.

(** A string in a condition: true when it is not empty. *)
Definition nonempty (s : string) : bool := negb (is_empty s).

Fixpoint lstrip (s : string) : string :=
  match s with
  | EmptyString => EmptyString
  | String c r => if isspace c then lstrip r else s
  end.

Fixpoint rstrip (s : string) : string :=
  match s with
  | EmptyString => EmptyString
  | String c r =>
      let r' := rstrip r in
      if isspace c && is_empty r' then EmptyString else String c r'
  end.

(** [s.strip()] *)
Definition strip (s : string) : string := rstrip (lstrip s).

(** [sep.join(parts)] *)
Fixpoint join (sep : string) (parts : list string) : string :=
  match parts with
  | [] => ""
  | [p] => p
  | p :: rest => p ++ sep ++ join sep rest
  end.

(** [s.startswith(p)] is [String.prefix p s]. *)

(** [needle in s] for two strings. *)
Fixpoint contains (needle s : string) : bool :=
  prefix needle s ||
  match s with
  | EmptyString => false
  | String _ r => contains needle r
  end.

(** [c in s] for a one-character needle, as used on ["/"]. *)
Fixpoint has_char (c : ascii) (s : string) : bool :=
  match s with
  | EmptyString => false
  | String d r => Ascii.eqb c d || has_char c r
  end.

(** [s.split(c)[-1]]: what follows the last [c] (all of [s] without one). *)
Fixpoint after_last (c : ascii) (s : string) : string :=
  match s with
  | EmptyString => EmptyString
  | String d r =>
      if has_char c r then after_last c r
      else if Ascii.eqb c d then r
      else s
  end.

(** [s.replace("of", "/")]: every occurrence, left to right, not overlapping. *)
Fixpoint replace_of (s : string) : string :=
  match s with
  | EmptyString => EmptyString
  | String c1 r1 =>
      match r1 with
      | String c2 r2 =>
          if Ascii.eqb c1 "o" && Ascii.eqb c2 "f"
          then String "/" (replace_of r2)
          else String c1 (replace_of r1)
      | EmptyString => s
      end
  end.

(** [s.isdigit()]: not empty and every character a digit. *)
Fixpoint all_chars (p : ascii -> bool) (s : string) : bool :=
  match s with
  | EmptyString => true
  | String c r => p c && all_chars p r
  end.

Definition isdigit (s : string) : bool := nonempty s && all_chars isdigit_char s.

(** The number a run of decimal digits denotes, most significant first. *)
Definition digit_val (c : ascii) : N := (code c - 48)%N.

Fixpoint int_acc (acc : N) (s : string) : N :=
  match s with
  | EmptyString => acc
  | String c r => int_acc (acc * 10 + digit_val c)%N r
  end.

Definition digits_value (s : string) : N := int_acc 0 s.

(** [str(n)] for a natural number and for an integer. *)
Definition str_of_N (n : N) : string := NilZero.string_of_uint (N.to_uint n).
Definition str_of_Z (z : Z) : string := NilZero.string_of_int (Z.to_int z).
Definition str_of_nat (n : nat) : string := str_of_N (N.of_nat n).

(** *** The regular expressions of the two files, as scanners *)

(** [re.sub(r"\s+", " ", s)].  [in_run] says the previous character was
    white space, so the run has already produced its one blank. *)
Fixpoint sub_spaces (in_run : bool) (s : string) : string :=
  match s with
  | EmptyString => EmptyString
  | String c r =>
      if isspace c
      then (if in_run then sub_spaces true r else String " " (sub_spaces true r))
      else String c (sub_spaces false r)
  end.

(** [re.sub(r"\bof\b", "/", s, flags=re.IGNORECASE)].  [prev_word] says the
    character before the current position is a word character; the match
    needs a boundary before the o (the character before it is not a word
    character) and one after the f (the character after it is not). *)
Definition starts_with_word (s : string) : bool :=
  match s with
  | EmptyString => false
  | String c _ => isword c
  end.

Definition is_o (c : ascii) : bool := Ascii.eqb c "o" || Ascii.eqb c "O".
Definition is_f (c : ascii) : bool := Ascii.eqb c "f" || Ascii.eqb c "F".

Fixpoint sub_of_word (prev_word : bool) (s : string) : string :=
  match s with
  | EmptyString => EmptyString
  | String c1 r1 =>
      match r1 with
      | String c2 r2 =>
          if negb prev_word && is_o c1 && is_f c2 && negb (starts_with_word r2)
          then String "/" (sub_of_word true r2)
          else String c1 (sub_of_word (isword c1) r1)
      | EmptyString => s
      end
  end.

(** What [\d+] matches in full: a non-empty run of decimal digits. *)
Definition digits (s : string) : bool := nonempty s && all_chars isdecimal s.

(** The longest run of decimal digits [s] starts with, and what follows. *)
Fixpoint span_digits (s : string) : string * string :=
  match s with
  | EmptyString => (EmptyString, EmptyString)
  | String c r =>
      if isdecimal c
      then let (d, rest) := span_digits r in (String c d, rest)
      else (EmptyString, s)
  end.

(** [(\d+)\s*/\s*(\d+)] matched at the start of [s]: the two groups.  Each
    star and plus is greedy, and a shorter choice can never succeed (what
    follows a shortened run is a digit or a blank, never the next item of
    the pattern), so the longest runs are the match. *)
Definition match_fraction (s : string) : option (string * string) :=
  let (d1, r1) := span_digits s in
  if is_empty d1 then None
  else
    match lstrip r1 with
    | String c r2 =>
        if Ascii.eqb c "/"
        then let (d2, _) := span_digits (lstrip r2) in
             if is_empty d2 then None else Some (d1, d2)
        else None
    | EmptyString => None
    end.

(** [re.search(r"(\d+)\s*/\s*(\d+)", s)]: the match at the leftmost
    position that has one. *)
Fixpoint search_fraction (s : string) : option (string * string) :=
  match match_fraction s with
  | Some m => Some m
  | None =>
      match s with
      | EmptyString => None
      | String _ r => search_fraction r
      end
  end.

(** [re.search(r"/\s*(\d+)", s)]: the group of the leftmost match. *)
Fixpoint search_denominator (s : string) : option string :=
  match s with
  | EmptyString => None
  | String c r =>
      if Ascii.eqb c "/"
      then let (d, _) := span_digits (lstrip r) in
           if is_empty d then search_denominator r else Some d
      else search_denominator r
  end.

End PyStr.

(* ================================================================== *)
(** ** JSON values, dicts and exceptions *)
(* ================================================================== *)

Module Py.
Import PyStr.

(** What [json.loads] yields.  A float is carried by the text [str] prints
    for it: the two files never compute with one, they only test it for
    truth and print it. *)
#[warnings="-register-all"]
Inductive value : Type :=
| VNone
| VBool (b : bool)
| VInt (z : Z)
| VFloat (text : string)
| VStr (s : string)
| VList (l : list value)
| VDict (d : list (string * value)).

Definition dict (A : Type) : Type := list (string * A).

(** [d[k]] when the key is there. *)
Fixpoint dget {A : Type} (d : dict A) (k : string) : option A :=
  match d with
  | [] => None
  | (k', v) :: r => if String.eqb k' k then Some v else dget r k
  end.

(** [d[k] = v] *)
Fixpoint dset {A : Type} (d : dict A) (k : string) (v : A) : dict A :=
  match d with
  | [] => [(k, v)]
  | (k', v') :: r =>
      if String.eqb k' k then (k, v) :: r else (k', v') :: dset r k v
  end.

(** [k in d] *)
Definition dmem {A : Type} (d : dict A) (k : string) : bool :=
  match dget d k with Some _ => true | None => false end.

(** [d.get(k, default)] and [d.get(k)]. *)
Definition get_or (d : dict value) (k : string) (default : value) : value :=
  match dget d k with Some v => v | None => default end.

Definition get (d : dict value) (k : string) : value := get_or d k VNone.

(** The truth value of an object in a condition. *)
Definition truthy (v : value) : bool :=
  match v with
  | VNone => false
  | VBool b => b
  | VInt z => negb (z =? 0)%Z
  | VFloat t => negb (String.eqb t "0.0" || String.eqb t "-0.0")
  | VStr s => nonempty s
  | VList l => match l with [] => false | _ => true end
  | VDict d => match d with [] => false | _ => true end
  end.

(** [a or b] when evaluating [b] cannot raise. *)
Definition por (a b : value) : value := if truthy a then a else b.

(** [v == s] for a string [s]. *)
Definition eq_str (v : value) (s : string) : bool :=
  match v with VStr t => String.eqb t s | _ => false end.

(** *** [repr] and [str] *)

Definition squote : ascii := "'"%char.
Definition dquote : ascii := ascii_of_N 34.
Definition backslash : ascii := ascii_of_N 92.

Definition hex_digit (n : N) : ascii :=
  if (n <? 10)%N then ascii_of_N (48 + n) else ascii_of_N (87 + n).

Definition escape_char (quote c : ascii) : string :=
  if Ascii.eqb c quote || Ascii.eqb c backslash
  then String backslash (String c "")
  else if (code c =? 9)%N then String backslash "t"
  else if (code c =? 10)%N then String backslash "n"
  else if (code c =? 13)%N then String backslash "r"
  else if (code c <? 32)%N || (code c =? 127)%N || in_range 128 160 c
          || (code c =? 173)%N
  then String backslash
         (String "x" (String (hex_digit (code c / 16))
                        (String (hex_digit (code c mod 16)) "")))
  else String c "".

Fixpoint escape_all (quote : ascii) (s : string) : string :=
  match s with
  | EmptyString => EmptyString
  | String c r => escape_char quote c ++ escape_all quote r
  end.

(** [repr(s)] for a string: single quotes, unless [s] has a single quote
    and no double quote. *)
Definition repr_str (s : string) : string :=
  let quote :=
    if has_char squote s && negb (has_char dquote s) then dquote else squote in
  String quote (escape_all quote s ++ String quote "").

Fixpoint repr (v : value) : string :=
  match v with
  | VNone => "None"
  | VBool true => "True"
  | VBool false => "False"
  | VInt z => str_of_Z z
  | VFloat t => t
  | VStr s => repr_str s
  | VList l => "[" ++ join ", " (map repr l) ++ "]"
  | VDict d =>
      "{" ++ join ", " (map (fun kv : string * value => let (k, x) := kv in
                                        repr_str k ++ ": " ++ repr x) d) ++ "}"
  end.

(** [str(v)] *)
Definition str (v : value) : string :=
  match v with VStr s => s | _ => repr v end.

(** *** Exceptions *)

Inductive exn : Type :=
| AttributeError
| TypeError
| ValueError (msg : string).

Inductive result (A : Type) : Type :=
| Ok (a : A)
| Raise (e : exn).
Arguments Ok {A} a.
Arguments Raise {A} e.

Definition bind {A B : Type} (c : result A) (k : A -> result B) : result B :=
  match c with Ok a => k a | Raise e => Raise e end.

(** *** [int] on a text *)

(** The interpreter's default cap on the digits of a conversion between
    [int] and [str] ([sys.get_int_max_str_digits()]). *)
Definition INT_MAX_STR_DIGITS : nat := 4300.

Definition digit_limit_message (n : nat) : string :=
  "Exceeds the limit (" ++ str_of_nat INT_MAX_STR_DIGITS
    ++ " digits) for integer string conversion: value has " ++ str_of_nat n
    ++ " digits; use sys.set_int_max_str_digits() to increase the limit".

Definition invalid_literal_message (s : string) : string :=
  "invalid literal for int() with base 10: " ++ substring 0 200 (repr_str s).

(** [int(s)] for a text of digit characters, which is all the two files
    pass to it: a [\d+] group, or a text that passed [isdigit].  The
    leading run of decimal digits is counted first, leading zeros
    included, and a run above the cap is refused; a superscript digit is
    no literal, and the message then shows the first 200 characters of
    [repr(s)]. *)
Definition int (s : string) : result N :=
  let (d, rest) := span_digits s in
  if (INT_MAX_STR_DIGITS <? String.length d)%nat
  then Raise (ValueError (digit_limit_message (String.length d)))
  else if nonempty d && is_empty rest
  then Ok (digits_value d)
  else Raise (ValueError (invalid_literal_message s)).

End Py.

Notation "x <- c ;; k" := (Py.bind c (fun x => k))
(at level 61, c at next level, right associativity).

(* ================================================================== *)
(** ** src/title_builder.py *)
(* ================================================================== *)

Module title_builder.
Import PyStr Py.

Definition EBAY_TITLE_MAX : nat := 80.

Definition _clean (s : string) : string := sub_spaces false (strip s).

Definition _join_tokens (tokens : list string) : string :=
  _clean (join " " (filter nonempty (map _clean tokens))).

Definition falsy_words : list string := ["false"; "no"; "none"; "n/a"; "na"].

Definition _norm_optional (val : value) : string :=
  match val with
  | VNone => ""
  | VBool false => ""
  | VStr s0 =>
      let s := strip s0 in
      if is_empty s then ""
      else if existsb (String.eqb (lower s)) falsy_words then ""
      else s
  | _ => ""
  end.

Definition _parse_serial_for_ebay (serial_raw : value) : result (option string) :=
  let s := _norm_optional serial_raw in
  if is_empty s then Ok None
  else
    let s := sub_of_word false s in
    match search_fraction s with
    | Some (g1, g2) =>
        first <- int g1 ;;
        denom <- int g2 ;;
        if (denom <=? 0)%N then Ok None
        else if (first =? 1)%N || (first =? denom)%N
             then Ok (Some (str_of_N first ++ "/" ++ str_of_N denom))
             else Ok (Some ("/" ++ str_of_N denom))
    | None =>
        match search_denominator s with
        | Some g =>
            denom <- int g ;;
            if (denom <=? 0)%N then Ok None else Ok (Some ("/" ++ str_of_N denom))
        | None => Ok None
        end
    end.

Record TitleInputs : Type := {
  year : string;
  brand : string;
  set_name : string;
  player_first : string;
  player_last : string;
  card_number : string;
  insert : string;
  parallel : string;
  auto_patch : string;
  serial_raw : value;
  grading_company : string;
  numerical_grade : string;
  team_city : string;
  team_name : string;
  rookie : string
}.

Definition title_inputs (card : dict value) : TitleInputs := {|
  year := _clean (str (get_or card "year" (VStr "")));
  brand := _clean (str (get_or card "brand" (VStr "")));
  set_name := _clean (str (get_or card "set" (get_or card "set_name" (VStr ""))));
  player_first :=
    _clean (str (get_or card "player_first" (get_or card "player_first_name" (VStr ""))));
  player_last :=
    _clean (str (get_or card "player_last" (get_or card "player_last_name" (VStr ""))));
  card_number :=
    _clean (str (get_or card "card_number" (get_or card "card_no" (VStr ""))));
  insert := _norm_optional (get_or card "insert" (get card "insert_set"));
  parallel := _norm_optional (get_or card "parallel" (get card "variety"));
  auto_patch := _norm_optional (get_or card "auto_patch" (get card "auto_patch_type"));
  serial_raw := get_or card "serial" (get card "serial_number");
  grading_company := _norm_optional (get_or card "grading_company" (get card "grader"));
  numerical_grade := _norm_optional (get_or card "numerical_grade" (get card "grade"));
  team_city := _norm_optional (get card "team_city");
  team_name := _norm_optional (get_or card "team_name" (get card "team"));
  rookie := _norm_optional (get_or card "rookie" (get card "rc"))
|}.

Definition mandatory_tokens (inp : TitleInputs) : list string :=
  [year inp; brand inp; set_name inp; player_first inp; player_last inp;
   card_number inp].

Definition group_values (inp : TitleInputs) (serial_fmt : string) : dict string :=
  [ ("insert", _join_tokens [insert inp]);
    ("parallel", _join_tokens [parallel inp]);
    ("auto_patch", _join_tokens [auto_patch inp]);
    ("serial", _join_tokens [serial_fmt]);
    ("grading_company", _join_tokens [grading_company inp]);
    ("numerical_grade", _join_tokens [numerical_grade inp]);
    ("team_city", _join_tokens [team_city inp]);
    ("team_name", _join_tokens [team_name inp]);
    ("rookie", _join_tokens [rookie inp]) ].

Definition include_order : list string :=
  ["insert"; "parallel"; "auto_patch"; "serial"; "grading_company";
   "numerical_grade"; "team_city"; "team_name"; "rookie"].

Definition drop_priority : list string :=
  ["team_city"; "team_name"; "numerical_grade"; "grading_company"; "parallel";
   "insert"; "serial"; "auto_patch"; "rookie"].

(** [groups.get(k)] in a condition: the group has a non-empty value. *)
Definition present (groups : dict string) (k : string) : bool :=
  match dget groups k with Some v => nonempty v | None => false end.

(** The tokens a [for k in include_order: if groups.get(k): append] loop
    adds. *)
Definition group_tokens (groups : dict string) : list string :=
  flat_map (fun k => match dget groups k with
                     | Some v => if nonempty v then [v] else []
                     | None => []
                     end) include_order.

(** The title assembled from the mandatory tokens and the active groups. *)
Definition assemble (mandatory : list string) (groups : dict string) : string :=
  _join_tokens (mandatory ++ group_tokens groups).

(** The body of [for k in drop_priority], on the loop state
    [(title, active, dropped)]. *)
Fixpoint drop_loop (mandatory : list string) (ks : list string)
    (title : string) (active : dict string) (dropped : list string)
    : string * list string :=
  match ks with
  | [] => (title, dropped)
  | k :: ks' =>
      if (String.length title <=? EBAY_TITLE_MAX)%nat then (title, dropped)
      else if present active k then
        let active' := dset active k "" in
        drop_loop mandatory ks' (assemble mandatory active') active'
                  (dropped ++ [k])
      else drop_loop mandatory ks' title active dropped
  end.

Definition overflow_message (title : string) : string :=
  "Mandatory fields exceed " ++ str_of_nat EBAY_TITLE_MAX
    ++ " chars after drops. Title='" ++ title ++ "' ("
    ++ str_of_nat (String.length title) ++ " chars)".

Definition build_ebay_title (card : dict value) : result (string * list string) :=
  let inp := title_inputs card in
  let mandatory := mandatory_tokens inp in
  parsed <- _parse_serial_for_ebay (serial_raw inp) ;;
  let serial_fmt := match parsed with Some s => s | None => "" end in
  let groups := group_values inp serial_fmt in
  let title := assemble mandatory groups in
  let (title, dropped) :=
    if (EBAY_TITLE_MAX <? String.length title)%nat
    then drop_loop mandatory drop_priority title groups []
    else (title, []) in
  if (EBAY_TITLE_MAX <? String.length title)%nat
  then Raise (ValueError (overflow_message title))
  else Ok (title, dropped).

End title_builder.

(* ================================================================== *)
(** ** src/pipeline.py *)
(* ================================================================== *)

Module pipeline.
Import PyStr Py.

Definition falsy_words : list string := ["false"; "no"; "none"; "n/a"; "na"].

Definition norm_optional (val : value) : string :=
  match val with
  | VNone => ""
  | VBool false => ""
  | VStr s0 =>
      let s := strip s0 in
      if is_empty s then ""
      else if existsb (String.eqb (lower s)) falsy_words then ""
      else s
  | _ => ""
  end.

Definition strip_hash (s : string) : string :=
  let s := strip s in
  if prefix "#" s then strip (substring 1 (String.length s - 1) s) else s.

Definition serial_denominator_only_no_slash (serial : value) : result string :=
  let s := norm_optional serial in
  if is_empty s then Ok ""
  else
    let s := replace_of (lower s) in
    if has_char "/" s then
      let last := strip (after_last "/" s) in
      if isdigit last
      then n <- int last ;; Ok (str_of_N n)
      else Ok ""
    else if isdigit s
    then n <- int s ;; Ok (str_of_N n)
    else Ok "".

(** [v.strip()]: only a string has the method. *)
Definition strip_of (v : value) : result string :=
  match v with
  | VStr s => Ok (strip s)
  | _ => Raise AttributeError
  end.

Definition get_player_name (card : dict value) : result string :=
  pf <- strip_of (por (por (get card "player_first") (get card "player_first_name"))
                      (VStr "")) ;;
  pl <- strip_of (por (por (get card "player_last") (get card "player_last_name"))
                      (VStr "")) ;;
  Ok (strip (pf ++ " " ++ pl)).

(** *** 1) globals *)
Definition copy_items (src item : dict value) : dict value :=
  fold_left (fun it kv => dset it (fst kv) (snd kv)) src item.

Definition globals_layer (globals_defaults : dict value) : dict value :=
  copy_items globals_defaults [].

(** *** 2) direct fields *)
Definition direct_map (card : dict value) : result (dict value) :=
  player <-
    (let v := por (get card "player_athlete") (get card "Player/Athlete") in
     if truthy v then Ok v
     else n <- get_player_name card ;; Ok (VStr n)) ;;
  Ok [ ("Player/Athlete", player);
       ("Manufacturer", por (get card "Manufacturer") (get card "brand"));
       ("Set", por (por (get card "Set") (get card "set")) (get card "set_name"));
       ("Team", por (por (get card "Team") (get card "team_name")) (get card "team"));
       ("Season", por (get card "Season") (get card "year"));
       ("Year Manufactured", por (get card "Year Manufactured") (get card "year"));
       ("Parallel/Variety", por (get card "Parallel/Variety") (get card "parallel"));
       ("Features", get card "Features");
       ("Insert Set",
         por (por (get card "Insert Set") (get card "insert_set")) (get card "insert"));
       ("Autographed", por (get card "Autographed") (get card "autographed"));
       ("Professional Grader",
         por (por (get card "Professional Grader") (get card "grading_company"))
             (get card "grader"));
       ("Grade",
         por (por (get card "Grade") (get card "grade")) (get card "numerical_grade"));
       ("Card Thickness", get card "Card Thickness");
       ("Event/Tournament", get card "Event/Tournament");
       ("League", get card "League");
       ("Card Name", get card "Card Name");
       ("Card Number", por (get card "Card Number") (get card "card_number"));
       ("Print Run", get card "Print Run");
       ("Signed By", get card "Signed By");
       ("Autograph Authentication", get card "Autograph Authentication");
       ("Autograph Authentication Number", get card "Autograph Authentication Number");
       ("Autograph Format", get card "Autograph Format");
       ("California Prop 65 Warning", get card "California Prop 65 Warning");
       ("Sport", por (get card "Sport") (get card "sport"));
       ("Type", get card "Type") ].

Definition direct_step (item : dict value) (entry : string * value) : dict value :=
  let (aspect, raw) := entry in
  if String.eqb aspect "Features" then
    match raw with
    | VList (x :: l) =>
        dset item aspect
             (VList (map VStr (filter nonempty
                                 (map (fun y => strip (str y)) (x :: l)))))
    | VStr s => if nonempty (strip s) then dset item aspect (VStr (strip s)) else item
    | _ => item
    end
  else
    let s := norm_optional raw in
    if nonempty s then dset item aspect (VStr s) else item.

Definition direct_layer (card item : dict value) : result (dict value) :=
  dm <- direct_map card ;;
  Ok (fold_left direct_step dm item).

(** *** 3) derive and enforce *)
Fixpoint foldM {A S : Type} (f : S -> A -> result S) (l : list A) (s : S)
    : result S :=
  match l with
  | [] => Ok s
  | a :: r => s' <- f s a ;; foldM f r s'
  end.

Definition derive_step (card item : dict value) (entry : string * value)
    : result (dict value) :=
  let (target, rule) := entry in
  match rule with
  | VDict rule =>
      let src := get rule "from" in
      let xform := get rule "transform" in
      val <-
        (if eq_str src "player_name" then get_player_name card
         else if eq_str src "card_number"
              then Ok (strip (str (get_or card "card_number" (VStr ""))))
         else if eq_str src "serial_number"
              then Ok (strip (str (get_or card "serial_number" (VStr ""))))
         else if eq_str src "year"
              then Ok (strip (str (get_or card "year" (VStr ""))))
         else Ok "") ;;
      val <-
        (if eq_str xform "strip_hash" then Ok (strip_hash val)
         else if eq_str xform "serial_denominator_only_no_slash"
              then serial_denominator_only_no_slash (VStr val)
         else Ok val) ;;
      Ok (if nonempty val then dset item target (VStr val) else item)
  | _ => Ok item
  end.

Definition derive_layer (card enforced item : dict value) : result (dict value) :=
  match get_or enforced "derive_and_enforce" (VDict []) with
  | VDict dae => foldM (derive_step card) dae item
  | _ => Ok item
  end.

(** *** 4) conditional aspects *)

(** [for r in rules: ...; break] *)
Fixpoint apply_rules (rules : list value) (sport k : string) (item : dict value)
    : result (dict value) :=
  match rules with
  | [] => Ok item
  | r :: rest =>
      match r with
      | VDict r =>
          match get_or r "when" (VDict []) with
          | VDict when =>
              if eq_str (get when "Sport") sport then
                let v := norm_optional (get r "value") in
                Ok (if nonempty v then dset item k (VStr v) else item)
              else apply_rules rest sport k item
          | _ => apply_rules rest sport k item
          end
      | _ => Raise AttributeError
      end
  end.

Definition sport_mapping (ca : dict value) (sport k : string) (item : dict value)
    : result (dict value) :=
  match dget ca k with
  | Some (VDict entry) =>
      if nonempty sport then
        match get_or entry "rules" (VList []) with
        | VList rules => apply_rules rules sport k item
        | _ => Ok item
        end
      else Ok item
  | _ => Ok item
  end.

(** [" ".join(feats)]: every element has to be a string. *)
Fixpoint strings_of (l : list value) : result (list string) :=
  match l with
  | [] => Ok []
  | VStr s :: r => t <- strings_of r ;; Ok (s :: t)
  | _ :: _ => Raise TypeError
  end.

Definition feats_text (item : dict value) : result string :=
  match get_or item "Features" (VList []) with
  | VList l => ss <- strings_of l ;; Ok (join " " ss)
  | v => Ok (str v)
  end.

(** The configured default, when Card Thickness is still empty. *)
Definition thickness_default (entry item : dict value) : dict value :=
if negb (nonempty (norm_optional (get item "Card Thickness"))) then
  let default := norm_optional (get entry "default") in
  if nonempty default then dset item "Card Thickness" (VStr default) else item
else item.

Definition card_thickness (ca item : dict value) : result (dict value) :=
match dget ca "Card Thickness" with
| Some (VDict entry) =>
    let item := thickness_default entry item in
    text <- feats_text item ;;
    Ok (if contains "Memorabilia" text
        then dset item "Card Thickness" (VStr "") else item)
| _ => Ok item
end.

(** Prop 65: an explicit blank. *)
Definition prop65_blank (ca item : dict value) : dict value :=
if dmem ca "California Prop 65 Warning"
then dset item "California Prop 65 Warning" (VStr "") else item.

Definition conditional_layer (enforced item : dict value) : result (dict value) :=
let ca := get_or enforced "conditional_aspects" (VDict []) in
sport <- strip_of (por (get item "Sport") (VStr "")) ;;
match ca with
| VDict ca =>
    let item := prop65_blank ca item in
    item <- sport_mapping ca sport "League" item ;;
    item <- sport_mapping ca sport "Event/Tournament" item ;;
    card_thickness ca item
| _ => Ok item
end.

(** *** 5) autograph dependencies *)

(** [current in allowed] *)
Definition py_in (current : string) (allowed : value) : result bool :=
  match allowed with
  | VList l => Ok (existsb (fun v => eq_str v current) l)
  | VStr s => Ok (contains current s)
  | VDict d => Ok (dmem d current)
  | _ => Raise TypeError
  end.

(** Signed By = player name, when so configured. *)
Definition signed_by_rule (card when_yes item : dict value) : result (dict value) :=
match get when_yes "Signed By" with
| VDict sb =>
    if eq_str (get sb "from") "player_name"
    then n <- get_player_name card ;; Ok (dset item "Signed By" (VStr n))
    else Ok item
| _ => Ok item
end.

Definition authentication_rule (when_yes item : dict value) : dict value :=
match get when_yes "Autograph Authentication" with
| VDict aa =>
    match dget aa "value" with
    | Some v => dset item "Autograph Authentication" v
    | None => item
    end
| _ => item
end.

(** Autograph Format: blank when present and not allowed by policy. *)
Definition format_rule (when_yes item : dict value) : result (dict value) :=
match get when_yes "Autograph Format" with
| VDict af =>
    let allowed := get_or af "allowed_by_policy" (VList []) in
    let current := norm_optional (get item "Autograph Format") in
    if nonempty current && truthy allowed then
      isin <- py_in current allowed ;;
      Ok (if negb isin then dset item "Autograph Format" (VStr "") else item)
    else Ok item
| _ => Ok item
end.

Definition when_yes_rules (card when_yes item : dict value) : result (dict value) :=
item <- signed_by_rule card when_yes item ;;
let item := authentication_rule when_yes item in
let item := dset item "Autograph Authentication Number" (VStr "") in
format_rule when_yes item.

Definition autograph_layer (card enforced item : dict value) : result (dict value) :=
  match get_or enforced "autograph_rules" (VDict []) with
  | VDict ar =>
      match get ar "Autographed" with
      | VDict blk =>
          let auto := norm_optional (get item "Autographed") in
          if String.eqb (lower auto) "no" then
            match get_or blk "when_no" (VDict []) with
            | VDict when_no => Ok (copy_items when_no item)
            | _ => Ok item
            end
          else if String.eqb (lower auto) "yes" then
            match get_or blk "when_yes" (VDict []) with
            | VDict when_yes => when_yes_rules card when_yes item
            | _ => Ok item
            end
          else Ok item
      | _ => Ok item
      end
  | _ => Ok item
  end.

(** *** 6) parallel default, 7) features default *)
Definition parallel_layer (enforced item : dict value) : dict value :=
  match get_or enforced "parallel_variety_rules" (VDict []) with
  | VDict pvr =>
      if negb (nonempty (norm_optional (get item "Parallel/Variety")))
      then dset item "Parallel/Variety" (get_or pvr "default" (VStr "[Base]"))
      else item
  | _ => item
  end.

Definition features_layer (enforced item : dict value) : dict value :=
  match get_or enforced "features_rules" (VDict []) with
  | VDict fr =>
      if negb (truthy (get item "Features"))
      then dset item "Features"
                (get_or fr "default_if_none_detected" (VList [VStr "Base Set"]))
      else item
  | _ => item
  end.

(** *** 8) print run, 9) insert set *)
Definition print_run_layer (card item : dict value) : result (dict value) :=
  denom <- serial_denominator_only_no_slash (get card "serial_number") ;;
  Ok (if nonempty denom then dset item "Print Run" (VStr denom) else item).

Definition insert_set_layer (card item : dict value) : dict value :=
  let ins := norm_optional (por (get card "insert_set") (get card "insert")) in
  if nonempty ins then dset item "Insert Set" (VStr ins) else item.

(** The item as it stands after layers 1 to 3, when the conditional layer
    starts. *)
Definition derived_item (card globals_defaults enforced : dict value)
    : result (dict value) :=
  item <- direct_layer card (globals_layer globals_defaults) ;;
  derive_layer card enforced item.

(** Layers 4 to 9. *)
Definition finish_item (card enforced item : dict value) : result (dict value) :=
  item <- conditional_layer enforced item ;;
  item <- autograph_layer card enforced item ;;
  let item := parallel_layer enforced item in
  let item := features_layer enforced item in
  item <- print_run_layer card item ;;
  Ok (insert_set_layer card item).

Definition build_item_specifics (card globals_defaults enforced : dict value)
    : result (dict value) :=
  item <- derived_item card globals_defaults enforced ;;
  finish_item card enforced item.

(** *** Schema names and the payload of [main] *)

(** [sorted(names)] for strings: ascending by code point.  The order is
    total and antisymmetric, so every sort returns this list. *)
Fixpoint insert_sorted (x : string) (l : list string) : list string :=
  match l with
  | [] => [x]
  | y :: r => if String.leb x y then x :: l else y :: insert_sorted x r
  end.

Definition sorted (l : list string) : list string :=
  fold_right insert_sorted [] l.

Fixpoint aspect_names (aspects : list value) : list string :=
  match aspects with
  | [] => []
  | VDict a :: r =>
      if truthy (get a "name") then str (get a "name") :: aspect_names r
      else aspect_names r
  | _ :: r => aspect_names r
  end.

(** The set of names, as the list of its members: the callers only test
    membership. *)
Definition schema_aspect_names (schema : value) : list string :=
  match schema with
  | VList aspects => aspect_names aspects
  | _ => []
  end.

(** [sorted([k for k in item_specifics.keys() if k not in allowed_names])] *)
Definition unknown_names (item_specifics : dict value) (allowed_names : list string)
    : list string :=
  sorted (filter (fun k => negb (existsb (String.eqb k) allowed_names))
                 (map fst item_specifics)).

(** The payload [main] prints, from the four loaded documents (the card
    and the two rule documents taken as the dicts the signatures declare). *)
Definition payload (card : dict value) (schema : value)
    (globals_defaults enforced : dict value) : result (dict value) :=
  td <- title_builder.build_ebay_title card ;;
  item_specifics <- build_item_specifics card globals_defaults enforced ;;
  let allowed_names := schema_aspect_names schema in
  let unknown := unknown_names item_specifics allowed_names in
  Ok [ ("category_id", VStr "261328");
       ("title", VStr (fst td));
       ("item_specifics", VDict item_specifics);
       ("_debug",
         VDict [ ("input", VDict card);
                 ("dropped_title_groups", VList (map VStr (snd td)));
                 ("unknown_item_specific_names", VList (map VStr unknown)) ]) ].

End pipeline.

(* ================================================================== *)
(** ** Vocabulary of the statements, and sample inputs *)
(* ================================================================== *)

Import PyStr Py.

(** *** Texts *)

(** A character that is no white space; one that is no letter o. *)
Definition nospace (c : ascii) : bool := negb (isspace c).

Definition not_o (c : ascii) : bool := negb (is_o c).

(** A tidy text is what [_clean] leaves: no white space but single blanks,
    none of them in front or at the end.  [prev_blank] says the character
    before is a blank (or there is none). *)
Fixpoint tidy_from (prev_blank : bool) (s : string) : bool :=
  match s with
  | EmptyString => negb prev_blank
  | String c r =>
      if isspace c
      then Ascii.eqb c " " && negb prev_blank && tidy_from true r
      else tidy_from false r
  end.

Definition tidy (s : string) : bool := tidy_from true s.

(** The text is not empty and its last character is no white space. *)
Fixpoint ends_nonspace (s : string) : bool :=
  match s with
  | EmptyString => false
  | String c r =>
      match r with
      | EmptyString => negb (isspace c)
      | String _ _ => ends_nonspace r
      end
  end.

(** The character [c], [n] times. *)
Fixpoint repeat_char (c : ascii) (n : nat) : string :=
  match n with
  | O => EmptyString
  | S n' => String c (repeat_char c n')
  end.


(** The title form of a numerator and a denominator, and of a denominator
    alone. *)
Definition fraction_form (first denom : N) : option string :=
  if (denom =? 0)%N then None
  else if (first =? 1)%N || (first =? denom)%N
       then Some (str_of_N first ++ "/" ++ str_of_N denom)
       else Some ("/" ++ str_of_N denom).


(** *** Titles *)

(** The tokens [_join_tokens] keeps: each cleaned, the empty ones left out. *)
Definition kept_tokens (tokens : list string) : list string :=
  filter nonempty (map title_builder._clean tokens).

(** The groups after the keys [ks] have been set to the empty string. *)
Definition blank (ks : list string) (groups : dict string) : dict string :=
  fold_left (fun a k => dset a k "") ks groups.

(** The six mandatory tokens and the nine group values of a card. *)
Definition title_mandatory (card : dict value) : list string :=
  title_builder.mandatory_tokens (title_builder.title_inputs card).

(** The card's serial as the title formatter gives it. *)
Definition title_serial (card : dict value) : result (option string) :=
  title_builder._parse_serial_for_ebay
    (title_builder.serial_raw (title_builder.title_inputs card)).

(** The text of the serial group: empty when the formatter found no
    serial (and when it raised: there is no title then). *)
Definition serial_fmt (card : dict value) : string :=
  match title_serial card with Ok (Some s) => s | _ => "" end.

Definition title_groups (card : dict value) : dict string :=
  title_builder.group_values (title_builder.title_inputs card) (serial_fmt card).

(** The drop-priority order, filtered to the groups the card has. *)
Definition present_priority (card : dict value) : list string :=
  filter (title_builder.present (title_groups card)) title_builder.drop_priority.

(** The title assembled in full from the mandatory tokens and every group
    of the card but the [dropped] ones. *)
Definition title_without (card : dict value) (dropped : list string) : string :=
  title_builder.assemble (title_mandatory card) (blank dropped (title_groups card)).


(** *** Item specifics *)

(** [writes W item item']: [item'] is [item] but for entries [k : v] with
    [W k v], each set or overwritten; no key is ever removed. *)
Definition writes (W : string -> value -> Prop) (item item' : dict value) : Prop :=
  forall k, dget item' k = dget item k \/ exists v, dget item' k = Some v /\ W k v.

(** A string the normaliser returns as it is. *)
Definition normalised (v : value) : Prop :=
  exists s, v = VStr s /\ pipeline.norm_optional (VStr s) = s.

(** The direct layer writes the Features value, and normalised strings. *)
Definition direct_write (k : string) (v : value) : Prop :=
  k = "Features" \/ normalised v.

(** A key some derive_and_enforce rule targets. *)
Definition derive_target (enforced : dict value) (k : string) : Prop :=
  exists dae,
    get_or enforced "derive_and_enforce" (VDict []) = VDict dae /\
    In k (map fst dae).

(** The conditional layer writes normalised strings to four fields. *)
Definition conditional_write (k : string) (v : value) : Prop :=
  In k ["California Prop 65 Warning"; "League"; "Event/Tournament"; "Card Thickness"]
  /\ normalised v.

(** The literal the autograph rules configure for "Autograph Authentication". *)
Definition configured_authentication (enforced : dict value) (v : value) : Prop :=
  exists ar blk when_yes aa,
    get_or enforced "autograph_rules" (VDict []) = VDict ar /\
    get ar "Autographed" = VDict blk /\
    get_or blk "when_yes" (VDict []) = VDict when_yes /\
    get when_yes "Autograph Authentication" = VDict aa /\
    dget aa "value" = Some v.

(** The default the parallel rules configure. *)
Definition configured_parallel (enforced : dict value) (v : value) : Prop :=
  exists pvr,
    get_or enforced "parallel_variety_rules" (VDict []) = VDict pvr /\
    dget pvr "default" = Some v.

(** What layers 5 to 9 write. *)
Definition late_write (card enforced : dict value) (k : string) (v : value) : Prop :=
  (k = "Signed By" /\ exists n, pipeline.get_player_name card = Ok n /\ v = VStr n)
  \/ (k = "Autograph Authentication" /\ configured_authentication enforced v)
  \/ (k = "Parallel/Variety" /\ configured_parallel enforced v)
  \/ k = "Features"
  \/ (In k ["Autograph Authentication Number"; "Autograph Format";
            "Parallel/Variety"; "Print Run"; "Insert Set"] /\ normalised v).

(** What the whole pipeline may write on top of the global defaults. *)
Definition pipeline_write (card enforced : dict value) (k : string) (v : value)
    : Prop :=
  direct_write k v \/ derive_target enforced k \/ conditional_write k v
  \/ late_write card enforced k v.


(** *** Sample cards and configurations *)

Definition card_of_10 : dict value :=
  [ ("year", VStr "2023"); ("brand", VStr "Topps"); ("set", VStr "Chrome");
    ("player_first", VStr "Jane"); ("player_last", VStr "Doe");
    ("card_number", VStr "15"); ("serial", VStr "of 10") ].



Definition card_long_parallel : dict value :=
  [ ("year", VStr "2023"); ("brand", VStr "Topps"); ("set", VStr "Chrome");
    ("player_first", VStr "Jane"); ("player_last", VStr "Doe");
    ("card_number", VStr "15"); ("insert", VStr "Future Stars");
    ("parallel", VStr "Gold Wave Refractor Prizm");
    ("serial_number", VStr "1/99");
    ("team_city", VStr "Chicago"); ("team_name", VStr "Bulls");
    ("rookie", VStr "RC") ].

Definition card_autograph_no : dict value :=
  [ ("player_first", VStr "Jane"); ("player_last", VStr "Doe");
    ("Autographed", VStr "No"); ("Signed By", VStr "Jane Doe");
    ("Autograph Format", VStr "Cut") ].

Definition enforced_when_no : dict value :=
  [ ("autograph_rules",
     VDict [ ("Autographed",
              VDict [ ("when_no",
                       VDict [ ("Signed By", VStr "");
                               ("Autograph Format", VStr "") ]) ]) ]) ].

Definition card_12_of_99 : dict value :=
  [ ("serial_number", VStr "12/99"); ("Print Run", VStr "50") ].

Definition card_plain : dict value :=
  [ ("player_first", VStr "Jane"); ("player_last", VStr "Doe");
    ("Sport", VStr "Basketball") ].

Definition globals_sample : dict value :=
  [ ("Sport", VStr "Baseball"); ("Country/Region of Manufacture", VStr "N/A");
    ("Vintage", VBool false) ].

Definition card_insert : dict value :=
  [ ("player_first", VStr "Jane"); ("player_last", VStr "Doe");
    ("insert", VStr "  Future Stars "); ("team_city", VStr "N/A") ].

Definition card_memorabilia : dict value :=
  [ ("Features", VList [VStr "Memorabilia"]); ("Card Thickness", VStr "55 Pt.") ].

Definition enforced_thickness : dict value :=
  [ ("conditional_aspects",
     VDict [ ("Card Thickness", VDict [ ("default", VStr "35 Pt.") ]) ]) ].

Definition card_relic : dict value :=
  [ ("player_first", VStr "Jane"); ("player_last", VStr "Doe");
    ("Features", VList [VStr "Rookie"; VStr "Memorabilia"]) ].

(** *** Further vocabulary *)

(** The group values a title still carries once [dropped] are blanked, in
    inclusion order. *)
Definition remaining_groups (card : dict value) (dropped : list string)
    : list string :=
  title_builder.group_tokens (blank dropped (title_groups card)).

(** The 25 fields of the direct-mapping layer, in its order. *)
Definition direct_fields : list string :=
  [ "Player/Athlete"; "Manufacturer"; "Set"; "Team"; "Season";
    "Year Manufactured"; "Parallel/Variety"; "Features"; "Insert Set";
    "Autographed"; "Professional Grader"; "Grade"; "Card Thickness";
    "Event/Tournament"; "League"; "Card Name"; "Card Number"; "Print Run";
    "Signed By"; "Autograph Authentication"; "Autograph Authentication Number";
    "Autograph Format"; "California Prop 65 Warning"; "Sport"; "Type" ].

(** Every value of the dict is a string. *)
Definition string_valued (d : dict value) : Prop :=
  forall k v, In (k, v) d -> exists s, v = VStr s.

(** A rule of a League or Event list that is a dict and does not match
    the sport. *)
Definition rule_passes (sport : string) (r : value) : Prop :=
  exists rd,
    r = VDict rd /\
    match get_or rd "when" (VDict []) with
    | VDict w => eq_str (get w "Sport") sport = false
    | _ => True
    end.

Definition card_superscript : dict value :=
  [ ("player_first", VStr "Jane"); ("player_last", VStr "Doe");
    ("serial_number", VStr (String "1" (String "/" (String (ascii_of_N 178) "")))) ].

Definition card_number_name : dict value :=
  [ ("player_first", VInt 23); ("player_last", VStr "Doe") ].

Definition schema_sample : value :=
  VList [ VDict [("name", VStr "Sport")]; VDict [("name", VStr "Features")];
          VStr "stray"; VDict [("label", VStr "no name")];
          VDict [("name", VStr "Player/Athlete")] ].

(** A name the schema declares: some entry of the schema list is a dict
    whose "name" is truthy and prints as [k]. *)
Definition schema_declares (schema : value) (k : string) : Prop :=
  exists aspects a,
    schema = VList aspects /\ In (VDict a) aspects /\
    truthy (get a "name") = true /\ str (get a "name") = k.

(** Ascending in the order [sorted] uses on strings. *)
Definition ascending (l : list string) : Prop :=
  Sorted (fun a b => String.leb a b = true) l.

Definition schema_object : value :=
  VDict [ ("aspects", VList [ VDict [("name", VStr "Sport")] ]) ].

Definition enforced_card_number : dict value :=
  [ ("derive_and_enforce",
     VDict [ ("Card Number",
              VDict [("from", VStr "card_number"); ("transform", VStr "strip_hash")]) ]) ].

Definition card_hash_number : dict value :=
  [ ("player_first", VStr "Jane"); ("player_last", VStr "Doe");
    ("card_number", VStr " # 23 "); ("Card Number", VStr "No. 23") ].

(* ================================================================== *)
(** ** Facts about strings and dicts *)
(* ================================================================== *)


Lemma app_empty_r (a : string) : a ++ "" = a.
Proof. induction a as [|c a IH]; simpl; [reflexivity | now rewrite IH]. Qed.

Lemma nonempty_true (s : string) : nonempty s = true <-> s <> "".
Proof. destruct s; unfold nonempty; simpl; split; intros; congruence. Qed.

Lemma all_chars_app (p : ascii -> bool) (a b : string) :
  all_chars p (a ++ b) = all_chars p a && all_chars p b.
Proof.
  induction a as [|c a IH]; simpl; [reflexivity|].
  now rewrite IH, andb_assoc.
Qed.

Lemma all_chars_weaken (p q : ascii -> bool) :
  (forall c, p c = true -> q c = true) ->
  forall s, all_chars p s = true -> all_chars q s = true.
Proof.
  intros Hpq s; induction s as [|c s IH]; simpl; [reflexivity|].
  intros H; apply andb_true_iff in H as [Hc Hs].
  now rewrite (Hpq _ Hc), IH.
Qed.

(** *** Stripping *)

Lemma lstrip_spaces (s : string) : all_chars isspace s = true -> lstrip s = "".
Proof.
  induction s as [|c s IH]; simpl; [reflexivity|].
  intros H; apply andb_true_iff in H as [Hc Hs]; rewrite Hc; auto.
Qed.

Lemma strip_spaces (s : string) : all_chars isspace s = true -> strip s = "".
Proof. intros H; unfold strip; now rewrite lstrip_spaces. Qed.

Lemma rstrip_nospace (s : string) : all_chars nospace s = true -> rstrip s = s.
Proof.
  induction s as [|c s IH]; simpl; [reflexivity|].
  unfold nospace at 1; intros H; apply andb_true_iff in H as [Hc Hs].
  apply negb_true_iff in Hc; rewrite Hc, IH by assumption; reflexivity.
Qed.

Lemma lstrip_nospace (s : string) : all_chars nospace s = true -> lstrip s = s.
Proof.
  destruct s as [|c s]; simpl; [reflexivity|].
  unfold nospace at 1; intros H; apply andb_true_iff in H as [Hc Hs].
  apply negb_true_iff in Hc; now rewrite Hc.
Qed.

Lemma strip_nospace (s : string) : all_chars nospace s = true -> strip s = s.
Proof.
  intros H; unfold strip; rewrite lstrip_nospace by assumption.
  now apply rstrip_nospace.
Qed.

(** *** Dicts *)

Section DictFacts.
Context {A : Type}.

Lemma dget_dset_same (d : dict A) (k : string) (v : A) :
  dget (dset d k v) k = Some v.
Proof.
  induction d as [|[k' v'] d IH]; simpl.
  - now rewrite String.eqb_refl.
  - destruct (String.eqb k' k) eqn:E; simpl.
    + now rewrite String.eqb_refl.
    + now rewrite E.
Qed.

Lemma dget_dset_other (d : dict A) (k k' : string) (v : A) :
  k' <> k -> dget (dset d k v) k' = dget d k'.
Proof.
  intros Hne; induction d as [|[k0 v0] d IH]; simpl.
  - destruct (String.eqb k k') eqn:E; [|reflexivity].
    apply String.eqb_eq in E; congruence.
  - destruct (String.eqb k0 k) eqn:E; simpl.
    + apply String.eqb_eq in E; subst k0.
      destruct (String.eqb k k') eqn:E'; [|reflexivity].
      apply String.eqb_eq in E'; congruence.
    + destruct (String.eqb k0 k'); [reflexivity | exact IH].
Qed.

Lemma dget_dset (d : dict A) (k k' : string) (v : A) :
  dget (dset d k v) k' = if String.eqb k k' then Some v else dget d k'.
Proof.
  destruct (String.eqb k k') eqn:E.
  - apply String.eqb_eq in E; subst; apply dget_dset_same.
  - apply String.eqb_neq in E; apply dget_dset_other; congruence.
Qed.

End DictFacts.

(* ================================================================== *)
(** ** Inverting a computation that returned *)
(* ================================================================== *)

Lemma bind_ok {A B : Type} (c : result A) (k : A -> result B) (b : B) :
  bind c k = Ok b -> exists a, c = Ok a /\ k a = Ok b.
Proof. destruct c as [a|e]; simpl; intros H; [eauto | discriminate]. Qed.

Ltac inv_bind H :=
  let a := fresh "it" in
  let Ha := fresh "H" a in
  apply bind_ok in H; destruct H as (a & Ha & H).

Ltac inv_ok H := injection H as H; try subst.

(* ================================================================== *)
(** ** The normaliser *)
(* ================================================================== *)

Lemma existsb_eqb_In (s : string) (l : list string) :
  existsb (String.eqb s) l = true <-> In s l.
Proof.
  rewrite existsb_exists; split.
  - intros [x [Hin Heq]]; apply String.eqb_eq in Heq; now subst.
  - intros Hin; exists s; split; [assumption | apply String.eqb_refl].
Qed.

Lemma norm_optional_same (v : value) :
  title_builder._norm_optional v = pipeline.norm_optional v.
Proof. destruct v; reflexivity. Qed.

Lemma norm_optional_str (s : string) :
  pipeline.norm_optional (VStr s) =
  if is_empty (strip s) then ""
  else if existsb (String.eqb (lower (strip s))) pipeline.falsy_words then ""
  else strip s.
Proof. reflexivity. Qed.

(** The normaliser never returns a word it treats as missing; in particular
    its result never lowers to "no". *)
Lemma norm_optional_not_falsy (v : value) :
  existsb (String.eqb (lower (pipeline.norm_optional v))) pipeline.falsy_words = false.
Proof.
  destruct v as [| [] | | | s | |]; try reflexivity.
  rewrite norm_optional_str.
  destruct (is_empty (strip s)); [reflexivity|].
  destruct (existsb (String.eqb (lower (strip s))) pipeline.falsy_words) eqn:E;
    [reflexivity | exact E].
Qed.

Lemma norm_optional_never_no (v : value) :
  String.eqb (lower (pipeline.norm_optional v)) "no" = false.
Proof.
  pose proof (norm_optional_not_falsy v) as H.
  destruct (String.eqb (lower (pipeline.norm_optional v)) "no") eqn:E; [|reflexivity].
  apply String.eqb_eq in E.
  assert (In (lower (pipeline.norm_optional v)) pipeline.falsy_words) as Hin
    by (rewrite E; simpl; tauto).
  apply existsb_eqb_In in Hin; congruence.
Qed.

(** C7. The field normaliser ([norm_optional] of pipeline.py, and
    [_norm_optional] of title_builder.py, which is the same function) is a
    total function with no effect that returns the empty string for null,
    for false, for an empty or all-blank string and for a string whose
    trimmed lower-case form is one of "false", "no", "none", "n/a", "na";
    the trimmed string for every other string; and the empty string for a
    value of any other type. *)
Theorem C7_norm_optional_contract :
  (forall v, title_builder._norm_optional v = pipeline.norm_optional v) /\
  pipeline.norm_optional VNone = "" /\
  pipeline.norm_optional (VBool false) = "" /\
  (forall s, all_chars isspace s = true -> pipeline.norm_optional (VStr s) = "") /\
  (forall s, In (lower (strip s)) ["false"; "no"; "none"; "n/a"; "na"] ->
             pipeline.norm_optional (VStr s) = "") /\
  (forall s, strip s <> "" ->
             ~ In (lower (strip s)) ["false"; "no"; "none"; "n/a"; "na"] ->
             pipeline.norm_optional (VStr s) = strip s) /\
  (forall v, (forall s, v <> VStr s) -> pipeline.norm_optional v = "").
Proof.
  split; [exact norm_optional_same|].
  split; [reflexivity|]. split; [reflexivity|].
  split; [|split; [|split]].
  - intros s H; rewrite norm_optional_str, strip_spaces by assumption; reflexivity.
  - intros s H; rewrite norm_optional_str.
    apply existsb_eqb_In in H; unfold pipeline.falsy_words; rewrite H.
    now destruct (is_empty (strip s)).
  - intros s Hne Hnot; rewrite norm_optional_str.
    destruct (strip s) as [|c r] eqn:E; [congruence|]; simpl is_empty; cbv iota.
    destruct (existsb _ pipeline.falsy_words) eqn:Ex; [|reflexivity].
    apply existsb_eqb_In in Ex; contradiction.
  - intros v H; destruct v as [| [] | | | s | |]; try reflexivity.
    now elim (H s).
Qed.

(** The contract on a padded word, a padded name and a number. *)
Lemma C7_norm_optional_witness :
  pipeline.norm_optional (VStr "  N/A ") = "" /\
  pipeline.norm_optional (VStr " Refractor  ") = "Refractor" /\
  pipeline.norm_optional (VInt 7) = "".
Proof.
  destruct C7_norm_optional_contract as (_ & _ & _ & _ & Hw & Hs & Ho).
  split; [|split].
  - apply Hw; vm_compute; tauto.
  - apply (Hs " Refractor  "); vm_compute; intuition discriminate.
  - apply Ho; discriminate.
Defined.

(* ================================================================== *)
(** ** The title-mode serial formatter *)
(* ================================================================== *)

Lemma decimal_char (c : ascii) :
  isdecimal c = true ->
  lower_char c = c /\ isspace c = false /\ is_o c = false /\
  Ascii.eqb c "f" = false /\ Ascii.eqb c "n" = false /\ Ascii.eqb c "/" = false.
Proof.
  destruct c as [[] [] [] [] [] [] [] []]; vm_compute; intros H;
    try discriminate H; repeat split.
Qed.

Lemma digits_inv (s : string) :
  digits s = true -> s <> "" /\ all_chars isdecimal s = true.
Proof.
  unfold digits; intros H; apply andb_true_iff in H as [Hn Hd].
  split; [now apply nonempty_true | assumption].
Qed.

Lemma decimal_nospace (s : string) :
  all_chars isdecimal s = true -> all_chars nospace s = true.
Proof.
  apply all_chars_weaken; intros c Hc; unfold nospace.
  destruct (decimal_char c Hc) as (_ & Hs & _); now rewrite Hs.
Qed.

Lemma decimal_not_o (s : string) :
  all_chars isdecimal s = true -> all_chars not_o s = true.
Proof.
  apply all_chars_weaken; intros c Hc; unfold not_o.
  destruct (decimal_char c Hc) as (_ & _ & Ho & _); now rewrite Ho.
Qed.

Lemma sub_of_word_step (b : bool) (c1 c2 : ascii) (r2 : string) :
  sub_of_word b (String c1 (String c2 r2)) =
  if negb b && is_o c1 && is_f c2 && negb (starts_with_word r2)
  then String "/" (sub_of_word true r2)
  else String c1 (sub_of_word (isword c1) (String c2 r2)).
Proof. reflexivity. Qed.

Lemma sub_of_word_without_o (s : string) :
  all_chars not_o s = true -> forall b, sub_of_word b s = s.
Proof.
  induction s as [|c1 r1 IH]; intros H b; [reflexivity|].
  simpl in H; apply andb_true_iff in H as [Hc Hr].
  unfold not_o in Hc; apply negb_true_iff in Hc.
  destruct r1 as [|c2 r2]; [reflexivity|].
  rewrite sub_of_word_step, Hc, andb_false_r; cbn [andb].
  now rewrite (IH Hr).
Qed.

Lemma span_digits_app (n r : string) :
  all_chars isdecimal n = true ->
  match r with String c _ => isdecimal c = false | EmptyString => True end ->
  span_digits (n ++ r) = (n, r).
Proof.
  intros Hn Hr; induction n as [|c n IH]; simpl.
  - destruct r as [|c r]; [reflexivity|]; simpl; now rewrite Hr.
  - simpl in Hn; apply andb_true_iff in Hn as [Hc Hn].
    now rewrite Hc, (IH Hn).
Qed.

Lemma span_digits_all (n : string) :
  all_chars isdecimal n = true -> span_digits n = (n, "").
Proof.
  intros Hn; rewrite <- (app_empty_r n) at 1; now apply span_digits_app.
Qed.


Lemma falsy_words_start (c : ascii) (r : string) :
  Ascii.eqb c "f" = false -> Ascii.eqb c "n" = false ->
  existsb (String.eqb (String c r)) pipeline.falsy_words = false.
Proof. intros Hf Hn; simpl; now rewrite Hf, Hn. Qed.

(** A text with a digit or a slash in front, and without blanks, is its own
    normal form. *)
Lemma norm_optional_plain (c : ascii) (r : string) :
  lower_char c = c -> Ascii.eqb c "f" = false -> Ascii.eqb c "n" = false ->
  all_chars nospace (String c r) = true ->
  title_builder._norm_optional (VStr (String c r)) = String c r.
Proof.
  intros Hl Hf Hn Hs; rewrite norm_optional_same, norm_optional_str.
  rewrite (strip_nospace _ Hs); cbn [is_empty lower]; rewrite Hl.
  now rewrite falsy_words_start.
Qed.

(** *** Texts without a slash *)

Lemma has_char_app (c : ascii) (a b : string) :
  has_char c (a ++ b) = has_char c a || has_char c b.
Proof.
  induction a as [|x a IH]; simpl; [reflexivity|].
  now rewrite IH, orb_assoc.
Qed.

Lemma has_char_cons (c d : ascii) (r : string) :
  has_char c (String d r) = Ascii.eqb c d || has_char c r.
Proof. reflexivity. Qed.

Lemma decimal_no_slash (s : string) :
  all_chars isdecimal s = true -> has_char "/" s = false.
Proof.
  induction s as [|c s IH]; [reflexivity|].
  cbn [all_chars]; rewrite has_char_cons.
  intros H; apply andb_true_iff in H as [Hc Hs].
  destruct (decimal_char c Hc) as (_ & _ & _ & _ & _ & Hsl).
  now rewrite Ascii.eqb_sym, Hsl, IH.
Qed.






(** *** [int] on a run of digits *)

Lemma int_decimal (d : string) :
  digits d = true ->
  int d = if (4300 <? String.length d)%nat
          then Raise (ValueError (digit_limit_message (String.length d)))
          else Ok (digits_value d).
Proof.
  intros H; apply digits_inv in H as [Hne Hd].
  unfold int, INT_MAX_STR_DIGITS; rewrite (span_digits_all d Hd).
  destruct (4300 <? String.length d)%nat; [reflexivity|].
  destruct d; [congruence | reflexivity].
Qed.

Lemma int_within (d : string) :
  digits d = true -> String.length d <= 4300 -> int d = Ok (digits_value d).
Proof.
  intros H Hl; rewrite (int_decimal d H).
  destruct (Nat.ltb_spec 4300 (String.length d)); [lia | reflexivity].
Qed.

Lemma int_beyond (d : string) :
  digits d = true -> 4300 < String.length d ->
  int d = Raise (ValueError (digit_limit_message (String.length d))).
Proof.
  intros H Hl; rewrite (int_decimal d H).
  destruct (Nat.ltb_spec 4300 (String.length d)); [reflexivity | lia].
Qed.


(** *** What the two patterns match *)

Lemma span_digits_parts (s : string) :
  all_chars isdecimal (fst (span_digits s)) = true /\
  String.length (fst (span_digits s)) + String.length (snd (span_digits s))
  = String.length s.
Proof.
  induction s as [|c s [IH1 IH2]]; [now split|].
  cbn [span_digits]; destruct (isdecimal c) eqn:Hc.
  - destruct (span_digits s) as [d rest]; cbn [fst snd] in *.
    split; [simpl; now rewrite Hc, IH1 | simpl; lia].
  - now split.
Qed.







(** *** Title mode on the plain shapes *)

Lemma parse_groups (first denom : N) :
  (if (denom <=? 0)%N then Ok None
   else if (first =? 1)%N || (first =? denom)%N
        then Ok (Some (str_of_N first ++ "/" ++ str_of_N denom))
        else Ok (Some ("/" ++ str_of_N denom)))
  = Ok (fraction_form first denom).
Proof.
  unfold fraction_form; destruct denom as [|p]; [reflexivity|].
  change (N.pos p <=? 0)%N with false; change (N.pos p =? 0)%N with false.
  cbv iota; destruct ((first =? 1)%N || (first =? N.pos p)%N); reflexivity.
Qed.


Lemma parse_fraction (n d : string) :
  digits n = true -> digits d = true ->
  title_builder._parse_serial_for_ebay (VStr (n ++ "/" ++ d)) =
  (first <- int n ;; denom <- int d ;; Ok (fraction_form first denom)).
Proof.
  intros Hn Hd.
  apply digits_inv in Hn as [Hne Hn]; apply digits_inv in Hd as [Hde Hd].
  assert (all_chars nospace (n ++ "/" ++ d) = true) as Hsp.
  { rewrite !all_chars_app, (decimal_nospace n Hn), (decimal_nospace d Hd).
    reflexivity. }
  assert (all_chars not_o (n ++ "/" ++ d) = true) as Ho.
  { rewrite !all_chars_app, (decimal_not_o n Hn), (decimal_not_o d Hd).
    reflexivity. }
  unfold title_builder._parse_serial_for_ebay.
  destruct n as [|c n]; [congruence|].
  pose proof Hn as Hn'; simpl in Hn'; apply andb_true_iff in Hn' as [Hc _].
  destruct (decimal_char c Hc) as (Hl & _ & _ & Hf & Hnn & _).
  change (String c n ++ "/" ++ d) with (String c (n ++ "/" ++ d)) in *.
  rewrite (norm_optional_plain c _ Hl Hf Hnn Hsp); cbn [is_empty].
  rewrite (sub_of_word_without_o _ Ho).
  change (String c (n ++ "/" ++ d)) with (String c n ++ String "/" d).
  assert (search_fraction (String c n ++ String "/" d) = Some (String c n, d)) as Hs.
  { cbn [search_fraction append]; unfold match_fraction.
    change (String c (n ++ String "/" d)) with (String c n ++ String "/" d).
    rewrite (span_digits_app (String c n) (String "/" d) Hn) by reflexivity.
    cbn [is_empty lstrip]; change (isspace "/") with false; cbv iota.
    change (Ascii.eqb "/" "/") with true; cbv iota.
    rewrite (lstrip_nospace d (decimal_nospace d Hd)), (span_digits_all d Hd).
    destruct d; [congruence | reflexivity]. }
  rewrite Hs.
  destruct (int (String c n)) as [first|e]; [|reflexivity].
  destruct (int d) as [denom|e]; [|reflexivity].
  cbn [bind]; apply parse_groups.
Qed.









(** *** The word "of" in front of a number *)

(** C5, as stated, fails: the serial "of 10" is formatted as "/10" (the
    word is rewritten to a slash and the denominator-only pattern matches),
    and the title of a card with that serial carries the group. *)
Lemma C5_of_10_counterexample :
  title_builder._parse_serial_for_ebay (VStr "of 10") = Ok (Some "/10") /\
  title_builder.build_ebay_title card_of_10 =
    Ok ("2023 Topps Chrome Jane Doe 15 /10", []).
Proof. split; vm_compute; reflexivity. Qed.

(** C5, amended. For the serial "of 10" the title-mode formatter yields
    "/10": a card whose serial field is "of 10" has the serial group "/10",
    and that group is one of the tokens of the assembled title. *)
Theorem C5_of_10_gives_denominator (card : dict value) :
  get_or card "serial" (get card "serial_number") = VStr "of 10" ->
  title_builder._parse_serial_for_ebay
    (title_builder.serial_raw (title_builder.title_inputs card)) = Ok (Some "/10") /\
  dget (title_groups card) "serial" = Some "/10" /\
  In "/10" (title_builder.group_tokens (title_groups card)).
Proof.
  intros H.
  assert (title_serial card = Ok (Some "/10"))
    as Hp by (unfold title_serial;
              cbn [title_builder.serial_raw title_builder.title_inputs];
              now rewrite H).
  assert (dget (title_groups card) "serial" = Some "/10") as Hg
    by (unfold title_groups, serial_fmt, title_builder.group_values;
        rewrite Hp; reflexivity).
  repeat split; try assumption.
  unfold title_builder.group_tokens; apply in_flat_map.
  exists "serial"; split; [simpl; tauto|].
  rewrite Hg; simpl; tauto.
Qed.

Lemma C5_of_10_witness :
  dget (title_groups card_of_10) "serial" = Some "/10".
Proof. exact (proj1 (proj2 (C5_of_10_gives_denominator card_of_10 eq_refl))). Defined.

(* ================================================================== *)
(** ** The dead "No" branch of the autograph layer *)
(* ================================================================== *)

Lemma autograph_layer_not_yes (card enforced item : dict value) :
  String.eqb (lower (pipeline.norm_optional (get item "Autographed"))) "yes" = false ->
  pipeline.autograph_layer card enforced item = Ok item.
Proof.
  intros Hyes; unfold pipeline.autograph_layer.
  rewrite norm_optional_never_no, Hyes.
  destruct (get_or enforced "autograph_rules" (VDict [])); try reflexivity.
  destruct (get d "Autographed"); reflexivity.
Qed.

(** C1. Given Autographed = "No", the fields of the configured [when_no]
    map should equal their configured blanks.  The code does not do it: the
    autograph layer normalises "Autographed" before it compares with "no",
    and the normaliser turns "No" into the empty string, so the [when_no]
    map is never copied.  Unless the normalised "Autographed" is "yes", the
    layer returns the item unchanged, whatever the rules configure; for a
    card with Autographed = "No" the signature fields stay as the card had
    them. *)
Theorem C1_when_no_is_never_copied :
  (forall v, String.eqb (lower (pipeline.norm_optional v)) "no" = false) /\
  (forall card enforced item,
     String.eqb (lower (pipeline.norm_optional (get item "Autographed"))) "yes"
       = false ->
     pipeline.autograph_layer card enforced item = Ok item) /\
  pipeline.build_item_specifics card_autograph_no [] enforced_when_no =
    Ok [ ("Player/Athlete", VStr "Jane Doe"); ("Signed By", VStr "Jane Doe");
         ("Autograph Format", VStr "Cut"); ("Parallel/Variety", VStr "[Base]");
         ("Features", VList [VStr "Base Set"]) ].
Proof.
  split; [exact norm_optional_never_no|].
  split; [exact autograph_layer_not_yes|].
  vm_compute; reflexivity.
Qed.

(* ================================================================== *)
(** ** Print Run *)
(* ================================================================== *)

Lemma uint_chars (d : Decimal.uint) :
  all_chars isdecimal (NilEmpty.string_of_uint d) = true.
Proof. induction d; simpl; auto. Qed.

Lemma str_of_N_digits (n : N) : digits (str_of_N n) = true.
Proof.
  unfold str_of_N, NilZero.string_of_uint, digits.
  destruct (N.to_uint n) eqn:E; try reflexivity;
    simpl; apply (uint_chars u).
Qed.

Lemma serial_denominator_digits (serial : value) (denom : string) :
  pipeline.serial_denominator_only_no_slash serial = Ok denom ->
  denom = "" \/ digits denom = true.
Proof.
  unfold pipeline.serial_denominator_only_no_slash; intros H.
  destruct (is_empty _); [inv_ok H; now left|].
  destruct (has_char "/" _).
  - destruct (isdigit _); [|inv_ok H; now left].
    inv_bind H; inv_ok H; right; apply str_of_N_digits.
  - destruct (isdigit _); [|inv_ok H; now left].
    inv_bind H; inv_ok H; right; apply str_of_N_digits.
Qed.

Lemma insert_set_layer_other (card item : dict value) (k : string) :
  k <> "Insert Set" ->
  dget (pipeline.insert_set_layer card item) k = dget item k.
Proof.
  intros Hk; unfold pipeline.insert_set_layer.
  destruct (nonempty _); [|reflexivity].
  now apply dget_dset_other.
Qed.

(** C6. When the second serial mode yields a non-empty denominator for the
    card's raw serial_number, the returned item specifics have that bare
    denominator (decimal digits, no slash) as "Print Run", whatever the
    earlier layers wrote there. *)
Theorem C6_print_run_is_derived
    (card globals_defaults enforced item : dict value) (denom : string) :
  pipeline.serial_denominator_only_no_slash (get card "serial_number") = Ok denom ->
  denom <> "" ->
  pipeline.build_item_specifics card globals_defaults enforced = Ok item ->
  dget item "Print Run" = Some (VStr denom) /\ digits denom = true.
Proof.
  intros Hd Hne H; split;
    [|destruct (serial_denominator_digits _ _ Hd); [contradiction | assumption]].
  unfold pipeline.build_item_specifics in H; inv_bind H.
  unfold pipeline.finish_item in H; inv_bind H; inv_bind H; inv_bind H.
  inv_ok H.
  rewrite insert_set_layer_other by discriminate.
  unfold pipeline.print_run_layer in Hit2; rewrite Hd in Hit2; simpl in Hit2.
  apply nonempty_true in Hne; rewrite Hne in Hit2; inv_ok Hit2.
  apply dget_dset_same.
Qed.

(** The card with serial_number "12/99" and a typed Print Run "50". *)
Lemma C6_print_run_witness :
  exists item,
    pipeline.build_item_specifics card_12_of_99 [] [] = Ok item /\
    dget item "Print Run" = Some (VStr "99").
Proof.
  eexists; split; [vm_compute; reflexivity|].
  apply (proj1 (C6_print_run_is_derived card_12_of_99 [] [] _ "99"
                  eq_refl ltac:(discriminate) eq_refl)).
Defined.

(* ================================================================== *)
(** ** Cleaned tokens and joined titles *)
(* ================================================================== *)

Lemma tidy_sub_spaces (s : string) :
  forall b, tidy_from b s = true -> sub_spaces b s = s.
Proof.
  induction s as [|c r IH]; intros b H; [reflexivity|].
  simpl in *; destruct (isspace c) eqn:Hc.
  - apply andb_true_iff in H as [H Hr]; apply andb_true_iff in H as [Heq Hb].
    apply Ascii.eqb_eq in Heq; subst c.
    apply negb_true_iff in Hb; subst b; now rewrite (IH true Hr).
  - now rewrite (IH false H).
Qed.

Lemma tidy_rstrip (s : string) :
  forall b, tidy_from b s = true -> rstrip s = s.
Proof.
  induction s as [|c r IH]; intros b H; [reflexivity|].
  simpl in *; destruct (isspace c) eqn:Hc.
  - apply andb_true_iff in H as [_ Hr]; rewrite (IH true Hr).
    destruct r; [discriminate Hr | reflexivity].
  - now rewrite (IH false H).
Qed.

Lemma tidy_first (s : string) :
  tidy s = true -> exists c r, s = String c r /\ isspace c = false.
Proof.
  destruct s as [|c r]; unfold tidy; simpl; [discriminate|].
  destruct (isspace c) eqn:Hc; intros H.
  - rewrite andb_false_r in H; discriminate.
  - eauto.
Qed.

Lemma tidy_clean (s : string) : tidy s = true -> title_builder._clean s = s.
Proof.
  intros H; unfold title_builder._clean, strip.
  destruct (tidy_first s H) as (c & r & -> & Hc).
  cbn [lstrip]; rewrite Hc, (tidy_rstrip _ true H).
  unfold tidy in H; simpl in *; rewrite Hc in *.
  now rewrite (tidy_sub_spaces r false H).
Qed.

Lemma rstrip_ends (u : string) : rstrip u <> "" -> ends_nonspace (rstrip u) = true.
Proof.
  induction u as [|c r IH]; simpl; [congruence|].
  destruct (isspace c) eqn:Hc; simpl.
  - destruct (rstrip r) eqn:Er; simpl; [congruence|].
    intros _; apply IH; congruence.
  - destruct (rstrip r) eqn:Er; simpl; intros _.
    + now rewrite Hc.
    + apply IH; congruence.
Qed.

Lemma sub_spaces_tidy (t : string) :
  ends_nonspace t = true ->
  tidy_from true (sub_spaces true t) = true /\
  tidy_from false (sub_spaces false t) = true.
Proof.
  induction t as [|c r IH]; [discriminate|].
  intros H; cbn [ends_nonspace] in H; cbn [sub_spaces].
  destruct (isspace c) eqn:Hc.
  - destruct r as [|c' r']; [discriminate H|].
    destruct (IH H) as [IH1 IH2]; split; [exact IH1|].
    cbn [tidy_from]; change (isspace " ") with true; cbv iota.
    now rewrite IH1.
  - cbn [tidy_from]; rewrite Hc.
    destruct r as [|c' r']; [split; reflexivity|].
    destruct (IH H) as [_ IH2]; split; exact IH2.
Qed.

Lemma lstrip_first (s : string) :
  lstrip s = "" \/ exists c r, lstrip s = String c r /\ isspace c = false.
Proof.
  induction s as [|c r IH]; simpl; [now left|].
  destruct (isspace c) eqn:Hc; [exact IH | right; eauto].
Qed.

Lemma clean_tidy (s : string) :
  title_builder._clean s <> "" -> tidy (title_builder._clean s) = true.
Proof.
  unfold title_builder._clean, strip; intros Hne.
  destruct (lstrip_first s) as [E | (c & r & E & Hc)]; rewrite E in *.
  - now elim Hne.
  - assert (rstrip (String c r) <> "") as Hr by (simpl; rewrite Hc; discriminate).
    pose proof (rstrip_ends _ Hr) as He.
    destruct (sub_spaces_tidy _ He) as [_ H2].
    simpl in *; rewrite Hc in *; simpl in *; rewrite Hc in *.
    unfold tidy; cbn [tidy_from]; rewrite Hc.
    cbn [tidy_from] in H2; now rewrite Hc in H2.
Qed.

Lemma tidy_app (a b : string) :
  forall b0, tidy_from b0 a = true -> tidy b = true ->
             tidy_from b0 (a ++ String " " b) = true.
Proof.
  induction a as [|c r IH]; intros b0 Ha Hb; simpl in *.
  - apply negb_true_iff in Ha; subst b0; exact Hb.
  - destruct (isspace c).
    + apply andb_true_iff in Ha as [Ha Hr]; rewrite Ha; now apply IH.
    + now apply IH.
Qed.

Lemma join_tidy (l : list string) :
  l <> [] -> Forall (fun t => tidy t = true) l -> tidy (join " " l) = true.
Proof.
  induction l as [|a l IH]; [congruence|]; intros _ H.
  inversion H as [|? ? Ha Hl]; subst.
  destruct l as [|b l]; [exact Ha|].
  change (join " " (a :: b :: l)) with (a ++ String " " (join " " (b :: l))).
  apply tidy_app; [exact Ha | apply IH; [discriminate | exact Hl]].
Qed.

Lemma kept_tokens_tidy (tokens : list string) :
  Forall (fun t => tidy t = true) (kept_tokens tokens).
Proof.
  apply Forall_forall; intros t Ht; unfold kept_tokens in Ht.
  apply filter_In in Ht as [Hin Hne]; apply in_map_iff in Hin as (x & <- & _).
  apply clean_tidy; now apply nonempty_true.
Qed.

(** Joining is all [_join_tokens] does: cleaning once more changes nothing. *)
Lemma join_tokens_eq (tokens : list string) :
  title_builder._join_tokens tokens = join " " (kept_tokens tokens).
Proof.
  unfold title_builder._join_tokens; fold (kept_tokens tokens).
  destruct (kept_tokens tokens) as [|a l] eqn:E; [reflexivity|].
  apply tidy_clean, join_tidy; [discriminate|].
  rewrite <- E; apply kept_tokens_tidy.
Qed.

Lemma kept_tokens_app (xs ys : list string) :
  kept_tokens (xs ++ ys) = (kept_tokens xs ++ kept_tokens ys)%list.
Proof. unfold kept_tokens; now rewrite map_app, filter_app. Qed.



(* ================================================================== *)
(** ** The drop loop *)
(* ================================================================== *)

Lemma dget_blank (ks : list string) :
  forall (groups : dict string) (k : string),
    dget (blank ks groups) k =
    if existsb (String.eqb k) ks then Some "" else dget groups k.
Proof.
  induction ks as [|k1 ks IH]; intros groups k; [reflexivity|].
  change (blank (k1 :: ks) groups) with (blank ks (dset groups k1 "")).
  rewrite IH; cbn [existsb]; rewrite dget_dset, (String.eqb_sym k k1).
  destruct (existsb (String.eqb k) ks), (String.eqb k1 k); reflexivity.
Qed.

Lemma present_dset_other (groups : dict string) (k k' v : string) :
  k' <> k ->
  title_builder.present (dset groups k v) k' = title_builder.present groups k'.
Proof.
  intros H; unfold title_builder.present; now rewrite dget_dset_other.
Qed.




Lemma drop_loop_spec (M : list string) :
  forall ks active dropped title t d,
    NoDup ks ->
    title = title_builder.assemble M active ->
    title_builder.drop_loop M ks title active dropped = (t, d) ->
    exists n,
      d = (dropped ++ firstn n (filter (title_builder.present active) ks))%list /\
      t = title_builder.assemble M
            (blank (firstn n (filter (title_builder.present active) ks)) active) /\
      (String.length t <= 80 \/
       firstn n (filter (title_builder.present active) ks)
       = filter (title_builder.present active) ks) /\
      (forall m, m < n ->
         80 < String.length
                (title_builder.assemble M
                   (blank (firstn m (filter (title_builder.present active) ks))
                          active))).
Proof.
  induction ks as [|k ks IH]; intros active dropped title t d Hnd Ht H.
  - simpl in H; injection H as <- <-; exists 0; simpl.
    rewrite app_nil_r; repeat split; auto; intros m Hm; lia.
  - cbn [title_builder.drop_loop] in H.
    unfold title_builder.EBAY_TITLE_MAX in H.
    destruct (Nat.leb_spec (String.length title) 80) as [Hle | Hgt].
    + injection H as <- <-; exists 0; simpl.
      rewrite app_nil_r; repeat split; auto; intros m Hm; lia.
    + inversion Hnd as [|? ? Hnotin Hnd']; subst.
      assert (filter (title_builder.present (dset active k "")) ks
              = filter (title_builder.present active) ks) as Hf.
      { apply filter_ext_in; intros k' Hk'; apply present_dset_other.
        intros ->; contradiction. }
      cbn [filter]; destruct (title_builder.present active k) eqn:Hp.
      * apply IH in H; [|assumption|reflexivity].
        destruct H as (n & Hd & Ht & Hstop & Hmin); rewrite Hf in *.
        exists (S n); cbn [firstn]; repeat split.
        -- now rewrite Hd, <- app_assoc.
        -- exact Ht.
        -- destruct Hstop as [Hs | Hs]; [now left | right; now rewrite Hs].
        -- intros [|m] Hm; [exact Hgt | apply Hmin; lia].
      * apply IH in H; [|assumption|reflexivity]. exact H.
Qed.

Lemma drop_priority_nodup : NoDup title_builder.drop_priority.
Proof.
  unfold title_builder.drop_priority.
  repeat (constructor; [simpl; intuition discriminate|]); constructor.
Qed.

(** The serial is formatted before anything is assembled: when the
    formatter raises, so does [build_ebay_title]. *)
Lemma build_serial_raise (card : dict value) (e : exn) :
  title_serial card = Raise e -> title_builder.build_ebay_title card = Raise e.
Proof.
  unfold title_serial, title_builder.build_ebay_title; now intros ->.
Qed.

Lemma build_ok_serial (card : dict value) (td : string * list string) :
  title_builder.build_ebay_title card = Ok td -> exists o, title_serial card = Ok o.
Proof.
  destruct (title_serial card) as [o|e] eqn:E; [eauto|].
  now rewrite (build_serial_raise card e E).
Qed.

(** What [build_ebay_title] computes before it decides to return or raise:
    a count [n] of dropped groups, the shortest that fits when one fits. *)
Lemma title_search (card : dict value) (o : option string) :
  title_serial card = Ok o ->
  exists n,
    let dropped := firstn n (present_priority card) in
    let title := title_without card dropped in
    title_builder.build_ebay_title card =
      (if (80 <? String.length title)%nat
       then Raise (ValueError (title_builder.overflow_message title))
       else Ok (title, dropped)) /\
    (String.length title <= 80 \/ dropped = present_priority card) /\
    (forall m, m < n ->
       80 < String.length (title_without card (firstn m (present_priority card)))).
Proof.
  intros Hs.
  assert (match o with Some t => t | None => "" end = serial_fmt card) as Hfmt
    by (unfold serial_fmt; now rewrite Hs).
  unfold title_builder.build_ebay_title, title_builder.EBAY_TITLE_MAX.
  change (title_builder._parse_serial_for_ebay
            (title_builder.serial_raw (title_builder.title_inputs card)))
    with (title_serial card).
  rewrite Hs; cbn [bind]; rewrite Hfmt.
  fold (title_mandatory card); fold (title_groups card).
  destruct (Nat.ltb_spec 80 (String.length
              (title_builder.assemble (title_mandatory card) (title_groups card))))
    as [Hgt | Hle].
  - destruct (title_builder.drop_loop _ _ _ _ _) as [t d] eqn:E.
    apply drop_loop_spec in E; [|apply drop_priority_nodup|reflexivity].
    destruct E as (n & Hd & Ht & Hstop & Hmin); rewrite app_nil_l in Hd.
    exists n; cbv zeta; unfold title_without, present_priority.
    subst t d; repeat split; auto.
  - exists 0; cbv zeta; unfold title_without; simpl.
    destruct (Nat.ltb_spec 80 (String.length
                (title_builder.assemble (title_mandatory card) (title_groups card))));
      [lia|].
    repeat split; auto; intros m Hm; lia.
Qed.



(** C3. For a card whose serial was formatted and whose title, assembled
    from every group it has, is longer than 80 characters, the groups are
    removed in the drop-priority order [team_city, team_name,
    numerical_grade, grading_company, parallel, insert, serial, auto_patch,
    rookie], filtered to the groups the card has: the call returns the
    title re-assembled without the shortest prefix of that order that
    makes it fit, together with that prefix (with any shorter prefix
    dropped the title is still too long), and raises when even the whole
    of it does not fit.  Every returned list of dropped groups is such a
    prefix. *)
Theorem C3_dropped_groups_are_a_priority_prefix (card : dict value) :
  title_builder.drop_priority =
    ["team_city"; "team_name"; "numerical_grade"; "grading_company"; "parallel";
     "insert"; "serial"; "auto_patch"; "rookie"] /\
  (forall title dropped,
     title_builder.build_ebay_title card = Ok (title, dropped) ->
     exists n,
       dropped = firstn n (present_priority card) /\
       title = title_without card dropped /\
       String.length title <= 80 /\
       (forall m, m < n ->
          80 < String.length (title_without card (firstn m (present_priority card))))) /\
  (forall o,
     title_serial card = Ok o ->
     80 < String.length (title_without card []) ->
     exists n,
       (forall m, m < n ->
          80 < String.length (title_without card (firstn m (present_priority card)))) /\
       ((0 < n /\
         String.length (title_without card (firstn n (present_priority card))) <= 80 /\
         title_builder.build_ebay_title card =
           Ok (title_without card (firstn n (present_priority card)),
               firstn n (present_priority card)))
        \/
        (firstn n (present_priority card) = present_priority card /\
         80 < String.length (title_without card (present_priority card)) /\
         title_builder.build_ebay_title card =
           Raise (ValueError
                    (title_builder.overflow_message
                       (title_without card (present_priority card))))))).
Proof.
  split; [reflexivity|]; split.
  - intros title dropped H.
    destruct (build_ok_serial card _ H) as [o Hs].
    destruct (title_search card o Hs) as (n & Hb & _ & Hmin); cbv zeta in Hb.
    rewrite Hb in H; exists n.
    destruct (Nat.ltb_spec 80
                (String.length (title_without card (firstn n (present_priority card)))))
      as [Hgt | Hle]; [discriminate H|].
    injection H as <- <-; auto.
  - intros o Hs Hlong.
    destruct (title_search card o Hs) as (n & Hb & Hstop & Hmin);
      cbv zeta in Hb, Hstop.
    exists n; split; [exact Hmin|].
    destruct (Nat.ltb_spec 80
                (String.length (title_without card (firstn n (present_priority card)))))
      as [Hgt | Hle].
    + right; destruct Hstop as [Hle | Hall]; [lia|].
      rewrite Hall in Hb, Hgt; auto.
    + left; repeat split; auto.
      destruct n as [|n]; [simpl in Hle; lia | lia].
Qed.

(** The long-parallel card loses its team city and team name, in that
    order, and no more. *)
Lemma C3_dropped_groups_witness :
  title_builder.build_ebay_title card_long_parallel =
    Ok ("2023 Topps Chrome Jane Doe 15 Future Stars Gold Wave Refractor Prizm 1/99 RC",
        ["team_city"; "team_name"]) /\
  80 < String.length (title_without card_long_parallel []) /\
  (exists n,
     ["team_city"; "team_name"] = firstn n (present_priority card_long_parallel) /\
     "2023 Topps Chrome Jane Doe 15 Future Stars Gold Wave Refractor Prizm 1/99 RC"
     = title_without card_long_parallel ["team_city"; "team_name"]) /\
  (exists n,
     (forall m, m < n ->
        80 < String.length
               (title_without card_long_parallel
                  (firstn m (present_priority card_long_parallel)))) /\
     ((0 < n /\
       String.length
         (title_without card_long_parallel
            (firstn n (present_priority card_long_parallel))) <= 80 /\
       title_builder.build_ebay_title card_long_parallel =
         Ok (title_without card_long_parallel
               (firstn n (present_priority card_long_parallel)),
             firstn n (present_priority card_long_parallel)))
      \/
      (firstn n (present_priority card_long_parallel)
         = present_priority card_long_parallel /\
       80 < String.length
              (title_without card_long_parallel
                 (present_priority card_long_parallel)) /\
       title_builder.build_ebay_title card_long_parallel =
         Raise (ValueError
                  (title_builder.overflow_message
                     (title_without card_long_parallel
                        (present_priority card_long_parallel))))))).
Proof.
  destruct (C3_dropped_groups_are_a_priority_prefix card_long_parallel)
    as (_ & Hret & Hdrop).
  split; [vm_compute; reflexivity|]; split; [vm_compute; lia|]; split.
  - destruct (Hret
                "2023 Topps Chrome Jane Doe 15 Future Stars Gold Wave Refractor Prizm 1/99 RC"
                ["team_city"; "team_name"])
      as (n & Hd & Ht & _).
    + vm_compute; reflexivity.
    + exists n; split; assumption.
  - apply (Hdrop (Some "1/99")).
    + vm_compute; reflexivity.
    + vm_compute; lia.
Defined.




(* ================================================================== *)
(** ** What a layer of the pipeline writes *)
(* ================================================================== *)

Lemma writes_refl (W : string -> value -> Prop) (item : dict value) :
  writes W item item.
Proof. intros k; now left. Qed.

Lemma writes_dset (W : string -> value -> Prop) (item : dict value)
    (k : string) (v : value) :
  W k v -> writes W item (dset item k v).
Proof.
  intros H k'; rewrite dget_dset.
  destruct (String.eqb_spec k k') as [<- | Hne]; [right; eauto | now left].
Qed.

Lemma writes_trans (W : string -> value -> Prop) (a b c : dict value) :
  writes W a b -> writes W b c -> writes W a c.
Proof.
  intros Hab Hbc k; destruct (Hbc k) as [E | H]; [|now right].
  rewrite E; apply Hab.
Qed.

Lemma writes_weaken (W W' : string -> value -> Prop) (a b : dict value) :
  (forall k v, W k v -> W' k v) -> writes W a b -> writes W' a b.
Proof.
  intros HW H k; destruct (H k) as [E | (v & E & Hv)]; [now left | right; eauto].
Qed.

Lemma writes_keys (W : string -> value -> Prop) (a b : dict value) (k : string) :
  writes W a b -> dmem a k = true -> dmem b k = true.
Proof.
  intros H; unfold dmem; destruct (H k) as [E | (v & E & _)]; rewrite E; auto.
Qed.

Lemma writes_frame (W : string -> value -> Prop) (a b : dict value) (k : string) :
  writes W a b -> (forall v, ~ W k v) -> dget b k = dget a k.
Proof.
  intros H Hk; destruct (H k) as [E | (v & _ & Hv)]; [exact E | now elim (Hk v)].
Qed.

Lemma writes_fold {A : Type} (W : string -> value -> Prop)
    (f : dict value -> A -> dict value) :
  (forall it x, writes W it (f it x)) ->
  forall l it, writes W it (fold_left f l it).
Proof.
  intros Hf l; induction l as [|x l IH]; intros it; [apply writes_refl|].
  simpl; eapply writes_trans; [apply Hf | apply IH].
Qed.

(** *** Values the normaliser has passed *)

Lemma rstrip_idem (t : string) : rstrip (rstrip t) = rstrip t.
Proof.
  induction t as [|c r IH]; [reflexivity|]; simpl.
  destruct (isspace c && is_empty (rstrip r)) eqn:E; [reflexivity|].
  simpl; now rewrite IH, E.
Qed.

Lemma strip_idem (s : string) : strip (strip s) = strip s.
Proof.
  unfold strip; destruct (lstrip_first s) as [E | (c & r & E & Hc)]; rewrite E.
  - reflexivity.
  - simpl; rewrite Hc; simpl; rewrite Hc; simpl.
    now rewrite rstrip_idem, Hc.
Qed.

Lemma norm_optional_idem (v : value) :
  pipeline.norm_optional (VStr (pipeline.norm_optional v)) = pipeline.norm_optional v.
Proof.
  destruct v as [| [] | | | s | |]; try reflexivity.
  rewrite (norm_optional_str s).
  destruct (is_empty (strip s)) eqn:E1; [reflexivity|].
  destruct (existsb (String.eqb (lower (strip s))) pipeline.falsy_words) eqn:E2;
    [reflexivity|].
  now rewrite norm_optional_str, strip_idem, E1, E2.
Qed.

Lemma normalised_norm (v : value) : normalised (VStr (pipeline.norm_optional v)).
Proof. eexists; split; [reflexivity | apply norm_optional_idem]. Qed.

Lemma normalised_blank : normalised (VStr "").
Proof. exists ""; split; reflexivity. Qed.

Lemma normalised_base : normalised (VStr "[Base]").
Proof. exists "[Base]"; split; reflexivity. Qed.

Lemma normalised_digits (s : string) : digits s = true -> normalised (VStr s).
Proof.
  intros H; apply digits_inv in H as [Hne Hd].
  destruct s as [|c r]; [congruence|].
  exists (String c r); split; [reflexivity|].
  pose proof Hd as Hd'; simpl in Hd'; apply andb_true_iff in Hd' as [Hc _].
  destruct (decimal_char c Hc) as (Hl & _ & _ & Hf & Hn & _).
  rewrite <- norm_optional_same.
  apply norm_optional_plain; auto using decimal_nospace.
Qed.


(** *** Layer by layer *)

Lemma copy_items_writes (src : dict value) :
  forall item, writes (fun k v => In (k, v) src) item (pipeline.copy_items src item).
Proof.
  unfold pipeline.copy_items.
  induction src as [|[k1 v1] src IH]; intros item; [apply writes_refl|].
  simpl; eapply writes_trans.
  - apply writes_dset; now left.
  - eapply writes_weaken; [|apply IH]; intros k v H; now right.
Qed.

Lemma copy_items_keys (src : dict value) :
  forall item k, In k (map fst src) -> dmem (pipeline.copy_items src item) k = true.
Proof.
  induction src as [|[k1 v1] src IH]; intros item k Hin; [contradiction|].
  change (pipeline.copy_items ((k1, v1) :: src) item)
    with (pipeline.copy_items src (dset item k1 v1)).
  destruct (in_dec string_dec k (map fst src)) as [Hr | Hr]; [now apply IH|].
  destruct Hin as [<- | Hin]; [|contradiction].
  eapply writes_keys; [apply copy_items_writes|].
  unfold dmem; simpl; now rewrite dget_dset_same.
Qed.

Lemma direct_step_writes (item : dict value) (entry : string * value) :
  writes direct_write item (pipeline.direct_step item entry).
Proof.
  destruct entry as [aspect raw]; unfold pipeline.direct_step.
  destruct (String.eqb_spec aspect "Features") as [-> | _].
  - destruct raw as [| | | | s | [|x l] |]; try apply writes_refl.
    + destruct (nonempty (strip s)); [|apply writes_refl].
      apply writes_dset; now left.
    + apply writes_dset; now left.
  - destruct (nonempty (pipeline.norm_optional raw)); [|apply writes_refl].
    apply writes_dset; right; apply normalised_norm.
Qed.

Lemma direct_layer_writes (card item item' : dict value) :
  pipeline.direct_layer card item = Ok item' -> writes direct_write item item'.
Proof.
  unfold pipeline.direct_layer; intros H; inv_bind H; inv_ok H.
  apply writes_fold; apply direct_step_writes.
Qed.

Lemma derive_step_writes (card item item' : dict value) (entry : string * value) :
  pipeline.derive_step card item entry = Ok item' ->
  writes (fun k _ => k = fst entry) item item'.
Proof.
  destruct entry as [target rule]; unfold pipeline.derive_step.
  destruct rule; intros H; try (inv_ok H; apply writes_refl).
  inv_bind H; inv_bind H; inv_ok H.
  destruct (nonempty it0); [|apply writes_refl].
  now apply writes_dset.
Qed.

Lemma derive_fold_writes (card : dict value) (l : dict value) :
  forall item item',
    pipeline.foldM (pipeline.derive_step card) l item = Ok item' ->
    writes (fun k _ => In k (map fst l)) item item'.
Proof.
  induction l as [|x l IH]; intros item item' H; simpl in H.
  - inv_ok H; apply writes_refl.
  - inv_bind H; eapply writes_trans.
    + eapply writes_weaken; [|eapply derive_step_writes; eassumption].
      intros k v Hk; simpl in Hk; subst k; now left.
    + eapply writes_weaken; [|eapply IH; eassumption].
      intros k v Hk; simpl in Hk; now right.
Qed.

Lemma derive_layer_writes (card enforced item item' : dict value) :
  pipeline.derive_layer card enforced item = Ok item' ->
  writes (fun k _ => derive_target enforced k) item item'.
Proof.
  unfold pipeline.derive_layer, derive_target.
  destruct (get_or enforced "derive_and_enforce" (VDict [])) eqn:E; intros H;
    try (inv_ok H; apply writes_refl).
  eapply writes_weaken; [|eapply derive_fold_writes; eassumption].
  intros k v Hk; simpl in Hk; eauto.
Qed.

Lemma apply_rules_writes (sport k : string) (rules : list value) :
  forall item item',
    pipeline.apply_rules rules sport k item = Ok item' ->
    writes (fun k' v => k' = k /\ normalised v) item item'.
Proof.
  induction rules as [|r rules IH]; intros item item' H; simpl in H.
  - inv_ok H; apply writes_refl.
  - destruct r as [| | | | | |r]; try discriminate H.
    destruct (get_or r "when" (VDict [])) as [| | | | | |when]; try (now apply IH).
    destruct (eq_str (get when "Sport") sport); [|now apply IH].
    inv_ok H.
    destruct (nonempty (pipeline.norm_optional (get r "value")));
      [|apply writes_refl].
    apply writes_dset; split; [reflexivity | apply normalised_norm].
Qed.

Lemma sport_mapping_writes (ca : dict value) (sport k : string)
    (item item' : dict value) :
  pipeline.sport_mapping ca sport k item = Ok item' ->
  writes (fun k' v => k' = k /\ normalised v) item item'.
Proof.
  unfold pipeline.sport_mapping; intros H.
  destruct (dget ca k) as [[| | | | | |entry]|]; try (inv_ok H; apply writes_refl).
  destruct (nonempty sport); [|inv_ok H; apply writes_refl].
  destruct (get_or entry "rules" (VList [])) as [| | | | |rules|];
    try (inv_ok H; apply writes_refl).
  eapply apply_rules_writes; eassumption.
Qed.

Lemma card_thickness_writes (ca item item' : dict value) :
  pipeline.card_thickness ca item = Ok item' ->
  writes (fun k v => k = "Card Thickness" /\ normalised v) item item'.
Proof.
  unfold pipeline.card_thickness; intros H.
  destruct (dget ca "Card Thickness") as [[| | | | | |entry]|];
    try (inv_ok H; apply writes_refl).
  cbv zeta in H; inv_bind H; inv_ok H.
  apply writes_trans with (pipeline.thickness_default entry item).
  - unfold pipeline.thickness_default.
    destruct (negb _); [|apply writes_refl].
    cbv zeta; destruct (nonempty _); [|apply writes_refl].
    apply writes_dset; split; [reflexivity | apply normalised_norm].
  - destruct (contains "Memorabilia" it); [|apply writes_refl].
    apply writes_dset; split; [reflexivity | apply normalised_blank].
Qed.

Lemma conditional_layer_writes (enforced item item' : dict value) :
  pipeline.conditional_layer enforced item = Ok item' ->
  writes conditional_write item item'.
Proof.
  unfold pipeline.conditional_layer; intros H; inv_bind H.
  destruct (get_or enforced "conditional_aspects" (VDict [])) as [| | | | | |ca];
    try (inv_ok H; apply writes_refl).
  cbv zeta in H; inv_bind H; inv_bind H.
  apply sport_mapping_writes in Hit0, Hit1; apply card_thickness_writes in H.
  apply writes_trans with (pipeline.prop65_blank ca item);
    [|eapply writes_trans; [|eapply writes_trans]].
  - unfold pipeline.prop65_blank.
    destruct (dmem ca "California Prop 65 Warning"); [|apply writes_refl].
    apply writes_dset; split; [simpl; tauto | apply normalised_blank].
  - eapply writes_weaken; [|exact Hit0].
    intros k v [-> Hv]; split; [simpl; tauto | exact Hv].
  - eapply writes_weaken; [|exact Hit1].
    intros k v [-> Hv]; split; [simpl; tauto | exact Hv].
  - eapply writes_weaken; [|exact H].
    intros k v [-> Hv]; split; [simpl; tauto | exact Hv].
Qed.

Lemma when_yes_rules_writes (card enforced ar blk when_yes item item' : dict value) :
  get_or enforced "autograph_rules" (VDict []) = VDict ar ->
  get ar "Autographed" = VDict blk ->
  get_or blk "when_yes" (VDict []) = VDict when_yes ->
  pipeline.when_yes_rules card when_yes item = Ok item' ->
  writes (late_write card enforced) item item'.
Proof.
  intros Har Hblk Hyes H; unfold pipeline.when_yes_rules in H; inv_bind H.
  cbv zeta in H.
  apply writes_trans with it.
  { unfold pipeline.signed_by_rule in Hit.
    destruct (get when_yes "Signed By") as [| | | | | |sb];
      try (inv_ok Hit; apply writes_refl).
    destruct (eq_str (get sb "from") "player_name");
      [|inv_ok Hit; apply writes_refl].
    inv_bind Hit; inv_ok Hit; apply writes_dset; left; eauto. }
  apply writes_trans with (pipeline.authentication_rule when_yes it).
  { unfold pipeline.authentication_rule.
    destruct (get when_yes "Autograph Authentication") as [| | | | | |aa] eqn:Haa;
      try apply writes_refl.
    destruct (dget aa "value") as [v|] eqn:Hv; [|apply writes_refl].
    apply writes_dset; right; left; split; [reflexivity|].
    exists ar, blk, when_yes, aa; auto. }
  eapply writes_trans.
  { apply writes_dset; do 4 right; split; [simpl; tauto | apply normalised_blank]. }
  unfold pipeline.format_rule in H.
  destruct (get when_yes "Autograph Format") as [| | | | | |af];
    try (inv_ok H; apply writes_refl).
  cbv zeta in H; destruct (nonempty _ && truthy _);
    [|inv_ok H; apply writes_refl].
  inv_bind H; inv_ok H; destruct (negb it0); [|apply writes_refl].
  apply writes_dset; do 4 right; split; [simpl; tauto | apply normalised_blank].
Qed.

Lemma autograph_layer_writes (card enforced item item' : dict value) :
  pipeline.autograph_layer card enforced item = Ok item' ->
  writes (late_write card enforced) item item'.
Proof.
  unfold pipeline.autograph_layer; rewrite norm_optional_never_no; intros H.
  destruct (get_or enforced "autograph_rules" (VDict [])) as [| | | | | |ar] eqn:Har;
    try (inv_ok H; apply writes_refl).
  destruct (get ar "Autographed") as [| | | | | |blk] eqn:Hblk;
    try (inv_ok H; apply writes_refl).
  destruct (String.eqb _ "yes"); [|inv_ok H; apply writes_refl].
  destruct (get_or blk "when_yes" (VDict [])) as [| | | | | |when_yes] eqn:Hyes;
    try (inv_ok H; apply writes_refl).
  eapply when_yes_rules_writes; eassumption.
Qed.

Lemma parallel_layer_writes (card enforced item : dict value) :
  writes (late_write card enforced) item (pipeline.parallel_layer enforced item).
Proof.
  unfold pipeline.parallel_layer.
  destruct (get_or enforced "parallel_variety_rules" (VDict []))
    as [| | | | | |pvr] eqn:E; try apply writes_refl.
  destruct (negb _); [|apply writes_refl].
  apply writes_dset; unfold get_or.
  destruct (dget pvr "default") as [v|] eqn:Hv.
  - right; right; left; split; [reflexivity | exists pvr; auto].
  - do 4 right; split; [simpl; tauto | apply normalised_base].
Qed.

Lemma features_layer_writes (card enforced item : dict value) :
  writes (late_write card enforced) item (pipeline.features_layer enforced item).
Proof.
  unfold pipeline.features_layer.
  destruct (get_or enforced "features_rules" (VDict [])); try apply writes_refl.
  destruct (negb _); [|apply writes_refl].
  apply writes_dset; do 3 right; now left.
Qed.

Lemma print_run_layer_writes (card enforced item item' : dict value) :
  pipeline.print_run_layer card item = Ok item' ->
  writes (late_write card enforced) item item'.
Proof.
  unfold pipeline.print_run_layer; intros H; inv_bind H; inv_ok H.
  destruct (nonempty it) eqn:Hne; [|apply writes_refl].
  apply writes_dset; do 4 right; split; [simpl; tauto|].
  destruct (serial_denominator_digits _ _ Hit) as [-> | Hd];
    [discriminate Hne | now apply normalised_digits].
Qed.

Lemma insert_set_layer_writes (card enforced item : dict value) :
  writes (late_write card enforced) item (pipeline.insert_set_layer card item).
Proof.
  unfold pipeline.insert_set_layer.
  destruct (nonempty _); [|apply writes_refl].
  apply writes_dset; do 4 right; split; [simpl; tauto | apply normalised_norm].
Qed.

(** [finish_item] is the conditional layer followed by layers 5 to 9. *)
Lemma finish_item_inv (card enforced item3 item : dict value) :
  pipeline.finish_item card enforced item3 = Ok item ->
  exists item4,
    pipeline.conditional_layer enforced item3 = Ok item4 /\
    writes (late_write card enforced) item4 item.
Proof.
  unfold pipeline.finish_item; intros H; inv_bind H; inv_bind H; inv_bind H.
  inv_ok H; exists it; split; [assumption|].
  eapply writes_trans; [eapply autograph_layer_writes; eassumption|].
  eapply writes_trans; [apply parallel_layer_writes|].
  eapply writes_trans; [apply features_layer_writes|].
  eapply writes_trans; [eapply print_run_layer_writes; eassumption|].
  apply insert_set_layer_writes.
Qed.

(* ================================================================== *)
(** ** The pipeline as a whole *)
(* ================================================================== *)

Lemma build_item_specifics_inv (card globals_defaults enforced item : dict value) :
  pipeline.build_item_specifics card globals_defaults enforced = Ok item ->
  exists item3 item4,
    pipeline.derived_item card globals_defaults enforced = Ok item3 /\
    writes (fun k v => direct_write k v \/ derive_target enforced k)
           (pipeline.globals_layer globals_defaults) item3 /\
    pipeline.conditional_layer enforced item3 = Ok item4 /\
    writes (late_write card enforced) item4 item.
Proof.
  unfold pipeline.build_item_specifics; intros H; inv_bind H.
  apply finish_item_inv in H as (item4 & Hc & Hlate).
  exists it, item4; repeat split; try assumption.
  unfold pipeline.derived_item in Hit; inv_bind Hit.
  eapply writes_trans.
  - eapply writes_weaken; [|eapply direct_layer_writes; eassumption].
    intros k v Hk; now left.
  - eapply writes_weaken; [|eapply derive_layer_writes; eassumption].
    intros k v Hk; now right.
Qed.

Lemma build_item_specifics_writes (card globals_defaults enforced item : dict value) :
  pipeline.build_item_specifics card globals_defaults enforced = Ok item ->
  writes (pipeline_write card enforced) (pipeline.globals_layer globals_defaults) item.
Proof.
  intros H; apply build_item_specifics_inv in H as (i3 & i4 & _ & H13 & H4 & H59).
  apply conditional_layer_writes in H4.
  eapply writes_trans; [|eapply writes_trans].
  - eapply writes_weaken; [|exact H13].
    unfold pipeline_write; intros k v [Hk | Hk]; auto.
  - eapply writes_weaken; [|exact H4].
    unfold pipeline_write; intros k v Hk; auto.
  - eapply writes_weaken; [|exact H59].
    unfold pipeline_write; intros k v Hk; auto.
Qed.

(** C10. Every key of the global defaults is a key of the returned item
    specifics: layers overwrite values, none removes a key. *)
Theorem C10_global_default_keys_survive
    (card globals_defaults enforced item : dict value) (k : string) :
  pipeline.build_item_specifics card globals_defaults enforced = Ok item ->
  In k (map fst globals_defaults) ->
  dmem item k = true.
Proof.
  intros H Hk; apply build_item_specifics_writes in H.
  eapply writes_keys; [exact H|].
  unfold pipeline.globals_layer; now apply copy_items_keys.
Qed.

(** The default "Sport" is overwritten by the card's, and its key stays. *)
Lemma C10_global_keys_witness :
  exists item,
    pipeline.build_item_specifics card_plain globals_sample [] = Ok item /\
    dget item "Sport" = Some (VStr "Basketball") /\
    dmem item "Sport" = true /\ dmem item "Vintage" = true.
Proof.
  eexists; split; [vm_compute; reflexivity|]; split; [reflexivity|]; split.
  - apply (C10_global_default_keys_survive card_plain globals_sample [] _ "Sport");
      [reflexivity | simpl; tauto].
  - apply (C10_global_default_keys_survive card_plain globals_sample [] _ "Vintage");
      [reflexivity | simpl; tauto].
Defined.

(* ================================================================== *)
(** ** Card Thickness and Memorabilia *)
(* ================================================================== *)

Lemma feats_text_frame (a b : dict value) :
  dget b "Features" = dget a "Features" ->
  pipeline.feats_text b = pipeline.feats_text a.
Proof. unfold pipeline.feats_text, get_or; now intros ->. Qed.

Lemma late_write_not_thickness (card enforced : dict value) (v : value) :
  ~ late_write card enforced "Card Thickness" v.
Proof.
  unfold late_write; simpl; intros H.
  repeat (destruct H as [H | H]); try discriminate H;
    try (destruct H as [H _]; try discriminate H).
  repeat (destruct H as [H | H]; try discriminate H); contradiction.
Qed.

(** With a "Card Thickness" entry configured, the conditional layer ends
    with an empty Card Thickness when the Features text it reads has
    "Memorabilia" in it. *)
Lemma conditional_layer_memorabilia
    (enforced ca entry item3 item4 : dict value) (text : string) :
  dget enforced "conditional_aspects" = Some (VDict ca) ->
  dget ca "Card Thickness" = Some (VDict entry) ->
  pipeline.feats_text item3 = Ok text ->
  contains "Memorabilia" text = true ->
  pipeline.conditional_layer enforced item3 = Ok item4 ->
  dget item4 "Card Thickness" = Some (VStr "").
Proof.
  intros Hca Hentry Htext Hmem H.
  unfold pipeline.conditional_layer, get_or in H; rewrite Hca in H.
  cbv zeta in H; inv_bind H; inv_bind H; inv_bind H.
  apply sport_mapping_writes in Hit0, Hit1.
  unfold pipeline.card_thickness in H; rewrite Hentry in H; cbv zeta in H.
  inv_bind H; inv_ok H.
  assert (pipeline.feats_text (pipeline.thickness_default entry it1)
          = pipeline.feats_text item3) as E.
  { apply feats_text_frame.
    assert (dget (pipeline.thickness_default entry it1) "Features"
            = dget it1 "Features") as ->.
    { unfold pipeline.thickness_default.
      destruct (negb _); [|reflexivity].
      cbv zeta; destruct (nonempty _); [|reflexivity].
      apply dget_dset_other; discriminate. }
    rewrite (writes_frame _ _ _ "Features" Hit1)
      by (intros v [Hk _]; discriminate Hk).
    rewrite (writes_frame _ _ _ "Features" Hit0)
      by (intros v [Hk _]; discriminate Hk).
    unfold pipeline.prop65_blank.
    destruct (dmem ca _); [|reflexivity].
    apply dget_dset_other; discriminate. }
  rewrite E, Htext in Hit2; inv_ok Hit2.
  rewrite Hmem; apply dget_dset_same.
Qed.

(** C9, as stated, fails: without a "Card Thickness" entry under
    conditional_aspects the override never runs, and a card with a
    Memorabilia feature keeps the thickness it came with. *)
Lemma C9_memorabilia_counterexample :
  pipeline.derived_item card_memorabilia [] [] = Ok card_memorabilia /\
  pipeline.feats_text card_memorabilia = Ok "Memorabilia" /\
  pipeline.build_item_specifics card_memorabilia [] [] =
    Ok [ ("Features", VList [VStr "Memorabilia"]);
         ("Card Thickness", VStr "55 Pt."); ("Parallel/Variety", VStr "[Base]") ].
Proof. repeat split; vm_compute; reflexivity. Qed.

(** C9, amended. When conditional_aspects has a "Card Thickness" mapping
    and the Features text the conditional layer reads (the list joined by
    blanks, or the string) contains "Memorabilia", the returned Card
    Thickness is the empty string: the override comes after the configured
    default, and no later layer writes the field. *)
Theorem C9_memorabilia_blanks_card_thickness
    (card globals_defaults enforced ca entry item3 item : dict value)
    (text : string) :
  dget enforced "conditional_aspects" = Some (VDict ca) ->
  dget ca "Card Thickness" = Some (VDict entry) ->
  pipeline.derived_item card globals_defaults enforced = Ok item3 ->
  pipeline.feats_text item3 = Ok text ->
  contains "Memorabilia" text = true ->
  pipeline.build_item_specifics card globals_defaults enforced = Ok item ->
  dget item "Card Thickness" = Some (VStr "").
Proof.
  intros Hca Hentry H3 Htext Hmem H.
  apply build_item_specifics_inv in H as (i3 & i4 & H3' & _ & H4 & Hlate).
  rewrite H3 in H3'; inv_ok H3'.
  rewrite (writes_frame _ _ _ "Card Thickness" Hlate)
    by apply late_write_not_thickness.
  eapply conditional_layer_memorabilia; eassumption.
Qed.

(** A relic card under a configured default of "35 Pt.": the default is set
    and then blanked. *)
Lemma C9_memorabilia_witness :
  exists item,
    pipeline.build_item_specifics card_relic [] enforced_thickness = Ok item /\
    dget item "Card Thickness" = Some (VStr "").
Proof.
  eexists; split; [vm_compute; reflexivity|].
  eapply (C9_memorabilia_blanks_card_thickness card_relic [] enforced_thickness
            _ _ _ _ "Rookie Memorabilia");
    vm_compute; reflexivity.
Defined.

(* ================================================================== *)
(** ** Which values have passed the normaliser *)
(* ================================================================== *)

Lemma globals_layer_source (globals_defaults : dict value) (k : string) (v : value) :
  dget (pipeline.globals_layer globals_defaults) k = Some v ->
  In (k, v) globals_defaults.
Proof.
  unfold pipeline.globals_layer; intros H.
  destruct (copy_items_writes globals_defaults [] k) as [E | (v' & E & Hin)];
    rewrite E in H; [discriminate H | now inv_ok H].
Qed.





(* ================================================================== *)
(** ** More on cleaning and joining *)
(* ================================================================== *)

Lemma lstrip_empty (s : string) : lstrip s = "" -> all_chars isspace s = true.
Proof.
  induction s as [|c r IH]; simpl; [reflexivity|].
  destruct (isspace c); [exact IH | discriminate].
Qed.

Lemma strip_empty (s : string) : strip s = "" -> all_chars isspace s = true.
Proof.
  unfold strip; intros H.
  destruct (lstrip_first s) as [E | (c & r & E & Hc)]; [now apply lstrip_empty|].
  rewrite E in H; simpl in H; rewrite Hc in H; discriminate H.
Qed.

Lemma sub_spaces_empty (s : string) : sub_spaces false s = "" -> s = "".
Proof. destruct s as [|c r]; simpl; [reflexivity|]; destruct (isspace c); discriminate. Qed.

Lemma clean_empty (s : string) :
  title_builder._clean s = "" <-> all_chars isspace s = true.
Proof.
  unfold title_builder._clean; split; intros H.
  - apply strip_empty; now apply sub_spaces_empty.
  - now rewrite strip_spaces.
Qed.

Lemma clean_fixed (s : string) :
  s = "" \/ tidy s = true -> title_builder._clean s = s.
Proof. intros [-> | H]; [reflexivity | now apply tidy_clean]. Qed.

Lemma clean_empty_or_tidy (s : string) :
  title_builder._clean s = "" \/ tidy (title_builder._clean s) = true.
Proof.
  destruct (title_builder._clean s) eqn:E; [now left | right].
  rewrite <- E; apply clean_tidy; rewrite E; discriminate.
Qed.

(** X1. [_clean] is idempotent: a cleaned token is its own clean form. *)
Theorem X1_clean_idempotent (s : string) :
  title_builder._clean (title_builder._clean s) = title_builder._clean s.
Proof. apply clean_fixed, clean_empty_or_tidy. Qed.

(** X2. [_clean] returns the empty string exactly for an input that is
    empty or all white space; any other result is tidy: it has no white
    space but single blanks, none in front and none at the end. *)
Theorem X2_clean_blank_or_tidy (s : string) :
  (title_builder._clean s = "" <-> all_chars isspace s = true) /\
  (title_builder._clean s = "" \/ tidy (title_builder._clean s) = true).
Proof. split; [apply clean_empty | apply clean_empty_or_tidy]. Qed.

Lemma append_assoc (a b c : string) : (a ++ b) ++ c = a ++ (b ++ c).
Proof. induction a as [|x a IH]; simpl; [reflexivity | now rewrite IH]. Qed.

Lemma join_app (sep : string) (xs ys : list string) :
  xs <> [] -> ys <> [] ->
  join sep (xs ++ ys) = join sep xs ++ sep ++ join sep ys.
Proof.
  intros Hx Hy; induction xs as [|a xs IH]; [congruence|].
  destruct xs as [|b xs].
  - destruct ys as [|y ys]; [congruence | reflexivity].
  - change (join sep ((a :: b :: xs) ++ ys))
      with (a ++ sep ++ join sep ((b :: xs) ++ ys)).
    rewrite IH by discriminate.
    change (join sep (a :: b :: xs)) with (a ++ sep ++ join sep (b :: xs)).
    now rewrite !append_assoc.
Qed.

Lemma join_kept_nonempty (tokens : list string) :
  kept_tokens tokens <> [] -> join " " (kept_tokens tokens) <> "".
Proof.
  intros Hne Hj.
  pose proof (kept_tokens_tidy tokens) as Ht.
  destruct (kept_tokens tokens) as [|a l]; [congruence|].
  inversion Ht as [|? ? Ha _]; subst.
  destruct (tidy_first a Ha) as (c & r & -> & _).
  destruct l; discriminate Hj.
Qed.

Lemma join_tokens_empty_or_tidy (tokens : list string) :
  title_builder._join_tokens tokens = "" \/
  tidy (title_builder._join_tokens tokens) = true.
Proof. unfold title_builder._join_tokens; apply clean_empty_or_tidy. Qed.

Lemma kept_tokens_fixed (l : list string) :
  Forall (fun t => tidy t = true) l -> kept_tokens l = l.
Proof.
  induction l as [|a l IH]; intros H; [reflexivity|].
  inversion H as [|? ? Ha Hl]; subst.
  unfold kept_tokens in *; cbn [map filter].
  rewrite (tidy_clean a Ha), (IH Hl).
  destruct (tidy_first a Ha) as (c & r & -> & _); reflexivity.
Qed.

(** X3. [_join_tokens] is the single-blank join of the cleaned, non-empty
    tokens (its outer [_clean] changes nothing), and it composes: joining
    two joined halves is joining the whole list. *)
Theorem X3_join_tokens_composes (xs ys : list string) :
  title_builder._join_tokens (xs ++ ys) = join " " (kept_tokens (xs ++ ys)) /\
  title_builder._join_tokens
    [title_builder._join_tokens xs; title_builder._join_tokens ys]
  = title_builder._join_tokens (xs ++ ys).
Proof.
  split; [apply join_tokens_eq|].
  rewrite (join_tokens_eq (xs ++ ys)), kept_tokens_app.
  rewrite (join_tokens_eq [_; _]).
  unfold kept_tokens at 1; cbn [map].
  rewrite !clean_fixed
    by (destruct (join_tokens_empty_or_tidy xs), (join_tokens_empty_or_tidy ys); auto).
  rewrite !join_tokens_eq.
  assert (forall l, (kept_tokens l = [] /\ join " " (kept_tokens l) = "") \/
                    (kept_tokens l <> [] /\ join " " (kept_tokens l) <> "")) as Hcases.
  { intros l; destruct (kept_tokens l) eqn:E; [left; auto | right].
    rewrite <- E; split; [|apply join_kept_nonempty]; rewrite E; discriminate. }
  destruct (Hcases xs) as [[Ex Jx] | [Ex Jx]], (Hcases ys) as [[Ey Jy] | [Ey Jy]].
  - rewrite Ex, Ey; reflexivity.
  - rewrite Jx, Ex; cbn [app filter nonempty is_empty negb].
    destruct (join " " (kept_tokens ys)); [congruence | reflexivity].
  - rewrite Jy, Ey, app_nil_r; cbn [filter].
    destruct (join " " (kept_tokens xs)); [congruence | reflexivity].
  - rewrite (join_app " " _ _ Ex Ey); cbn [filter].
    destruct (join " " (kept_tokens xs)); [congruence|].
    destruct (join " " (kept_tokens ys)); [congruence | reflexivity].
Qed.

(* ================================================================== *)
(** ** More on the title *)
(* ================================================================== *)

Lemma dget_In {A : Type} (d : dict A) (k : string) (v : A) :
  dget d k = Some v -> In (k, v) d.
Proof.
  induction d as [|[k' v'] d IH]; simpl; [discriminate|].
  destruct (String.eqb_spec k' k) as [-> | _]; intros H.
  - inv_ok H; now left.
  - right; now apply IH.
Qed.

Lemma prefix_empty (s : string) : prefix "" s = true.
Proof. destruct s; reflexivity. Qed.

Lemma prefix_append (a b : string) : prefix a (a ++ b) = true.
Proof.
  induction a as [|c a IH]; [apply prefix_empty|]; simpl.
  destruct (ascii_dec c c); [exact IH | congruence].
Qed.

Lemma prefix_join (xs ys : list string) :
  prefix (join " " xs) (join " " (xs ++ ys)) = true.
Proof.
  destruct xs as [|a xs]; [apply prefix_empty|].
  destruct ys as [|y ys].
  - rewrite app_nil_r.
    pose proof (prefix_append (join " " (a :: xs)) "") as H.
    now rewrite app_empty_r in H.
  - rewrite join_app by discriminate; apply prefix_append.
Qed.

Lemma title_groups_tidy (card : dict value) (k v : string) :
  dget (title_groups card) k = Some v -> v = "" \/ tidy v = true.
Proof.
  intros H; apply dget_In in H.
  unfold title_groups, title_builder.group_values in H; cbv zeta in H.
  simpl in H.
  repeat (destruct H as [H | H];
          [injection H as _ <-; apply join_tokens_empty_or_tidy|]).
  contradiction.
Qed.

Lemma remaining_groups_spec (card : dict value) (dropped : list string) (v : string) :
  In v (remaining_groups card dropped) <->
  exists k, In k title_builder.include_order /\ ~ In k dropped /\
            dget (title_groups card) k = Some v /\ v <> "".
Proof.
  unfold remaining_groups, title_builder.group_tokens; rewrite in_flat_map.
  split; intros (k & Hk & H); exists k; (split; [exact Hk|]).
  - rewrite dget_blank in H.
    destruct (existsb (String.eqb k) dropped) eqn:E; [simpl in H; tauto|].
    destruct (dget (title_groups card) k) as [w|] eqn:Hw; [|contradiction].
    destruct w as [|c r]; simpl in H; [contradiction|].
    destruct H as [<- | []]; repeat split; try discriminate.
    intros Hin; apply existsb_eqb_In in Hin; congruence.
  - destruct H as (Hnot & Hv & Hne); rewrite dget_blank.
    destruct (existsb (String.eqb k) dropped) eqn:E;
      [apply existsb_eqb_In in E; contradiction|].
    rewrite Hv; destruct v; [congruence | simpl; tauto].
Qed.

Lemma remaining_groups_tidy (card : dict value) (dropped : list string) :
  Forall (fun t => tidy t = true) (remaining_groups card dropped).
Proof.
  apply Forall_forall; intros v Hv.
  apply remaining_groups_spec in Hv as (k & _ & _ & Hg & Hne).
  destruct (title_groups_tidy card k v Hg); [contradiction | assumption].
Qed.

Lemma title_without_eq (card : dict value) (dropped : list string) :
  title_without card dropped =
  join " " (kept_tokens (title_mandatory card) ++ remaining_groups card dropped).
Proof.
  unfold title_without, title_builder.assemble.
  rewrite join_tokens_eq, kept_tokens_app.
  fold (remaining_groups card dropped).
  now rewrite (kept_tokens_fixed _ (remaining_groups_tidy card dropped)).
Qed.

Lemma build_ebay_title_ok (card : dict value) (title : string) (dropped : list string) :
  title_builder.build_ebay_title card = Ok (title, dropped) ->
  title = title_without card dropped.
Proof.
  intros H; destruct (build_ok_serial card _ H) as [o Hs].
  destruct (title_search card o Hs) as (n & Hb & _); cbv zeta in Hb.
  rewrite Hb in H; destruct (_ <? _)%nat; [discriminate H|].
  now injection H as <- <-.
Qed.

(** X4. A returned title is the single-blank join of the cleaned non-empty
    mandatory tokens followed by the values of the groups that are present
    and were not dropped, in inclusion order; it starts with the mandatory
    block, and it is clean: cleaning it again changes nothing. *)
Theorem X4_title_shape (card : dict value) (title : string) (dropped : list string) :
  title_builder.build_ebay_title card = Ok (title, dropped) ->
  title = join " " (kept_tokens (title_mandatory card)
                      ++ remaining_groups card dropped) /\
  (forall v, In v (remaining_groups card dropped) <->
             exists k, In k title_builder.include_order /\ ~ In k dropped /\
                       dget (title_groups card) k = Some v /\ v <> "") /\
  prefix (title_builder._join_tokens (title_mandatory card)) title = true /\
  title_builder._clean title = title.
Proof.
  intros H; apply build_ebay_title_ok in H; subst title.
  split; [apply title_without_eq|].
  split; [intros v; apply remaining_groups_spec|].
  split.
  - rewrite title_without_eq, join_tokens_eq; apply prefix_join.
  - unfold title_without, title_builder.assemble.
    apply clean_fixed, join_tokens_empty_or_tidy.
Qed.

Lemma X4_title_shape_witness :
  "2023 Topps Chrome Jane Doe 15 Future Stars Gold Wave Refractor Prizm 1/99 RC"
  = join " " (kept_tokens (title_mandatory card_long_parallel)
                ++ remaining_groups card_long_parallel ["team_city"; "team_name"]).
Proof.
  apply (proj1 (X4_title_shape card_long_parallel _ ["team_city"; "team_name"]
                  ltac:(vm_compute; reflexivity))).
Defined.

(** X5. For a card whose serial was formatted, when the title assembled
    from every present group fits in 80 characters it is returned as it is
    and nothing is dropped; and a result with no dropped group is that
    full title. *)
Theorem X5_fitting_title_drops_nothing (card : dict value) :
  (forall o,
     title_serial card = Ok o ->
     String.length (title_without card []) <= 80 ->
     title_builder.build_ebay_title card = Ok (title_without card [], [])) /\
  (forall title,
     title_builder.build_ebay_title card = Ok (title, []) ->
     title = title_without card []).
Proof.
  split.
  - intros o Hs Hle.
    destruct (title_search card o Hs) as (n & Hb & _ & Hmin); cbv zeta in Hb.
    destruct n as [|n]; [|specialize (Hmin 0 ltac:(lia)); simpl in Hmin; lia].
    rewrite Hb; cbn [firstn].
    destruct (Nat.ltb_spec 80 (String.length (title_without card [])));
      [lia | reflexivity].
  - intros title H; now apply build_ebay_title_ok.
Qed.

Lemma X5_fitting_title_witness :
  title_builder.build_ebay_title card_of_10 = Ok (title_without card_of_10 [], []).
Proof.
  apply (proj1 (X5_fitting_title_drops_nothing card_of_10) (Some "/10")).
  - vm_compute; reflexivity.
  - vm_compute; lia.
Defined.

(* ================================================================== *)
(** ** More on the two serial modes *)
(* ================================================================== *)

Lemma digits_start (d : string) :
  digits d = true ->
  exists c r, d = String c r /\ isdecimal c = true /\ all_chars isdecimal r = true.
Proof.
  intros H; apply digits_inv in H as [Hne Hd].
  destruct d as [|c r]; [congruence|].
  simpl in Hd; apply andb_true_iff in Hd as [Hc Hr]; eauto.
Qed.

Lemma decimal_is_word (c : ascii) : isdecimal c = true -> isword c = true.
Proof. unfold isword, isdecimal; now intros ->. Qed.

(** The word "of" between word characters is left alone. *)
Lemma sub_of_word_glued (n d : string) :
  all_chars isdecimal n = true -> digits d = true ->
  forall b, sub_of_word b (n ++ "of" ++ d) = n ++ "of" ++ d.
Proof.
  intros Hn Hd; destruct (digits_start d Hd) as (c & r & -> & Hc & Hr).
  assert (forall b, sub_of_word b ("of" ++ String c r) = "of" ++ String c r) as Hbase.
  { intros b; change ("of" ++ String c r) with (String "o" (String "f" (String c r))).
    rewrite sub_of_word_step; cbn [starts_with_word].
    rewrite (decimal_is_word c Hc), andb_false_r.
    rewrite (sub_of_word_without_o (String "f" (String c r))); [reflexivity|].
    simpl; destruct (decimal_char c Hc) as (_ & _ & Ho & _).
    unfold not_o at 1; rewrite Ho; now apply decimal_not_o. }
  induction n as [|x n IH]; intros b; [apply Hbase|].
  simpl in Hn; apply andb_true_iff in Hn as [Hx Hn].
  change (String x n ++ "of" ++ String c r) with (String x (n ++ "of" ++ String c r)).
  destruct (n ++ "of" ++ String c r) as [|c2 r2] eqn:E;
    [destruct n; discriminate E|].
  rewrite sub_of_word_step.
  destruct (decimal_char x Hx) as (_ & _ & Ho & _).
  rewrite Ho, andb_false_r; cbn [andb].
  now rewrite (IH Hn).
Qed.

(** The word "of" between blanks becomes a slash, in either case. *)
Lemma sub_of_word_spaced (o f : ascii) (n d : string) :
  is_o o = true -> is_f f = true ->
  all_chars isdecimal n = true -> all_chars isdecimal d = true ->
  forall b,
    sub_of_word b (n ++ String " " (String o (String f (String " " d))))
    = n ++ String " " (String "/" (String " " d)).
Proof.
  intros Ho Hf Hn Hd.
  assert (forall b, sub_of_word b (String " " (String o (String f (String " " d))))
                    = String " " (String "/" (String " " d))) as Hbase.
  { intros b; rewrite sub_of_word_step.
    change (is_o " ") with false; rewrite andb_false_r; cbn [andb].
    change (isword " ") with false.
    rewrite sub_of_word_step, Ho, Hf; cbn [negb andb starts_with_word].
    change (isword " ") with false; cbn [negb].
    rewrite (sub_of_word_without_o (String " " d)); [reflexivity|].
    simpl; now apply decimal_not_o. }
  induction n as [|x n IH]; intros b; [apply Hbase|].
  simpl in Hn; apply andb_true_iff in Hn as [Hx Hn].
  cbn [append].
  destruct (n ++ String " " (String o (String f (String " " d)))) as [|c2 r2] eqn:E;
    [destruct n; discriminate E|].
  rewrite sub_of_word_step.
  destruct (decimal_char x Hx) as (_ & _ & Hxo & _).
  rewrite Hxo, andb_false_r; cbn [andb].
  now rewrite (IH Hn).
Qed.

Lemma rstrip_app_nospace (a b : string) :
  all_chars nospace b = true -> b <> "" -> rstrip (a ++ b) = a ++ b.
Proof.
  intros Hb Hne; induction a as [|c a IH]; simpl.
  - now apply rstrip_nospace.
  - rewrite IH; destruct (a ++ b) eqn:E;
      [destruct a; [simpl in E; congruence | discriminate E]|].
    now rewrite andb_false_r.
Qed.

(** A text that starts with a digit and ends with a run of digits is its
    own normal form. *)
Lemma norm_optional_digit_ends (n mid d : string) :
  digits n = true -> digits d = true ->
  title_builder._norm_optional (VStr (n ++ mid ++ d)) = n ++ mid ++ d.
Proof.
  intros Hn Hd; destruct (digits_start n Hn) as (c & r & -> & Hc & Hr).
  apply digits_inv in Hd as [Hde Hd].
  rewrite norm_optional_same, norm_optional_str.
  assert (strip (String c r ++ mid ++ d) = String c r ++ mid ++ d) as ->.
  { unfold strip; cbn [append lstrip].
    destruct (decimal_char c Hc) as (_ & Hs & _); rewrite Hs.
    change (String c (r ++ mid ++ d)) with (String c r ++ mid ++ d).
    rewrite <- !append_assoc.
    apply rstrip_app_nospace; [now apply decimal_nospace | assumption]. }
  cbn [append is_empty lower].
  destruct (decimal_char c Hc) as (Hl & _ & _ & Hf & Hnn & _).
  now rewrite Hl, falsy_words_start.
Qed.

Lemma search_fraction_spaced (n d : string) :
  digits n = true -> digits d = true ->
  search_fraction (n ++ String " " (String "/" (String " " d))) = Some (n, d).
Proof.
  intros Hn Hd; destruct (digits_start n Hn) as (c & r & -> & Hc & Hr).
  apply digits_inv in Hd as [Hde Hd].
  cbn [append search_fraction]; unfold match_fraction.
  change (String c (r ++ String " " (String "/" (String " " d))))
    with (String c r ++ String " " (String "/" (String " " d))).
  rewrite span_digits_app by (simpl; now rewrite ?Hc, ?Hr).
  cbn [is_empty lstrip].
  change (isspace " ") with true; change (isspace "/") with false; cbv iota.
  change (Ascii.eqb "/" "/") with true; cbv iota.
  change (lstrip (String " " d)) with (lstrip d).
  rewrite (lstrip_nospace d (decimal_nospace d Hd)), (span_digits_all d Hd).
  destruct d; [congruence | reflexivity].
Qed.

(** X6. The textual separator: "n of d", with the word in any case and a
    blank on each side, is formatted exactly as "n/d". *)
Theorem X6_spaced_of_reads_as_slash (o f : ascii) (n d : string) :
  is_o o = true -> is_f f = true -> digits n = true -> digits d = true ->
  title_builder._parse_serial_for_ebay
    (VStr (n ++ String " " (String o (String f (String " " d)))))
  = title_builder._parse_serial_for_ebay (VStr (n ++ "/" ++ d)).
Proof.
  intros Ho Hf Hn Hd; rewrite (parse_fraction n d Hn Hd).
  unfold title_builder._parse_serial_for_ebay.
  change (n ++ String " " (String o (String f (String " " d))))
    with (n ++ String " " (String o (String f " ")) ++ d).
  rewrite (norm_optional_digit_ends n _ d Hn Hd).
  change (n ++ String " " (String o (String f " ")) ++ d)
    with (n ++ String " " (String o (String f (String " " d)))).
  destruct (digits_inv n Hn) as [Hne Hn'], (digits_inv d Hd) as [Hde Hd'].
  rewrite (sub_of_word_spaced o f n d Ho Hf Hn' Hd'), (search_fraction_spaced n d Hn Hd).
  destruct n as [|c n]; [congruence|]; cbn [append is_empty].
  destruct (int (String c n)) as [nf|e]; [|reflexivity].
  destruct (int d) as [nd|e]; [|reflexivity].
  cbn [bind]; now rewrite parse_groups.
Qed.

Lemma X6_spaced_of_witness :
  title_builder._parse_serial_for_ebay (VStr "12 OF 99")
  = title_builder._parse_serial_for_ebay (VStr "12/99").
Proof.
  exact (X6_spaced_of_reads_as_slash "O" "F" "12" "99" eq_refl eq_refl eq_refl eq_refl).
Defined.

Lemma lower_app (a b : string) : lower (a ++ b) = lower a ++ lower b.
Proof. induction a as [|c a IH]; simpl; [reflexivity | now rewrite IH]. Qed.

Lemma lower_decimal (s : string) : all_chars isdecimal s = true -> lower s = s.
Proof.
  induction s as [|c s IH]; simpl; [reflexivity|].
  intros H; apply andb_true_iff in H as [Hc Hs].
  destruct (decimal_char c Hc) as (Hl & _); now rewrite Hl, IH.
Qed.

Lemma replace_of_step (c1 c2 : ascii) (r2 : string) :
  replace_of (String c1 (String c2 r2)) =
  if Ascii.eqb c1 "o" && Ascii.eqb c2 "f"
  then String "/" (replace_of r2)
  else String c1 (replace_of (String c2 r2)).
Proof. reflexivity. Qed.

Lemma not_o_char (c : ascii) : not_o c = true -> Ascii.eqb c "o" = false.
Proof.
  unfold not_o, is_o; intros H; apply negb_true_iff in H.
  now apply orb_false_iff in H as [H _].
Qed.

Lemma replace_of_without_o (s : string) :
  all_chars not_o s = true -> replace_of s = s.
Proof.
  induction s as [|c1 r1 IH]; intros H; [reflexivity|].
  simpl in H; apply andb_true_iff in H as [Hc Hr].
  destruct r1 as [|c2 r2]; [reflexivity|].
  now rewrite replace_of_step, (not_o_char c1 Hc), (IH Hr).
Qed.

Lemma replace_of_glued (n d : string) :
  all_chars not_o n = true -> all_chars not_o d = true ->
  replace_of (n ++ "of" ++ d) = n ++ "/" ++ d.
Proof.
  intros Hn Hd; induction n as [|x n IH].
  - change ("" ++ "of" ++ d) with (String "o" (String "f" d)).
    rewrite replace_of_step; cbn [Ascii.eqb]; simpl.
    now rewrite (replace_of_without_o d Hd).
  - simpl in Hn; apply andb_true_iff in Hn as [Hx Hn].
    change (String x n ++ "of" ++ d) with (String x (n ++ "of" ++ d)).
    change (String x n ++ "/" ++ d) with (String x (n ++ "/" ++ d)).
    rewrite <- (IH Hn).
    destruct (n ++ "of" ++ d) as [|c2 r2] eqn:E; [destruct n; discriminate E|].
    now rewrite replace_of_step, (not_o_char x Hx).
Qed.

Lemma after_last_cons (c d : ascii) (r : string) :
  after_last c (String d r) =
  if has_char c r then after_last c r else if Ascii.eqb c d then r else String d r.
Proof. reflexivity. Qed.

Lemma after_last_slash (n d : string) :
  has_char "/" d = false -> after_last "/" (n ++ "/" ++ d) = d.
Proof.
  intros Hd; induction n as [|x n IH].
  - change ("" ++ "/" ++ d) with (String "/" d).
    now rewrite after_last_cons, Hd.
  - cbn [append]; rewrite after_last_cons, has_char_app.
    change (has_char "/" ("/" ++ d)) with (Ascii.eqb "/" "/" || has_char "/" d).
    change (Ascii.eqb "/" "/") with true.
    now rewrite orb_true_r.
Qed.

Lemma decimal_isdigit (d : string) : digits d = true -> isdigit d = true.
Proof.
  unfold digits, isdigit; intros H; apply andb_true_iff in H as [Hn Hd].
  rewrite Hn; eapply all_chars_weaken; [|exact Hd].
  intros c Hc; unfold isdigit_char; now rewrite Hc.
Qed.

(** The second mode on a text whose last slash is followed by a run of
    digits and nothing else: the run goes to [int]. *)
Lemma serial_denominator_tail (s n d : string) :
  pipeline.norm_optional (VStr s) = s -> s <> "" ->
  replace_of (lower s) = n ++ "/" ++ d ->
  digits d = true ->
  pipeline.serial_denominator_only_no_slash (VStr s)
  = (k <- int d ;; Ok (str_of_N k)).
Proof.
  intros Hs Hne Hr Hd; unfold pipeline.serial_denominator_only_no_slash.
  rewrite Hs; destruct s as [|c s]; [congruence|]; cbn [is_empty].
  rewrite Hr.
  destruct (digits_inv d Hd) as [_ Hd'].
  assert (has_char "/" (n ++ "/" ++ d) = true) as ->.
  { rewrite has_char_app.
    change (has_char "/" ("/" ++ d)) with (Ascii.eqb "/" "/" || has_char "/" d).
    change (Ascii.eqb "/" "/") with true; now rewrite orb_true_r. }
  rewrite (after_last_slash n d (decimal_no_slash d Hd')).
  now rewrite (strip_nospace d (decimal_nospace d Hd')), (decimal_isdigit d Hd).
Qed.

Lemma norm_optional_digits (d : string) :
  digits d = true -> pipeline.norm_optional (VStr d) = d.
Proof.
  intros H; destruct (normalised_digits d H) as (s & E & Hs).
  now injection E as <-.
Qed.

(** The four plain shapes of a serial all hand the last run of digits to
    [int]. *)
Lemma serial_denominator_shapes (n d : string) :
  digits n = true -> digits d = true ->
  forall s, In s [n ++ "/" ++ d; "/" ++ d; n ++ "of" ++ d; d] ->
            pipeline.serial_denominator_only_no_slash (VStr s)
            = (k <- int d ;; Ok (str_of_N k)).
Proof.
  intros Hn Hd s Hin.
  destruct (digits_inv n Hn) as [Hne Hn'], (digits_inv d Hd) as [Hde Hd'].
  destruct Hin as [<- | [<- | [<- | [<- | []]]]].
  - apply (serial_denominator_tail _ n d); try assumption.
    + rewrite <- norm_optional_same; now apply norm_optional_digit_ends.
    + destruct n; [congruence | discriminate].
    + rewrite !lower_app, (lower_decimal n Hn'), (lower_decimal d Hd').
      apply replace_of_without_o.
      rewrite !all_chars_app, (decimal_not_o n Hn'), (decimal_not_o d Hd').
      reflexivity.
  - apply (serial_denominator_tail _ "" d); try assumption; try discriminate.
    + rewrite <- norm_optional_same; change ("/" ++ d) with (String "/" d).
      apply norm_optional_plain; try reflexivity.
      simpl; now apply decimal_nospace.
    + rewrite lower_app, (lower_decimal d Hd').
      apply replace_of_without_o; simpl; now apply decimal_not_o.
  - apply (serial_denominator_tail _ n d); try assumption.
    + rewrite <- norm_optional_same; now apply norm_optional_digit_ends.
    + destruct n; [congruence | discriminate].
    + rewrite !lower_app, (lower_decimal n Hn'), (lower_decimal d Hd').
      apply replace_of_glued; now apply decimal_not_o.
  - unfold pipeline.serial_denominator_only_no_slash.
    rewrite (norm_optional_digits d Hd).
    destruct d as [|c r] eqn:E; [congruence|]; cbn [is_empty]; rewrite <- E in *.
    rewrite (lower_decimal d Hd'), (replace_of_without_o d (decimal_not_o d Hd')).
    now rewrite (decimal_no_slash d Hd'), (decimal_isdigit d Hd).
Qed.

(** X7. The second serial mode keeps the denominator only: for "n/d",
    "/d", "n of d" glued as "nofd", and a bare "d", with [d] of at most
    4300 digits, it returns the decimal text of [d], a zero included,
    never the numerator; with a longer [d] it raises the ValueError of
    [int] that names the number of digits; for a value that is not a
    string it returns the empty string. *)
Theorem X7_print_run_mode_denominator (n d : string) :
  digits n = true -> digits d = true ->
  (String.length d <= 4300 ->
   forall s, In s [n ++ "/" ++ d; "/" ++ d; n ++ "of" ++ d; d] ->
             pipeline.serial_denominator_only_no_slash (VStr s)
             = Ok (str_of_N (digits_value d))) /\
  (4300 < String.length d ->
   forall s, In s [n ++ "/" ++ d; "/" ++ d; n ++ "of" ++ d; d] ->
             pipeline.serial_denominator_only_no_slash (VStr s)
             = Raise (ValueError (digit_limit_message (String.length d)))) /\
  (forall v, (forall s, v <> VStr s) ->
             pipeline.serial_denominator_only_no_slash v = Ok "").
Proof.
  intros Hn Hd; split; [|split].
  - intros Hl s Hs.
    now rewrite (serial_denominator_shapes n d Hn Hd s Hs), (int_within d Hd Hl).
  - intros Hl s Hs.
    now rewrite (serial_denominator_shapes n d Hn Hd s Hs), (int_beyond d Hd Hl).
  - intros v Hv; destruct v as [| [] | | | s | |]; try reflexivity.
    now elim (Hv s).
Qed.

Lemma X7_print_run_mode_witness :
  pipeline.serial_denominator_only_no_slash (VStr "012/099") = Ok "99" /\
  pipeline.serial_denominator_only_no_slash (VStr "5of0") = Ok "0" /\
  pipeline.serial_denominator_only_no_slash (VStr ("/" ++ repeat_char "0" 4301))
    = Raise (ValueError (digit_limit_message 4301)).
Proof.
  split; [|split].
  - apply (proj1 (X7_print_run_mode_denominator "012" "099" eq_refl eq_refl));
      simpl; [lia | tauto].
  - apply (proj1 (X7_print_run_mode_denominator "5" "0" eq_refl eq_refl));
      simpl; [lia | tauto].
  - apply (proj1 (proj2 (X7_print_run_mode_denominator
                           "1" (repeat_char "0" 4301) eq_refl
                           ltac:(vm_compute; reflexivity))));
      [vm_compute; lia | simpl; tauto].
Defined.

Lemma parse_from_search (s g1 g2 : string) :
  title_builder._norm_optional (VStr s) = s -> s <> "" ->
  search_fraction (sub_of_word false s) = Some (g1, g2) ->
  title_builder._parse_serial_for_ebay (VStr s) =
  (first <- int g1 ;; denom <- int g2 ;; Ok (fraction_form first denom)).
Proof.
  intros Hs Hne Hm; unfold title_builder._parse_serial_for_ebay.
  rewrite Hs; destruct s as [|c s]; [congruence|]; cbn [is_empty].
  rewrite Hm.
  destruct (int g1) as [nf|e]; [|reflexivity].
  destruct (int g2) as [nd|e]; [|reflexivity].
  cbn [bind]; apply parse_groups.
Qed.

(** X9. On a text with two slashes, "a/b/c", the two modes read different
    denominators: title mode formats the first fraction a/b (and fails as
    it does on "a/b"), the second mode returns what follows the last
    slash, c, when that has at most 4300 digits. *)
Theorem X9_two_slashes_two_denominators (a b c : string) :
  digits a = true -> digits b = true -> digits c = true ->
  title_builder._parse_serial_for_ebay (VStr (a ++ "/" ++ b ++ "/" ++ c))
    = title_builder._parse_serial_for_ebay (VStr (a ++ "/" ++ b)) /\
  (String.length c <= 4300 ->
   pipeline.serial_denominator_only_no_slash (VStr (a ++ "/" ++ b ++ "/" ++ c))
     = Ok (str_of_N (digits_value c))).
Proof.
  intros Ha Hb Hc.
  destruct (digits_inv a Ha) as [Hae Ha'], (digits_inv b Hb) as [Hbe Hb'],
           (digits_inv c Hc) as [Hce Hc'].
  assert (all_chars not_o (a ++ "/" ++ b ++ "/" ++ c) = true) as Ho.
  { rewrite !all_chars_app, (decimal_not_o a Ha'), (decimal_not_o b Hb'),
      (decimal_not_o c Hc'); reflexivity. }
  assert (title_builder._norm_optional (VStr (a ++ "/" ++ b ++ "/" ++ c))
          = a ++ "/" ++ b ++ "/" ++ c) as Hnorm.
  { assert ("/" ++ b ++ "/" ++ c = ("/" ++ b ++ "/") ++ c) as ->
      by (simpl; now rewrite append_assoc).
    now apply norm_optional_digit_ends. }
  assert (a ++ "/" ++ b ++ "/" ++ c <> "") as Hne by (destruct a; [congruence | discriminate]).
  split.
  - rewrite (parse_fraction a b Ha Hb).
    apply parse_from_search; try assumption.
    rewrite (sub_of_word_without_o _ Ho).
    destruct (digits_start a Ha) as (x & r & -> & Hx & Hr).
    cbn [append search_fraction]; unfold match_fraction.
    change (String x (r ++ String "/" (b ++ String "/" c)))
      with (String x r ++ String "/" (b ++ String "/" c)).
    rewrite span_digits_app by (try reflexivity; simpl; now rewrite Hx, Hr).
    cbn [is_empty lstrip]; change (isspace "/") with false; cbv iota.
    change (Ascii.eqb "/" "/") with true; cbv iota.
    assert (lstrip (b ++ String "/" c) = b ++ String "/" c) as ->.
    { destruct (digits_start b Hb) as (y & t & -> & Hy & _).
      cbn [append lstrip]; destruct (decimal_char y Hy) as (_ & -> & _); reflexivity. }
    rewrite (span_digits_app b (String "/" c) Hb') by reflexivity.
    destruct b; [congruence | reflexivity].
  - intros Hl.
    transitivity (k <- int c ;; Ok (str_of_N k));
      [|now rewrite (int_within c Hc Hl)].
    change (a ++ "/" ++ b ++ "/" ++ c) with (a ++ "/" ++ (b ++ "/" ++ c)).
    rewrite <- (append_assoc a "/" (b ++ "/" ++ c)), <- (append_assoc (a ++ "/") b).
    apply (serial_denominator_tail _ ((a ++ "/") ++ b) c); try assumption.
    + rewrite <- norm_optional_same, !append_assoc; exact Hnorm.
    + rewrite !append_assoc; exact Hne.
    + rewrite !append_assoc, !lower_app, (lower_decimal a Ha'),
        (lower_decimal b Hb'), (lower_decimal c Hc').
      now apply replace_of_without_o.
Qed.

Lemma X9_two_slashes_witness :
  title_builder._parse_serial_for_ebay (VStr "1/25/99")
    = title_builder._parse_serial_for_ebay (VStr "1/25") /\
  pipeline.serial_denominator_only_no_slash (VStr "1/25/99") = Ok "99".
Proof.
  destruct (X9_two_slashes_two_denominators "1" "25" "99" eq_refl eq_refl eq_refl)
    as [H1 H2].
  split; [exact H1 | apply H2; simpl; lia].
Defined.

Lemma isdigit_char_facts (c : ascii) :
  isdigit_char c = true ->
  lower_char c = c /\ isspace c = false /\ is_o c = false /\
  Ascii.eqb "/" c = false.
Proof.
  destruct c as [[] [] [] [] [] [] [] []]; vm_compute; intros H;
    try discriminate H; repeat split.
Qed.

Lemma isdigit_text (t : string) :
  all_chars isdigit_char t = true ->
  lower t = t /\ all_chars nospace t = true /\ all_chars not_o t = true /\
  has_char "/" t = false.
Proof.
  induction t as [|c t IH]; [repeat split|].
  cbn [all_chars lower]; rewrite has_char_cons.
  intros H; apply andb_true_iff in H as [Hc Ht].
  destruct (isdigit_char_facts c Hc) as (Hl & Hs & Ho & Hsl).
  destruct (IH Ht) as (IH1 & IH2 & IH3 & IH4).
  unfold nospace at 1, not_o at 1.
  now rewrite Hl, Hs, Ho, Hsl, IH1, IH2, IH3, IH4.
Qed.

Lemma result_cases {A : Type} (r : result A) :
  (exists a, r = Ok a) \/ (exists e, r = Raise e).
Proof. destruct r; eauto. Qed.

Lemma span_digits_whole (t : string) :
  snd (span_digits t) = "" -> all_chars isdecimal t = true.
Proof.
  induction t as [|c t IH]; [reflexivity|].
  cbn [span_digits all_chars]; destruct (isdecimal c); [|discriminate].
  destruct (span_digits t) as [d rest]; cbn [snd] in *; intros H; now apply IH.
Qed.

(** [int] on a text that has a character which is no decimal digit: it
    always raises, and unless the leading run of digits is over the cap
    the message shows the first 200 characters of the text's [repr]. *)
Lemma int_not_decimal (t : string) :
  all_chars isdecimal t = false ->
  (exists msg, int t = Raise (ValueError msg)) /\
  (String.length t <= 4300 ->
   int t = Raise (ValueError ("invalid literal for int() with base 10: "
                                ++ substring 0 200 (repr_str t)))).
Proof.
  intros Hnd; unfold int, INT_MAX_STR_DIGITS.
  pose proof (span_digits_parts t) as [_ Hlen].
  pose proof (span_digits_whole t) as Hw.
  destruct (span_digits t) as [d rest]; cbn [fst snd] in Hlen, Hw.
  assert (nonempty d && is_empty rest = false) as Hrest.
  { destruct rest; [rewrite Hw in Hnd by reflexivity; discriminate|].
    apply andb_false_r. }
  rewrite Hrest; split.
  - destruct (4300 <? String.length d)%nat; eauto.
  - intros Hl; destruct (Nat.ltb_spec 4300 (String.length d)); [lia | reflexivity].
Qed.

(** X10. A denominator that [isdigit] accepts and [int] rejects (one with a
    superscript digit) makes the second mode raise a ValueError, and the
    item-specifics pipeline then fails for every configuration: it cannot
    return.  For a denominator of at most 4300 characters the message is
    "invalid literal for int() with base 10: " and the first 200
    characters of the denominator's [repr]. *)
Theorem X10_superscript_denominator_raises
    (n t : string) (card globals_defaults enforced : dict value) :
  all_chars isdecimal n = true ->
  isdigit t = true -> all_chars isdecimal t = false ->
  (exists msg,
     pipeline.serial_denominator_only_no_slash (VStr (n ++ "/" ++ t))
     = Raise (ValueError msg)) /\
  (String.length t <= 4300 ->
   pipeline.serial_denominator_only_no_slash (VStr (n ++ "/" ++ t))
   = Raise (ValueError ("invalid literal for int() with base 10: "
                          ++ substring 0 200 (repr_str t)))) /\
  (get card "serial_number" = VStr (n ++ "/" ++ t) ->
   exists e, pipeline.build_item_specifics card globals_defaults enforced = Raise e).
Proof.
  intros Hn Hd Hnd.
  assert (pipeline.serial_denominator_only_no_slash (VStr (n ++ "/" ++ t))
          = (k <- int t ;; Ok (str_of_N k))) as Hserial.
  { pose proof Hd as Hd'; unfold isdigit in Hd'.
    apply andb_true_iff in Hd' as [_ Hall].
    destruct (isdigit_text t Hall) as (Hl & Hs & Ho & Hsl).
    assert (all_chars nospace (n ++ "/" ++ t) = true) as Hsp
      by (rewrite !all_chars_app, (decimal_nospace n Hn), Hs; reflexivity).
    unfold pipeline.serial_denominator_only_no_slash.
    assert (pipeline.norm_optional (VStr (n ++ "/" ++ t)) = n ++ "/" ++ t) as ->.
    { rewrite <- norm_optional_same; destruct n as [|c n].
      - now apply (norm_optional_plain "/" t).
      - pose proof Hn as Hn'; simpl in Hn'; apply andb_true_iff in Hn' as [Hc _].
        destruct (decimal_char c Hc) as (Hlc & _ & _ & Hf & Hnn & _).
        now apply (norm_optional_plain c (n ++ "/" ++ t)). }
    assert (is_empty (n ++ "/" ++ t) = false) as -> by (now destruct n).
    rewrite !lower_app, (lower_decimal n Hn), Hl.
    change (lower "/") with "/".
    rewrite replace_of_without_o
      by (rewrite !all_chars_app, (decimal_not_o n Hn), Ho; reflexivity).
    assert (has_char "/" (n ++ "/" ++ t) = true) as ->.
    { rewrite has_char_app.
      change (has_char "/" ("/" ++ t)) with (Ascii.eqb "/" "/" || has_char "/" t).
      change (Ascii.eqb "/" "/") with true; now rewrite orb_true_r. }
    now rewrite (after_last_slash n t Hsl), (strip_nospace t Hs), Hd. }
  destruct (int_not_decimal t Hnd) as [[msg Hmsg] Hshort].
  assert (pipeline.serial_denominator_only_no_slash (VStr (n ++ "/" ++ t))
          = Raise (ValueError msg)) as Hraise by (now rewrite Hserial, Hmsg).
  split; [eauto|]; split.
  - intros Hl; now rewrite Hserial, (Hshort Hl).
  - intros Hcard.
    destruct (result_cases (pipeline.build_item_specifics card globals_defaults enforced))
      as [[item H] | H]; [|exact H].
    unfold pipeline.build_item_specifics in H; inv_bind H.
    unfold pipeline.finish_item in H; inv_bind H; inv_bind H; inv_bind H.
    unfold pipeline.print_run_layer in Hit2; rewrite Hcard, Hraise in Hit2.
    discriminate Hit2.
Qed.

Lemma X10_superscript_witness :
  (exists e, pipeline.build_item_specifics card_superscript [] [] = Raise e) /\
  pipeline.serial_denominator_only_no_slash
    (VStr ("1/" ++ repeat_char (ascii_of_N 178) 250))
  = Raise (ValueError ("invalid literal for int() with base 10: '"
                         ++ repeat_char (ascii_of_N 178) 199)).
Proof.
  split.
  - exact (proj2 (proj2 (X10_superscript_denominator_raises
                           "1" (String (ascii_of_N 178) "") card_superscript [] []
                           eq_refl eq_refl eq_refl)) eq_refl).
  - apply (proj1 (proj2 (X10_superscript_denominator_raises
                           "1" (repeat_char (ascii_of_N 178) 250) [] [] []
                           eq_refl eq_refl eq_refl))).
    vm_compute; lia.
Defined.

(* ================================================================== *)
(** ** [strip_hash] and [get_player_name] *)
(* ================================================================== *)

Lemma rstrip_empty (s : string) : rstrip s = "" -> all_chars isspace s = true.
Proof.
  induction s as [|c r IH]; simpl; [reflexivity|].
  destruct (isspace c); simpl.
  - destruct (rstrip r) eqn:E; simpl; [intros _; now apply IH | discriminate].
  - discriminate.
Qed.

Lemma strip_commutes (s : string) : lstrip (rstrip s) = rstrip (lstrip s).
Proof.
  induction s as [|c r IH]; [reflexivity|]; simpl.
  destruct (isspace c) eqn:Hc; simpl.
  - destruct (rstrip r) eqn:E; simpl.
    + now rewrite (lstrip_spaces r (rstrip_empty r E)).
    + rewrite Hc; exact IH.
  - now rewrite Hc.
Qed.

Lemma strip_rstrip (s : string) : strip (rstrip s) = strip s.
Proof. unfold strip; now rewrite strip_commutes, rstrip_idem. Qed.

Lemma substring_all (s : string) : substring 0 (String.length s) s = s.
Proof. induction s as [|c s IH]; simpl; [reflexivity | now rewrite IH]. Qed.

Lemma strip_hash_hash (s : string) : pipeline.strip_hash (String "#" s) = strip s.
Proof.
  assert (strip (String "#" s) = String "#" (rstrip s)) as E by reflexivity.
  unfold pipeline.strip_hash; rewrite E.
  cbn [prefix]; destruct (ascii_dec "#" "#") as [_ | N]; [|congruence].
  rewrite prefix_empty.
  cbn [String.length]; rewrite Nat.sub_1_r; cbn [Nat.pred substring].
  rewrite substring_all; apply strip_rstrip.
Qed.

(** X11. [strip_hash] trims, and removes one leading hash together with
    the blanks after it: "#s" gives the trimmed [s], a text without a
    leading hash is just trimmed, and the result is always trimmed. *)
Theorem X11_strip_hash (s : string) :
  pipeline.strip_hash (String "#" s) = strip s /\
  (prefix "#" (strip s) = false -> pipeline.strip_hash s = strip s) /\
  strip (pipeline.strip_hash s) = pipeline.strip_hash s.
Proof.
  split; [apply strip_hash_hash|]; split.
  - intros H; unfold pipeline.strip_hash; now rewrite H.
  - unfold pipeline.strip_hash; destruct (prefix "#" (strip s)); apply strip_idem.
Qed.

Lemma X11_strip_hash_witness :
  pipeline.strip_hash " 15 " = "15" /\ pipeline.strip_hash "## 7" = "# 7".
Proof.
  split.
  - apply (proj1 (proj2 (X11_strip_hash " 15 "))); reflexivity.
  - apply (proj1 (X11_strip_hash "# 7")).
Defined.

Lemma string_valued_get (d : dict value) (k : string) :
  string_valued d -> get d k = VNone \/ exists s, get d k = VStr s.
Proof.
  intros H; unfold get, get_or.
  destruct (dget d k) as [v|] eqn:E; [right | now left].
  apply dget_In in E; destruct (H k v E) as [s ->]; eauto.
Qed.

Lemma string_valued_por (d : dict value) (k1 k2 : string) :
  string_valued d ->
  exists s, por (por (get d k1) (get d k2)) (VStr "") = VStr s.
Proof.
  intros H.
  destruct (string_valued_get d k1 H) as [-> | [s1 ->]],
           (string_valued_get d k2 H) as [-> | [s2 ->]];
    unfold por; cbn [truthy];
    repeat (match goal with
            | |- context [nonempty ?x] => destruct (nonempty x) eqn:?
            end; cbn [truthy]);
    try match goal with H : ?b = _ |- context [if ?b then _ else _] => rewrite H end;
    eauto.
Qed.

Lemma get_player_name_strings (card : dict value) :
  string_valued card -> exists n, pipeline.get_player_name card = Ok n.
Proof.
  intros H; unfold pipeline.get_player_name.
  destruct (string_valued_por card "player_first" "player_first_name" H) as [f ->].
  destruct (string_valued_por card "player_last" "player_last_name" H) as [l ->].
  simpl; eauto.
Qed.

(** X12. [get_player_name] returns a trimmed name whenever it returns, and
    it does return for a card whose values are all strings (absent keys
    included): the first name, a blank and the last name, each trimmed,
    the whole trimmed again. *)
Theorem X12_player_name_trimmed (card : dict value) :
  (forall n, pipeline.get_player_name card = Ok n -> strip n = n) /\
  (string_valued card -> exists n, pipeline.get_player_name card = Ok n) /\
  (forall f l,
     get card "player_first" = VStr f -> f <> "" ->
     get card "player_last" = VStr l -> l <> "" ->
     pipeline.get_player_name card = Ok (strip (strip f ++ " " ++ strip l))).
Proof.
  split; [|split].
  - intros n H; unfold pipeline.get_player_name in H.
    inv_bind H; inv_bind H; inv_ok H; apply strip_idem.
  - apply get_player_name_strings.
  - intros f l Hf Hfe Hl Hle; unfold pipeline.get_player_name.
    rewrite Hf, Hl; unfold por; simpl.
    apply nonempty_true in Hfe, Hle; rewrite Hfe, Hle; simpl.
    now rewrite Hfe, Hle.
Qed.

Lemma X12_player_name_witness :
  pipeline.get_player_name
    [("player_first", VStr " Jane "); ("player_last", VStr "Doe ")] = Ok "Jane Doe".
Proof.
  apply (proj2 (proj2 (X12_player_name_trimmed
                         [("player_first", VStr " Jane "); ("player_last", VStr "Doe ")]))
           " Jane " "Doe ");
    first [reflexivity | discriminate].
Defined.

(** X13. A name field holding a non-empty value that is not a string (a
    number, a list) has no [strip]: [get_player_name] raises
    AttributeError, and so does the whole pipeline when the card gives no
    player_athlete to use instead. *)
Theorem X13_non_string_name_raises
    (card globals_defaults enforced : dict value) (v : value) :
  get card "player_first" = v -> truthy v = true -> (forall s, v <> VStr s) ->
  pipeline.get_player_name card = Raise AttributeError /\
  (truthy (get card "player_athlete") = false ->
   truthy (get card "Player/Athlete") = false ->
   pipeline.build_item_specifics card globals_defaults enforced = Raise AttributeError).
Proof.
  intros Hv Ht Hs.
  assert (pipeline.get_player_name card = Raise AttributeError) as Hname.
  { unfold pipeline.get_player_name; rewrite Hv; unfold por at 2; rewrite Ht.
    unfold por; rewrite Ht.
    destruct v as [| | | | s | |]; try reflexivity; now elim (Hs s). }
  split; [exact Hname|]; intros Ha Hb.
  unfold pipeline.build_item_specifics, pipeline.derived_item, pipeline.direct_layer,
    pipeline.direct_map.
  unfold por at 1; rewrite Ha, Hb, Hname; reflexivity.
Qed.

Lemma X13_non_string_name_witness :
  pipeline.build_item_specifics card_number_name [] [] = Raise AttributeError.
Proof.
  apply (proj2 (X13_non_string_name_raises card_number_name [] [] (VInt 23)
                  eq_refl eq_refl ltac:(discriminate)));
    reflexivity.
Defined.

(* ================================================================== *)
(** ** More on the layers of the pipeline *)
(* ================================================================== *)

Lemma finish_item_steps (card enforced item3 item : dict value) :
  pipeline.finish_item card enforced item3 = Ok item ->
  exists i4 i5 i8,
    pipeline.conditional_layer enforced item3 = Ok i4 /\
    pipeline.autograph_layer card enforced i4 = Ok i5 /\
    pipeline.print_run_layer card
      (pipeline.features_layer enforced (pipeline.parallel_layer enforced i5)) = Ok i8 /\
    item = pipeline.insert_set_layer card i8.
Proof.
  unfold pipeline.finish_item; intros H; inv_bind H; inv_bind H; inv_bind H.
  inv_ok H; eauto 10.
Qed.

Lemma parallel_layer_other (enforced item : dict value) (k : string) :
  k <> "Parallel/Variety" ->
  dget (pipeline.parallel_layer enforced item) k = dget item k.
Proof.
  intros Hk; unfold pipeline.parallel_layer.
  destruct (get_or enforced "parallel_variety_rules" (VDict [])); try reflexivity.
  destruct (negb _); [now apply dget_dset_other | reflexivity].
Qed.

Lemma features_layer_other (enforced item : dict value) (k : string) :
  k <> "Features" ->
  dget (pipeline.features_layer enforced item) k = dget item k.
Proof.
  intros Hk; unfold pipeline.features_layer.
  destruct (get_or enforced "features_rules" (VDict [])); try reflexivity.
  destruct (negb _); [now apply dget_dset_other | reflexivity].
Qed.

Lemma print_run_layer_other (card item item' : dict value) (k : string) :
  pipeline.print_run_layer card item = Ok item' ->
  k <> "Print Run" -> dget item' k = dget item k.
Proof.
  unfold pipeline.print_run_layer; intros H Hk; inv_bind H; inv_ok H.
  destruct (nonempty it); [now apply dget_dset_other | reflexivity].
Qed.

Lemma late_write_keys (card enforced : dict value) (k : string) (v : value) :
  late_write card enforced k v ->
  In k [ "Signed By"; "Autograph Authentication"; "Parallel/Variety"; "Features";
         "Autograph Authentication Number"; "Autograph Format"; "Print Run";
         "Insert Set" ].
Proof.
  unfold late_write; simpl.
  intros [[-> _] | [[-> _] | [[-> _] | [-> | [H _]]]]]; tauto.
Qed.

Lemma conditional_write_keys (k : string) (v : value) :
  conditional_write k v ->
  In k ["California Prop 65 Warning"; "League"; "Event/Tournament"; "Card Thickness"].
Proof. now intros [H _]. Qed.

(** X14. Insert Set is a passthrough that wins over every other layer:
    when the card has a normalised insert_set (or else insert), the
    returned "Insert Set" is that text. *)
Theorem X14_insert_set_passthrough
    (card globals_defaults enforced item : dict value) (ins : string) :
  pipeline.norm_optional (por (get card "insert_set") (get card "insert")) = ins ->
  ins <> "" ->
  pipeline.build_item_specifics card globals_defaults enforced = Ok item ->
  dget item "Insert Set" = Some (VStr ins).
Proof.
  intros Hins Hne H; unfold pipeline.build_item_specifics in H; inv_bind H.
  apply finish_item_steps in H as (i4 & i5 & i8 & _ & _ & _ & ->).
  unfold pipeline.insert_set_layer; rewrite Hins.
  apply nonempty_true in Hne; rewrite Hne; apply dget_dset_same.
Qed.

Lemma X14_insert_set_witness :
  exists item,
    pipeline.build_item_specifics card_insert [("Insert Set", VStr "Base")] []
      = Ok item /\
    dget item "Insert Set" = Some (VStr "Future Stars").
Proof.
  eexists; split; [vm_compute; reflexivity|].
  apply (X14_insert_set_passthrough card_insert [("Insert Set", VStr "Base")] []
           _ "Future Stars");
    [reflexivity | discriminate | reflexivity].
Defined.

(** X15. The Prop 65 blank is explicit and final: when conditional_aspects
    names "California Prop 65 Warning", the returned field is the empty
    string whatever the card or the defaults say. *)
Theorem X15_prop65_is_blank
    (card globals_defaults enforced ca item : dict value) :
  dget enforced "conditional_aspects" = Some (VDict ca) ->
  dmem ca "California Prop 65 Warning" = true ->
  pipeline.build_item_specifics card globals_defaults enforced = Ok item ->
  dget item "California Prop 65 Warning" = Some (VStr "").
Proof.
  intros Hca Hmem H.
  apply build_item_specifics_inv in H as (i3 & i4 & _ & _ & H4 & Hlate).
  rewrite (writes_frame _ _ _ "California Prop 65 Warning" Hlate)
    by (intros v Hv; apply late_write_keys in Hv; simpl in Hv;
        intuition discriminate).
  unfold pipeline.conditional_layer, get_or in H4; rewrite Hca in H4.
  cbv zeta in H4; inv_bind H4; inv_bind H4; inv_bind H4.
  apply sport_mapping_writes in Hit0, Hit1; apply card_thickness_writes in H4.
  rewrite (writes_frame _ _ _ "California Prop 65 Warning" H4)
    by (intros v [Hk _]; discriminate Hk).
  rewrite (writes_frame _ _ _ "California Prop 65 Warning" Hit1)
    by (intros v [Hk _]; discriminate Hk).
  rewrite (writes_frame _ _ _ "California Prop 65 Warning" Hit0)
    by (intros v [Hk _]; discriminate Hk).
  unfold pipeline.prop65_blank; rewrite Hmem; apply dget_dset_same.
Qed.

Lemma X15_prop65_witness :
  exists item,
    pipeline.build_item_specifics
      [("California Prop 65 Warning", VStr "Contains lead")] []
      [("conditional_aspects", VDict [("California Prop 65 Warning", VDict [])])]
      = Ok item /\
    dget item "California Prop 65 Warning" = Some (VStr "").
Proof.
  eexists; split; [vm_compute; reflexivity|].
  apply (X15_prop65_is_blank
           [("California Prop 65 Warning", VStr "Contains lead")] []
           [("conditional_aspects", VDict [("California Prop 65 Warning", VDict [])])]
           [("California Prop 65 Warning", VDict [])] _);
    reflexivity.
Defined.

(** X16. The fallback defaults leave no gap.  When the parallel rules
    configure no default, the returned "Parallel/Variety" is present and
    not empty to the normaliser (the card's value, or "[Base]"); when the
    features rules configure no default, the returned "Features" is
    present and not empty (the card's, or the list with "Base Set"). *)
Theorem X16_fallback_defaults
    (card globals_defaults enforced item : dict value) :
  pipeline.build_item_specifics card globals_defaults enforced = Ok item ->
  (forall pvr,
     get_or enforced "parallel_variety_rules" (VDict []) = VDict pvr ->
     dget pvr "default" = None ->
     exists v, dget item "Parallel/Variety" = Some v /\
               pipeline.norm_optional v <> "") /\
  (forall fr,
     get_or enforced "features_rules" (VDict []) = VDict fr ->
     dget fr "default_if_none_detected" = None ->
     exists v, dget item "Features" = Some v /\ truthy v = true).
Proof.
  intros H; unfold pipeline.build_item_specifics in H; inv_bind H.
  apply finish_item_steps in H as (i4 & i5 & i8 & _ & _ & H8 & ->).
  split.
  - intros pvr Hp Hd.
    rewrite insert_set_layer_other by discriminate.
    rewrite (print_run_layer_other _ _ _ "Parallel/Variety" H8) by discriminate.
    rewrite features_layer_other by discriminate.
    unfold pipeline.parallel_layer; rewrite Hp.
    destruct (nonempty (pipeline.norm_optional (get i5 "Parallel/Variety"))) eqn:E;
      cbn [negb].
    + unfold get, get_or in E.
      destruct (dget i5 "Parallel/Variety") as [v|]; [|discriminate E].
      exists v; split; [reflexivity | now apply nonempty_true].
    + unfold get_or; rewrite Hd, dget_dset_same.
      eexists; split; [reflexivity | discriminate].
  - intros fr Hf Hd.
    rewrite insert_set_layer_other by discriminate.
    rewrite (print_run_layer_other _ _ _ "Features" H8) by discriminate.
    unfold pipeline.features_layer; rewrite Hf.
    destruct (truthy (get (pipeline.parallel_layer enforced i5) "Features")) eqn:E;
      cbn [negb].
    + unfold get, get_or in E.
      destruct (dget (pipeline.parallel_layer enforced i5) "Features") as [v|];
        [|discriminate E].
      exists v; split; [reflexivity | exact E].
    + unfold get_or; rewrite Hd, dget_dset_same.
      eexists; split; reflexivity.
Qed.

Lemma X16_fallback_defaults_witness :
  exists item,
    pipeline.build_item_specifics card_plain [] [] = Ok item /\
    dget item "Parallel/Variety" = Some (VStr "[Base]") /\
    (exists v, dget item "Features" = Some v /\ truthy v = true).
Proof.
  eexists; split; [vm_compute; reflexivity|]; split; [reflexivity|].
  apply (proj2 (X16_fallback_defaults card_plain [] [] _ eq_refl) []); reflexivity.
Defined.

Lemma direct_step_key (item : dict value) (entry : string * value) :
  writes (fun k _ => k = fst entry) item (pipeline.direct_step item entry).
Proof.
  destruct entry as [aspect raw]; unfold pipeline.direct_step.
  destruct (String.eqb aspect "Features").
  - destruct raw as [| | | | s | [|x l] |]; try apply writes_refl.
    + destruct (nonempty (strip s)); [|apply writes_refl]; now apply writes_dset.
    + now apply writes_dset.
  - destruct (nonempty _); [|apply writes_refl]; now apply writes_dset.
Qed.

Lemma direct_fold_keys (dm : dict value) :
  forall item, writes (fun k _ => In k (map fst dm)) item
                      (fold_left pipeline.direct_step dm item).
Proof.
  induction dm as [|x dm IH]; intros item; [apply writes_refl|].
  simpl; eapply writes_trans.
  - eapply writes_weaken; [|apply direct_step_key].
    intros k v Hk; simpl in Hk; subst k; now left.
  - eapply writes_weaken; [|apply IH].
    intros k v Hk; simpl in Hk; now right.
Qed.

Lemma direct_map_keys (card dm : dict value) :
  pipeline.direct_map card = Ok dm -> map fst dm = direct_fields.
Proof.
  unfold pipeline.direct_map; intros H; inv_bind H; inv_ok H; reflexivity.
Qed.

Lemma direct_layer_keys (card item item' : dict value) :
  pipeline.direct_layer card item = Ok item' ->
  writes (fun k _ => In k direct_fields) item item'.
Proof.
  unfold pipeline.direct_layer; intros H; inv_bind H; inv_ok H.
  rewrite <- (direct_map_keys _ _ Hit); apply direct_fold_keys.
Qed.

Lemma dget_absent {A : Type} (d : dict A) (k : string) :
  ~ In k (map fst d) -> dget d k = None.
Proof.
  induction d as [|[k' v] d IH]; simpl; [reflexivity|]; intros H.
  destruct (String.eqb_spec k' k) as [-> | _]; [tauto | apply IH; tauto].
Qed.

Lemma copy_items_lookup (src : dict value) :
  NoDup (map fst src) ->
  forall item k,
    dget (pipeline.copy_items src item) k =
    match dget src k with Some v => Some v | None => dget item k end.
Proof.
  induction src as [|[k1 v1] src IH]; intros Hnd item k; [reflexivity|].
  inversion Hnd as [|? ? Hnotin Hnd']; subst.
  change (pipeline.copy_items ((k1, v1) :: src) item)
    with (pipeline.copy_items src (dset item k1 v1)).
  rewrite (IH Hnd'); cbn [dget].
  destruct (String.eqb_spec k1 k) as [-> | Hne].
  - now rewrite (dget_absent src k Hnotin), dget_dset_same.
  - destruct (dget src k); [reflexivity | apply dget_dset_other; congruence].
Qed.

(** X17. A global default under a name the engine does not know (none of
    the 25 direct fields, and no target of a derive_and_enforce rule)
    reaches the result untouched. *)
Theorem X17_foreign_defaults_untouched
    (card globals_defaults enforced item : dict value) (k : string) :
  NoDup (map fst globals_defaults) ->
  ~ In k direct_fields -> ~ derive_target enforced k ->
  pipeline.build_item_specifics card globals_defaults enforced = Ok item ->
  dget item k = dget globals_defaults k.
Proof.
  intros Hnd Hk Hd H.
  assert (dget (pipeline.globals_layer globals_defaults) k = dget globals_defaults k)
    as <-.
  { unfold pipeline.globals_layer; rewrite (copy_items_lookup _ Hnd).
    now destruct (dget globals_defaults k). }
  apply build_item_specifics_inv in H as (i3 & i4 & H3 & _ & H4 & Hlate).
  apply conditional_layer_writes in H4.
  rewrite (writes_frame _ _ _ k Hlate)
    by (intros v Hv; apply late_write_keys in Hv; apply Hk;
        unfold direct_fields; simpl in *; intuition (subst; tauto)).
  rewrite (writes_frame _ _ _ k H4)
    by (intros v Hv; apply conditional_write_keys in Hv; apply Hk;
        unfold direct_fields; simpl in *; intuition (subst; tauto)).
  unfold pipeline.derived_item in H3; inv_bind H3.
  apply derive_layer_writes in H3; apply direct_layer_keys in Hit.
  rewrite (writes_frame _ _ _ k H3) by (intros v Hv; now apply Hd).
  apply (writes_frame _ _ _ k Hit); intros v Hv; now apply Hk.
Qed.

Lemma X17_foreign_defaults_witness :
  exists item,
    pipeline.build_item_specifics card_plain globals_sample [] = Ok item /\
    dget item "Vintage" = Some (VBool false).
Proof.
  eexists; split; [vm_compute; reflexivity|].
  apply (X17_foreign_defaults_untouched card_plain globals_sample [] _ "Vintage").
  - repeat (constructor; [simpl; intuition discriminate|]); constructor.
  - unfold direct_fields; simpl; intuition discriminate.
  - intros (dae & E & Hin); vm_compute in E; injection E as <-; exact Hin.
  - reflexivity.
Defined.

(* ================================================================== *)
(** ** Sport rules, and when the pipeline returns *)
(* ================================================================== *)

Lemma apply_rules_skip (sport k : string) (item : dict value)
    (pre rest : list value) :
  Forall (rule_passes sport) pre ->
  pipeline.apply_rules (pre ++ rest) sport k item
  = pipeline.apply_rules rest sport k item.
Proof.
  induction pre as [|r pre IH]; intros H; [reflexivity|].
  inversion H as [|? ? (rd & -> & Hm) Hpre]; subst.
  cbn [app pipeline.apply_rules].
  destruct (get_or rd "when" (VDict [])); try (now apply IH).
  rewrite Hm; now apply IH.
Qed.

(** X18. A League or Event rule list is scanned in order and the first
    rule whose when.Sport equals the sport decides: the rules after it are
    not even looked at, an entry that is not a dict raises AttributeError
    if the scan reaches it, and with no matching rule the item is
    unchanged. *)
Theorem X18_first_matching_rule_decides
    (sport k : string) (item : dict value) (pre : list value) :
  Forall (rule_passes sport) pre ->
  pipeline.apply_rules pre sport k item = Ok item /\
  (forall rd w rest,
     get_or rd "when" (VDict []) = VDict w ->
     eq_str (get w "Sport") sport = true ->
     pipeline.apply_rules (pre ++ VDict rd :: rest) sport k item =
     Ok (if nonempty (pipeline.norm_optional (get rd "value"))
         then dset item k (VStr (pipeline.norm_optional (get rd "value")))
         else item)) /\
  (forall x rest,
     (forall d, x <> VDict d) ->
     pipeline.apply_rules (pre ++ x :: rest) sport k item = Raise AttributeError).
Proof.
  intros Hpre; split; [|split].
  - rewrite <- (app_nil_r pre), (apply_rules_skip _ _ _ _ _ Hpre); reflexivity.
  - intros rd w rest Hw Hs; rewrite (apply_rules_skip _ _ _ _ _ Hpre).
    cbn [pipeline.apply_rules]; now rewrite Hw, Hs.
  - intros x rest Hx; rewrite (apply_rules_skip _ _ _ _ _ Hpre).
    destruct x; try reflexivity; now elim (Hx d).
Qed.

Lemma X18_first_matching_rule_witness :
  pipeline.apply_rules
    [ VDict [("when", VDict [("Sport", VStr "Baseball")]); ("value", VStr "MLB")];
      VDict [("when", VDict [("Sport", VStr "Basketball")]); ("value", VStr " NBA ")];
      VInt 7 ]
    "Basketball" "League" []
  = Ok [("League", VStr "NBA")].
Proof.
  apply (proj1 (proj2 (X18_first_matching_rule_decides "Basketball" "League" []
           [ VDict [("when", VDict [("Sport", VStr "Baseball")]); ("value", VStr "MLB")] ]
           ltac:(repeat constructor; eexists; split; reflexivity)))
           [("when", VDict [("Sport", VStr "Basketball")]); ("value", VStr " NBA ")]
           [("Sport", VStr "Basketball")] [VInt 7]);
    reflexivity.
Defined.

Lemma direct_map_strings (card : dict value) :
  string_valued card -> exists dm, pipeline.direct_map card = Ok dm.
Proof.
  intros H; unfold pipeline.direct_map.
  destruct (truthy (por (get card "player_athlete") (get card "Player/Athlete")));
    [simpl; eauto|].
  destruct (get_player_name_strings card H) as [n ->]; simpl; eauto.
Qed.

Lemma direct_layer_sport (card globals_defaults item : dict value) :
  string_valued globals_defaults ->
  pipeline.direct_layer card (pipeline.globals_layer globals_defaults) = Ok item ->
  exists s, por (get item "Sport") (VStr "") = VStr s.
Proof.
  intros Hg H; apply direct_layer_writes in H.
  unfold get, get_or.
  destruct (H "Sport") as [E | (v & E & [Hk | (s & -> & _)])]; rewrite E.
  - destruct (dget (pipeline.globals_layer globals_defaults) "Sport") as [v|] eqn:Ev;
      [|unfold por; simpl; eauto].
    apply globals_layer_source in Ev; destruct (Hg _ _ Ev) as [s ->].
    unfold por; simpl; destruct (nonempty s); eauto.
  - discriminate Hk.
  - unfold por; simpl; destruct (nonempty s); eauto.
Qed.

(** Without derive, conditional and autograph sections, layers 3 to 5 pass
    a well-typed item through. *)
Lemma plain_rules_prefix (card globals_defaults enforced : dict value) :
  string_valued card -> string_valued globals_defaults ->
  dget enforced "derive_and_enforce" = None ->
  dget enforced "conditional_aspects" = None ->
  dget enforced "autograph_rules" = None ->
  exists item,
    pipeline.derived_item card globals_defaults enforced = Ok item /\
    pipeline.conditional_layer enforced item = Ok item /\
    pipeline.autograph_layer card enforced item = Ok item.
Proof.
  intros Hc Hg Hd Hca Har.
  destruct (direct_map_strings card Hc) as [dm Hdm].
  assert (exists item,
            pipeline.direct_layer card (pipeline.globals_layer globals_defaults)
            = Ok item) as [item Hitem]
    by (unfold pipeline.direct_layer; rewrite Hdm; simpl; eauto).
  exists item; split; [|split].
  - unfold pipeline.derived_item; rewrite Hitem; simpl.
    unfold pipeline.derive_layer, get_or; now rewrite Hd.
  - destruct (direct_layer_sport _ _ _ Hg Hitem) as [s Hs].
    unfold pipeline.conditional_layer, get_or at 1; rewrite Hca, Hs; reflexivity.
  - unfold pipeline.autograph_layer, get_or; rewrite Har; reflexivity.
Qed.

(** X19. For a card and global defaults whose values are all strings, and
    rules without derive, conditional and autograph sections, the pipeline
    returns exactly when the Print-Run derivation does; the only failure
    left is the serial that [int] cannot read, and it is raised as it is. *)
Theorem X19_well_typed_card_returns (card globals_defaults enforced : dict value) :
  string_valued card -> string_valued globals_defaults ->
  dget enforced "derive_and_enforce" = None ->
  dget enforced "conditional_aspects" = None ->
  dget enforced "autograph_rules" = None ->
  (forall denom,
     pipeline.serial_denominator_only_no_slash (get card "serial_number") = Ok denom ->
     exists item, pipeline.build_item_specifics card globals_defaults enforced = Ok item)
  /\
  (forall e,
     pipeline.serial_denominator_only_no_slash (get card "serial_number") = Raise e ->
     pipeline.build_item_specifics card globals_defaults enforced = Raise e).
Proof.
  intros Hc Hg Hd Hca Har.
  destruct (plain_rules_prefix card globals_defaults enforced Hc Hg Hd Hca Har)
    as (item & H3 & H4 & H5).
  unfold pipeline.build_item_specifics, pipeline.finish_item.
  rewrite H3; cbn [bind]; rewrite H4; cbn [bind]; rewrite H5; cbn [bind].
  unfold pipeline.print_run_layer.
  split; intros x Hx; rewrite Hx; simpl; eauto.
Qed.

Lemma string_valued_sample (d : dict value) :
  forallb (fun kv => match snd kv with VStr _ => true | _ => false end) d = true ->
  string_valued d.
Proof.
  intros H k v Hin; rewrite forallb_forall in H; specialize (H _ Hin); simpl in H.
  destruct v; try discriminate H; eauto.
Qed.

Lemma X19_well_typed_card_witness :
  (exists item, pipeline.build_item_specifics card_plain [] [] = Ok item) /\
  (exists msg,
     pipeline.build_item_specifics card_superscript [] [] = Raise (ValueError msg)).
Proof.
  split.
  - apply (proj1 (X19_well_typed_card_returns card_plain [] []
                    (string_valued_sample card_plain eq_refl)
                    (string_valued_sample [] eq_refl)
                    eq_refl eq_refl eq_refl) "");
      reflexivity.
  - eexists.
    apply (proj2 (X19_well_typed_card_returns card_superscript [] []
                    (string_valued_sample card_superscript eq_refl)
                    (string_valued_sample [] eq_refl)
                    eq_refl eq_refl eq_refl));
      vm_compute; reflexivity.
Defined.

(* ================================================================== *)
(** ** The "Yes" branch of the autograph layer *)
(* ================================================================== *)

Lemma direct_fold_lookup (dm : dict value) (k : string) (raw : value) :
  NoDup (map fst dm) -> In (k, raw) dm -> k <> "Features" ->
  nonempty (pipeline.norm_optional raw) = true ->
  forall item,
    dget (fold_left pipeline.direct_step dm item) k
    = Some (VStr (pipeline.norm_optional raw)).
Proof.
  intros Hnd Hin Hk Hne; induction dm as [|[k1 r1] dm IH]; intros item;
    [contradiction|].
  inversion Hnd as [|? ? Hnotin Hnd']; subst.
  cbn [fold_left]; destruct Hin as [E | Hin].
  - injection E as -> ->.
    rewrite (writes_frame _ _ _ k (direct_fold_keys dm _))
      by (intros _; exact Hnotin).
    unfold pipeline.direct_step.
    apply String.eqb_neq in Hk; rewrite Hk, Hne; apply dget_dset_same.
  - now apply IH.
Qed.

Lemma direct_fields_nodup : NoDup direct_fields.
Proof.
  unfold direct_fields.
  repeat (constructor; [simpl; intuition discriminate|]); constructor.
Qed.

Lemma direct_layer_autographed (card item item' : dict value) :
  pipeline.direct_layer card item = Ok item' ->
  nonempty (pipeline.norm_optional
              (por (get card "Autographed") (get card "autographed"))) = true ->
  dget item' "Autographed"
  = Some (VStr (pipeline.norm_optional
                  (por (get card "Autographed") (get card "autographed")))).
Proof.
  unfold pipeline.direct_layer; intros H Hne; inv_bind H; inv_ok H.
  apply direct_fold_lookup; try assumption; try discriminate.
  - rewrite (direct_map_keys _ _ Hit); apply direct_fields_nodup.
  - unfold pipeline.direct_map in Hit; inv_bind Hit; inv_ok Hit.
    simpl; tauto.
Qed.

Lemma format_rule_other (when_yes item item' : dict value) (k : string) :
  pipeline.format_rule when_yes item = Ok item' ->
  k <> "Autograph Format" -> dget item' k = dget item k.
Proof.
  unfold pipeline.format_rule; intros H Hk.
  destruct (get when_yes "Autograph Format"); try (now inv_ok H).
  cbv zeta in H; destruct (nonempty _ && truthy _); [|now inv_ok H].
  inv_bind H; inv_ok H.
  destruct (negb it); [now apply dget_dset_other | reflexivity].
Qed.

(** X20. For a card marked Autographed "Yes" (in any case, blanks around
    it allowed), when no derive_and_enforce rule targets "Autographed" and
    the autograph rules have an "Autographed" block whose when_yes is a
    mapping (or is left out), the returned "Autograph Authentication
    Number" is the empty string, whatever the card carried there. *)
Theorem X20_autographed_yes_blanks_number
    (card globals_defaults enforced ar blk when_yes item : dict value) :
  get_or enforced "autograph_rules" (VDict []) = VDict ar ->
  get ar "Autographed" = VDict blk ->
  get_or blk "when_yes" (VDict []) = VDict when_yes ->
  lower (pipeline.norm_optional
           (por (get card "Autographed") (get card "autographed"))) = "yes" ->
  ~ derive_target enforced "Autographed" ->
  pipeline.build_item_specifics card globals_defaults enforced = Ok item ->
  dget item "Autograph Authentication Number" = Some (VStr "").
Proof.
  intros Har Hblk Hyes Hauto Hnt H.
  set (raw := por (get card "Autographed") (get card "autographed")) in *.
  assert (nonempty (pipeline.norm_optional raw) = true) as Hne
    by (destruct (pipeline.norm_optional raw); [discriminate Hauto | reflexivity]).
  unfold pipeline.build_item_specifics in H; inv_bind H.
  apply finish_item_steps in H as (i4 & i5 & i8 & H4 & H5 & H8 & ->).
  rewrite insert_set_layer_other by discriminate.
  rewrite (print_run_layer_other _ _ _ _ H8) by discriminate.
  rewrite features_layer_other, parallel_layer_other by discriminate.
  assert (dget i4 "Autographed" = Some (VStr (pipeline.norm_optional raw))) as Hi4.
  { apply conditional_layer_writes in H4.
    rewrite (writes_frame _ _ _ "Autographed" H4)
      by (intros v Hv; apply conditional_write_keys in Hv; simpl in Hv;
          intuition discriminate).
    unfold pipeline.derived_item in Hit; inv_bind Hit.
    apply derive_layer_writes in Hit.
    rewrite (writes_frame _ _ _ "Autographed" Hit) by (intros _; exact Hnt).
    now apply (direct_layer_autographed card _ _ Hit0). }
  unfold pipeline.autograph_layer in H5; rewrite Har, Hblk in H5.
  unfold get, get_or in H5; rewrite Hi4 in H5; fold (get_or blk "when_yes" (VDict [])) in H5.
  rewrite norm_optional_idem, norm_optional_never_no, Hauto, Hyes in H5.
  cbn [String.eqb Ascii.eqb] in H5; simpl in H5.
  unfold pipeline.when_yes_rules in H5; inv_bind H5; cbv zeta in H5.
  rewrite (format_rule_other _ _ _ _ H5) by discriminate.
  apply dget_dset_same.
Qed.

Lemma X20_autographed_yes_witness :
  exists item,
    pipeline.build_item_specifics
      [ ("player_first", VStr "Jane"); ("player_last", VStr "Doe");
        ("Autographed", VStr " YES ");
        ("Autograph Authentication Number", VStr "AB12345") ]
      []
      [ ("autograph_rules",
         VDict [("Autographed",
                 VDict [("when_yes",
                         VDict [("Signed By", VDict [("from", VStr "player_name")])])])]) ]
      = Ok item /\
    dget item "Autograph Authentication Number" = Some (VStr "") /\
    dget item "Signed By" = Some (VStr "Jane Doe").
Proof.
  eexists; split; [vm_compute; reflexivity|]; split; [|reflexivity].
  apply (X20_autographed_yes_blanks_number
           [ ("player_first", VStr "Jane"); ("player_last", VStr "Doe");
             ("Autographed", VStr " YES ");
             ("Autograph Authentication Number", VStr "AB12345") ]
           []
           [ ("autograph_rules",
              VDict [("Autographed",
                      VDict [("when_yes",
                              VDict [("Signed By",
                                      VDict [("from", VStr "player_name")])])])]) ]
           [("Autographed",
             VDict [("when_yes",
                     VDict [("Signed By", VDict [("from", VStr "player_name")])])])]
           [("when_yes", VDict [("Signed By", VDict [("from", VStr "player_name")])])]
           [("Signed By", VDict [("from", VStr "player_name")])] _);
    try reflexivity.
  intros (dae & E & Hin); vm_compute in E; injection E as <-; exact Hin.
Defined.

(* ================================================================== *)
(** ** Schema names and the names reported as unknown *)
(* ================================================================== *)

Lemma aspect_names_In (aspects : list value) (k : string) :
  In k (pipeline.aspect_names aspects) <->
  exists a, In (VDict a) aspects /\ truthy (get a "name") = true /\
            str (get a "name") = k.
Proof.
  induction aspects as [|x aspects IH].
  - simpl; split; [tauto | now intros (a & [] & _)].
  - assert (In k (pipeline.aspect_names aspects) -> 
            exists a, In (VDict a) (x :: aspects) /\ truthy (get a "name") = true /\
                      str (get a "name") = k) as Hup.
    { intros H; apply IH in H as (a & Ha & Ht); exists a; split; [now right | exact Ht]. }
    destruct x as [| | | | | |a0];
      try (cbn [pipeline.aspect_names]; split; [exact Hup|];
           intros (a & [E | Ha] & Ht); [discriminate E|]; apply IH; eauto).
    cbn [pipeline.aspect_names].
    destruct (truthy (get a0 "name")) eqn:Et.
    + split.
      * intros [E | H]; [|now apply Hup].
        exists a0; split; [now left | now split].
      * intros (a & [E | Ha] & Ht & Hs).
        -- injection E as ->; now left.
        -- right; apply IH; eauto.
    + split; [exact Hup|].
      intros (a & [E | Ha] & Ht & Hs).
      * injection E as ->; congruence.
      * apply IH; eauto.
Qed.

Lemma schema_aspect_names_In (schema : value) (k : string) :
  In k (pipeline.schema_aspect_names schema) <-> schema_declares schema k.
Proof.
  unfold schema_declares; destruct schema as [| | | | |aspects|];
    try (simpl; split; [tauto | now intros (? & ? & E & _)]).
  cbn [pipeline.schema_aspect_names]; rewrite aspect_names_In; split.
  - intros (a & H); exists aspects, a; now split.
  - intros (l & a & E & H); injection E as <-; eauto.
Qed.

Lemma insert_sorted_In (x k : string) (l : list string) :
  In k (pipeline.insert_sorted x l) <-> k = x \/ In k l.
Proof.
  induction l as [|y l IH]; simpl; [intuition|].
  destruct (String.leb x y); simpl; [intuition|].
  rewrite IH; intuition.
Qed.

Lemma sorted_In (k : string) (l : list string) :
  In k (pipeline.sorted l) <-> In k l.
Proof.
  induction l as [|x l IH]; simpl; [tauto|].
  rewrite insert_sorted_In, IH; intuition.
Qed.

Lemma insert_sorted_ascending (x : string) (l : list string) :
  ascending l -> ascending (pipeline.insert_sorted x l).
Proof.
  unfold ascending; induction l as [|y l IH]; intros H; simpl.
  - repeat constructor.
  - destruct (String.leb x y) eqn:E.
    + constructor; [exact H | now constructor].
    + inversion H as [|? ? Hs Hd]; subst.
      constructor; [now apply IH|].
      destruct l as [|z l]; simpl.
      * constructor; destruct (String.leb_total x y); congruence.
      * destruct (String.leb x z); constructor.
        -- destruct (String.leb_total x y); congruence.
        -- now inversion Hd.
Qed.

Lemma sorted_ascending (l : list string) : ascending (pipeline.sorted l).
Proof.
  induction l as [|x l IH]; simpl; [constructor | now apply insert_sorted_ascending].
Qed.

Lemma insert_sorted_length (x : string) (l : list string) :
  List.length (pipeline.insert_sorted x l) = S (List.length l).
Proof.
  induction l as [|y l IH]; simpl; [reflexivity|].
  destruct (String.leb x y); simpl; [reflexivity | now rewrite IH].
Qed.

Lemma unknown_names_In (item : dict value) (allowed : list string) (k : string) :
  In k (pipeline.unknown_names item allowed) <->
  In k (map fst item) /\ ~ In k allowed.
Proof.
  unfold pipeline.unknown_names; rewrite sorted_In, filter_In.
  rewrite negb_true_iff, <- not_true_iff_false, existsb_eqb_In; tauto.
Qed.

(** X21. The names reported as unknown are exactly the keys of the item
    specifics that no schema entry declares (an entry declares a name when
    it is a dict with a truthy "name", printed with [str]); the report is
    in ascending order; and a schema that is not a list declares nothing,
    so that every key is then reported. *)
Theorem X21_unknown_names_complement (item : dict value) (schema : value) :
  let unknown := pipeline.unknown_names item (pipeline.schema_aspect_names schema) in
  (forall k, In k unknown <-> In k (map fst item) /\ ~ schema_declares schema k) /\
  ascending unknown /\
  ((forall aspects, schema <> VList aspects) ->
   forall k, In k (map fst item) -> In k unknown).
Proof.
  cbv zeta; split; [|split].
  - intros k; rewrite unknown_names_In, schema_aspect_names_In; tauto.
  - apply sorted_ascending.
  - intros Hs k Hk; apply unknown_names_In; split; [exact Hk|].
    rewrite schema_aspect_names_In; intros (aspects & a & E & _).
    now apply (Hs aspects).
Qed.

Lemma X21_unknown_names_witness :
  pipeline.unknown_names [("Sport", VStr "Basketball"); ("Features", VStr "RC")]
    (pipeline.schema_aspect_names schema_object) = ["Features"; "Sport"] /\
  In "Sport"
     (pipeline.unknown_names [("Sport", VStr "Basketball"); ("Features", VStr "RC")]
        (pipeline.schema_aspect_names schema_object)) /\
  pipeline.unknown_names [("Sport", VStr "Basketball"); ("Vintage", VBool false)]
    (pipeline.schema_aspect_names schema_sample) = ["Vintage"].
Proof.
  split; [reflexivity|]; split; [|reflexivity].
  apply (X21_unknown_names_complement
           [("Sport", VStr "Basketball"); ("Features", VStr "RC")] schema_object).
  - intros aspects E; discriminate E.
  - simpl; tauto.
Defined.

(* ================================================================== *)
(** ** The payload *)
(* ================================================================== *)

Lemma build_ebay_title_fits (card : dict value) (title : string) (dropped : list string) :
  title_builder.build_ebay_title card = Ok (title, dropped) ->
  String.length title <= 80.
Proof.
  intros H; destruct (build_ok_serial card _ H) as [o Hs].
  destruct (title_search card o Hs) as (n & Hb & _); cbv zeta in Hb.
  rewrite Hb in H.
  destruct (Nat.ltb_spec 80
              (String.length (title_without card (firstn n (present_priority card)))))
    as [Hgt | Hle]; [discriminate H|].
  now injection H as <- <-.
Qed.

Lemma dmem_In {A : Type} (d : dict A) (k : string) :
  In k (map fst d) -> dmem d k = true.
Proof.
  unfold dmem; intros H; destruct (dget d k) eqn:E; [reflexivity|].
  exfalso; revert H E; induction d as [|[k' v] d IH]; simpl; [tauto|].
  destruct (String.eqb_spec k' k) as [-> | Hne]; [discriminate|].
  intros [H | H]; [congruence | now apply IH].
Qed.

(** X22. The payload is built only when both the title and the item
    specifics are: a title error comes first, an item-specifics error
    second.  A payload carries a title of at most 80 characters and the
    item specifics whole: a name reported as unknown is still one of
    their keys. *)
Theorem X22_payload_composes (card : dict value) (schema : value)
    (globals_defaults enforced : dict value) :
  (forall e, title_builder.build_ebay_title card = Raise e ->
             pipeline.payload card schema globals_defaults enforced = Raise e) /\
  (forall td e, title_builder.build_ebay_title card = Ok td ->
                pipeline.build_item_specifics card globals_defaults enforced = Raise e ->
                pipeline.payload card schema globals_defaults enforced = Raise e) /\
  (forall p, pipeline.payload card schema globals_defaults enforced = Ok p ->
     exists title dropped item,
       title_builder.build_ebay_title card = Ok (title, dropped) /\
       pipeline.build_item_specifics card globals_defaults enforced = Ok item /\
       String.length title <= 80 /\
       get p "title" = VStr title /\
       get p "item_specifics" = VDict item /\
       get p "category_id" = VStr "261328" /\
       forall k, In k (pipeline.unknown_names item (pipeline.schema_aspect_names schema)) ->
                 dmem item k = true).
Proof.
  unfold pipeline.payload; split; [|split].
  - now intros e ->.
  - now intros td e -> ->.
  - intros p H; inv_bind H; inv_bind H; cbv zeta in H; inv_ok H.
    destruct it as [title dropped]; exists title, dropped, it0.
    repeat split; try assumption; try reflexivity.
    + eapply build_ebay_title_fits; eassumption.
    + intros k Hk; apply unknown_names_In in Hk as [Hk _]; now apply dmem_In.
Qed.

Lemma X22_payload_witness :
  exists p,
    pipeline.payload card_plain schema_sample globals_sample [] = Ok p /\
    get p "title" = VStr "Jane Doe".
Proof.
  eexists; split; [vm_compute; reflexivity|].
  destruct (X22_payload_composes card_plain schema_sample globals_sample [])
    as (_ & _ & H).
  destruct (H _ eq_refl) as (title & dropped & item & Ht & _ & _ & Hp & _).
  vm_compute in Ht; injection Ht as <- <-; exact Hp.
Defined.

(* ================================================================== *)
(** ** A derive rule on the card number *)
(* ================================================================== *)

Lemma derive_fold_lookup (card dae : dict value) (target : string) (rule : value)
    (val : string) :
  NoDup (map fst dae) -> In (target, rule) dae ->
  (forall item, pipeline.derive_step card item (target, rule)
                = Ok (dset item target (VStr val))) ->
  forall item item',
    pipeline.foldM (pipeline.derive_step card) dae item = Ok item' ->
    dget item' target = Some (VStr val).
Proof.
  intros Hnd Hin Hstep; induction dae as [|[k1 r1] dae IH]; intros item item' H;
    [contradiction|].
  inversion Hnd as [|? ? Hnotin Hnd']; subst.
  cbn [pipeline.foldM] in H; inv_bind H.
  destruct Hin as [E | Hin].
  - injection E as -> ->.
    rewrite Hstep in Hit; inv_ok Hit.
    rewrite (writes_frame _ _ _ target (derive_fold_writes _ _ _ _ H))
      by (intros _; exact Hnotin).
    apply dget_dset_same.
  - eapply IH; eassumption.
Qed.

(** X23. A derive rule from "card_number" with the strip_hash transform
    decides the field it targets: the result holds there the card number
    printed with [str], trimmed and with one leading hash removed,
    whatever the card's direct field said, provided that text is not
    empty and no later layer owns the field. *)
Theorem X23_derived_card_number
    (card globals_defaults enforced dae rule item : dict value) (target : string) :
  get_or enforced "derive_and_enforce" (VDict []) = VDict dae ->
  NoDup (map fst dae) ->
  In (target, VDict rule) dae ->
  get rule "from" = VStr "card_number" ->
  get rule "transform" = VStr "strip_hash" ->
  (forall v, ~ conditional_write target v) ->
  (forall v, ~ late_write card enforced target v) ->
  pipeline.strip_hash (strip (str (get_or card "card_number" (VStr "")))) <> "" ->
  pipeline.build_item_specifics card globals_defaults enforced = Ok item ->
  dget item target
  = Some (VStr (pipeline.strip_hash
                  (strip (str (get_or card "card_number" (VStr "")))))).
Proof.
  intros Hdae Hnd Hin Hfrom Hx Hc Hl Hne H.
  apply build_item_specifics_inv in H as (i3 & i4 & H3 & _ & H4 & Hlate).
  apply conditional_layer_writes in H4.
  rewrite (writes_frame _ _ _ target Hlate Hl).
  rewrite (writes_frame _ _ _ target H4 Hc).
  unfold pipeline.derived_item in H3; inv_bind H3.
  unfold pipeline.derive_layer in H3; rewrite Hdae in H3.
  apply (derive_fold_lookup card dae target (VDict rule)
           (pipeline.strip_hash (strip (str (get_or card "card_number" (VStr "")))))
           Hnd Hin) with (item := it); [|exact H3].
  intros item0; unfold pipeline.derive_step; rewrite Hfrom, Hx.
  change (eq_str (VStr "card_number") "player_name") with false.
  change (eq_str (VStr "card_number") "card_number") with true.
  change (eq_str (VStr "strip_hash") "strip_hash") with true.
  cbn [bind]; apply nonempty_true in Hne; now rewrite Hne.
Qed.

Lemma X23_derived_card_number_witness :
  exists item,
    pipeline.build_item_specifics card_hash_number [] enforced_card_number = Ok item /\
    dget item "Card Number" = Some (VStr "23") /\
    pipeline.strip_hash (strip (str VNone)) = "None".
Proof.
  eexists; split; [vm_compute; reflexivity|]; split; [|reflexivity].
  apply (X23_derived_card_number card_hash_number [] enforced_card_number
           [ ("Card Number",
              VDict [("from", VStr "card_number"); ("transform", VStr "strip_hash")]) ]
           [("from", VStr "card_number"); ("transform", VStr "strip_hash")]
           _ "Card Number");
    try reflexivity.
  - repeat constructor; simpl; tauto.
  - simpl; tauto.
  - intros v Hv; apply conditional_write_keys in Hv; simpl in Hv;
      intuition discriminate.
  - intros v Hv; apply late_write_keys in Hv; simpl in Hv; intuition discriminate.
  - vm_compute; discriminate.
Defined.

(* ================================================================== *)
(** ** The Autograph Format policy *)
(* ================================================================== *)

Lemma autographed_yes_steps
    (card globals_defaults enforced ar blk when_yes item : dict value) :
  get_or enforced "autograph_rules" (VDict []) = VDict ar ->
  get ar "Autographed" = VDict blk ->
  get_or blk "when_yes" (VDict []) = VDict when_yes ->
  lower (pipeline.norm_optional
           (por (get card "Autographed") (get card "autographed"))) = "yes" ->
  ~ derive_target enforced "Autographed" ->
  pipeline.build_item_specifics card globals_defaults enforced = Ok item ->
  exists i4 i5,
    pipeline.when_yes_rules card when_yes i4 = Ok i5 /\
    forall k, ~ In k ["Parallel/Variety"; "Features"; "Print Run"; "Insert Set"] ->
              dget item k = dget i5 k.
Proof.
  intros Har Hblk Hyes Hauto Hnt H.
  set (raw := por (get card "Autographed") (get card "autographed")) in *.
  assert (nonempty (pipeline.norm_optional raw) = true) as Hne
    by (destruct (pipeline.norm_optional raw); [discriminate Hauto | reflexivity]).
  unfold pipeline.build_item_specifics in H; inv_bind H.
  apply finish_item_steps in H as (i4 & i5 & i8 & H4 & H5 & H8 & ->).
  exists i4, i5; split.
  - assert (dget i4 "Autographed" = Some (VStr (pipeline.norm_optional raw))) as Hi4.
    { apply conditional_layer_writes in H4.
      rewrite (writes_frame _ _ _ "Autographed" H4)
        by (intros v Hv; apply conditional_write_keys in Hv; simpl in Hv;
            intuition discriminate).
      unfold pipeline.derived_item in Hit; inv_bind Hit.
      apply derive_layer_writes in Hit.
      rewrite (writes_frame _ _ _ "Autographed" Hit) by (intros _; exact Hnt).
      now apply (direct_layer_autographed card _ _ Hit0). }
    unfold pipeline.autograph_layer in H5; rewrite Har, Hblk in H5.
    unfold get, get_or in H5; rewrite Hi4 in H5;
      fold (get_or blk "when_yes" (VDict [])) in H5.
    rewrite norm_optional_idem, norm_optional_never_no, Hauto, Hyes in H5.
    exact H5.
  - intros k Hk; simpl in Hk.
    rewrite insert_set_layer_other by (intros ->; tauto).
    rewrite (print_run_layer_other _ _ _ _ H8) by (intros ->; tauto).
    rewrite features_layer_other, parallel_layer_other by (intros ->; tauto).
    reflexivity.
Qed.

Lemma existsb_eq_str (current : string) (l : list value) :
  existsb (fun v => eq_str v current) l = true -> In (VStr current) l.
Proof.
  rewrite existsb_exists; intros (v & Hin & E).
  destruct v; try discriminate E; simpl in E.
  apply String.eqb_eq in E; now subst.
Qed.

(** X24. For a card marked Autographed "Yes", when no derive_and_enforce
    rule targets "Autographed" and the when_yes policy has an "Autograph
    Format" entry that lists the allowed formats (a non-empty list), the
    returned Autograph Format, read through the normaliser, is empty or
    one of the allowed formats: a present format outside the list is
    blanked. *)
Theorem X24_autograph_format_policy
    (card globals_defaults enforced ar blk when_yes af item : dict value)
    (allowed : list value) :
  get_or enforced "autograph_rules" (VDict []) = VDict ar ->
  get ar "Autographed" = VDict blk ->
  get_or blk "when_yes" (VDict []) = VDict when_yes ->
  get when_yes "Autograph Format" = VDict af ->
  get_or af "allowed_by_policy" (VList []) = VList allowed ->
  allowed <> [] ->
  lower (pipeline.norm_optional
           (por (get card "Autographed") (get card "autographed"))) = "yes" ->
  ~ derive_target enforced "Autographed" ->
  pipeline.build_item_specifics card globals_defaults enforced = Ok item ->
  pipeline.norm_optional (get item "Autograph Format") = "" \/
  In (VStr (pipeline.norm_optional (get item "Autograph Format"))) allowed.
Proof.
  intros Har Hblk Hyes Haf Hal Hnil Hauto Hnt H.
  destruct (autographed_yes_steps _ _ _ _ _ _ _ Har Hblk Hyes Hauto Hnt H)
    as (i4 & i5 & H5 & Hsame).
  assert (get item "Autograph Format" = get i5 "Autograph Format") as ->.
  { unfold get, get_or; rewrite Hsame; [reflexivity|].
    simpl; intuition discriminate. }
  unfold pipeline.when_yes_rules in H5; inv_bind H5; cbv zeta in H5.
  unfold pipeline.format_rule in H5; rewrite Haf, Hal in H5; cbv zeta in H5.
  set (j := dset (pipeline.authentication_rule when_yes it)
                 "Autograph Authentication Number" (VStr "")) in *.
  assert (truthy (VList allowed) = true) as Ht
    by (destruct allowed; [congruence | reflexivity]).
  rewrite Ht, andb_true_r in H5.
  destruct (nonempty (pipeline.norm_optional (get j "Autograph Format"))) eqn:Ecur.
  - cbn [pipeline.py_in bind] in H5.
    destruct (existsb _ allowed) eqn:Ein; cbn [negb] in H5; inv_ok H5.
    + right; now apply existsb_eq_str.
    + left; unfold get, get_or; now rewrite dget_dset_same.
  - inv_ok H5; left.
    destruct (pipeline.norm_optional (get j "Autograph Format"));
      [reflexivity | discriminate Ecur].
Qed.

Lemma X24_autograph_format_witness :
  exists item,
    pipeline.build_item_specifics
      [ ("player_first", VStr "Jane"); ("player_last", VStr "Doe");
        ("autographed", VStr "Yes"); ("Autograph Format", VStr "Cut") ]
      []
      [ ("autograph_rules",
         VDict [("Autographed",
                 VDict [("when_yes",
                         VDict [("Autograph Format",
                                 VDict [("allowed_by_policy",
                                         VList [VStr "Hard Signed"; VStr "Label or Sticker"])])])])]) ]
      = Ok item /\
    get item "Autograph Format" = VStr "" /\
    (pipeline.norm_optional (get item "Autograph Format") = "" \/
     In (VStr (pipeline.norm_optional (get item "Autograph Format")))
        [VStr "Hard Signed"; VStr "Label or Sticker"]).
Proof.
  eexists; split; [vm_compute; reflexivity|]; split; [reflexivity|].
  apply (X24_autograph_format_policy
           [ ("player_first", VStr "Jane"); ("player_last", VStr "Doe");
             ("autographed", VStr "Yes"); ("Autograph Format", VStr "Cut") ]
           []
           [ ("autograph_rules",
              VDict [("Autographed",
                      VDict [("when_yes",
                              VDict [("Autograph Format",
                                      VDict [("allowed_by_policy",
                                              VList [VStr "Hard Signed"; VStr "Label or Sticker"])])])])]) ]
           [("Autographed",
             VDict [("when_yes",
                     VDict [("Autograph Format",
                             VDict [("allowed_by_policy",
                                     VList [VStr "Hard Signed"; VStr "Label or Sticker"])])])])]
           [("when_yes",
             VDict [("Autograph Format",
                     VDict [("allowed_by_policy",
                             VList [VStr "Hard Signed"; VStr "Label or Sticker"])])])]
           [("Autograph Format",
             VDict [("allowed_by_policy",
                     VList [VStr "Hard Signed"; VStr "Label or Sticker"])])]
           [("allowed_by_policy", VList [VStr "Hard Signed"; VStr "Label or Sticker"])]
           _ [VStr "Hard Signed"; VStr "Label or Sticker"]);
    try reflexivity.
  - discriminate.
  - intros (dae & E & Hin); vm_compute in E; injection E as <-; exact Hin.
Defined.
